(** * Courgette: compiler and validator

    A shallow embedding of [compiler.js] (both variants kept in the
    repository) and [validator.js], and the properties of the written
    specification checked against them.

    Modelling conventions.
    - A JavaScript string is a [string] of 8-bit code units: the model
      covers source texts in the Latin-1 range.
    - A regular expression literal is translated constructor by
      constructor into the type [re]; a backtracking matcher gives the
      matches in the priority order of the ECMAScript semantics, so the
      first one is the match JavaScript reports.
    - The mutable array [errors] of the validator is an append-only log:
      every step returns the diagnostics it pushes.
    - Numbers read by [parseFloat] are kept as exact decimals.
    - Where a pattern is quoted in a comment, a blank separates a star
      from a closing parenthesis that follows it. *)

From Stdlib Require Import String Ascii List ZArith Lia Bool Arith QArith Sorted.
Import ListNotations.
Open Scope string_scope.
Open Scope nat_scope.

(* ================================================================= *)
(** * Characters and JavaScript string primitives *)

Module Js.

Definition code (c : ascii) : nat := nat_of_ascii c.

Definition between (lo hi : nat) (c : ascii) : bool :=
  (lo <=? code c) && (code c <=? hi).

(** [\s]: tab, line feed, vertical tab, form feed, carriage return,
    space and no-break space. *)
Definition is_space (c : ascii) : bool :=
  between 9 13 c || (code c =? 32) || (code c =? 160).

Definition is_digit (c : ascii) : bool := between 48 57 c.
Definition is_upper (c : ascii) : bool := between 65 90 c.
Definition is_lower (c : ascii) : bool := between 97 122 c.
Definition is_alpha (c : ascii) : bool := is_upper c || is_lower c.

Definition digit_val (c : ascii) : nat := code c - 48.

(** [\w] *)
Definition is_word (c : ascii) : bool :=
  is_alpha c || is_digit c || (code c =? 95).

(** [.] excludes the line terminators. *)
Definition is_dot (c : ascii) : bool :=
  negb ((code c =? 10) || (code c =? 13)).

Definition is_char (x c : ascii) : bool := Ascii.eqb c x.

(** Canonical form used by the [i] flag: only ASCII letters fold onto
    ASCII letters. *)
Definition upcase (c : ascii) : ascii :=
  if is_lower c then ascii_of_nat (code c - 32) else c.

Definition is_char_i (x c : ascii) : bool := Ascii.eqb (upcase c) (upcase x).

Definition lower_char (c : ascii) : ascii :=
  if is_upper c then ascii_of_nat (code c + 32)
  else if between 192 222 c && negb (code c =? 215)
       then ascii_of_nat (code c + 32)
       else c.

Fixpoint toLowerCase (s : string) : string :=
  match s with
  | EmptyString => EmptyString
  | String c t => String (lower_char c) (toLowerCase t)
  end.

Fixpoint startsWith (s p : string) {struct p} : bool :=
  match p, s with
  | EmptyString, _ => true
  | String a p', String b s' => Ascii.eqb a b && startsWith s' p'
  | String _ _, EmptyString => false
  end.

Fixpoint drop (n : nat) (s : string) : string :=
  match n, s with
  | O, _ => s
  | S n', String _ t => drop n' t
  | S _, EmptyString => EmptyString
  end.

Fixpoint take (n : nat) (s : string) : string :=
  match n, s with
  | O, _ => EmptyString
  | S n', String c t => String c (take n' t)
  | S _, EmptyString => EmptyString
  end.

(** [s.substring(a)] and [s.substring(a, b)] for [a <= b]. *)
Definition substring_from (a : nat) (s : string) : string := drop a s.
Definition substring (a b : nat) (s : string) : string := take (b - a) (drop a s).

Fixpoint rev_acc (s acc : string) : string :=
  match s with
  | EmptyString => acc
  | String c t => rev_acc t (String c acc)
  end.

Definition rev (s : string) : string := rev_acc s EmptyString.

Fixpoint trimStart (s : string) : string :=
  match s with
  | String c t => if is_space c then trimStart t else s
  | EmptyString => EmptyString
  end.

Definition trimEnd (s : string) : string := rev (trimStart (rev s)).

Definition trim (s : string) : string := trimEnd (trimStart s).

Definition endsWith (s p : string) : bool := startsWith (rev s) (rev p).

(** [s.indexOf(p)]: the first position of [p], or [-1]. *)
Fixpoint indexOf_from (i : nat) (s p : string) : Z :=
  if startsWith s p then Z.of_nat i
  else match s with
       | EmptyString => (-1)%Z
       | String _ t => indexOf_from (S i) t p
       end.

Definition indexOf (s p : string) : Z := indexOf_from 0 s p.

Definition includes (s p : string) : bool := (0 <=? indexOf s p)%Z.

(** [s.lastIndexOf(p)]: the last position of [p], or [-1]. *)
Fixpoint lastIndexOf_from (i : nat) (s p : string) (best : Z) : Z :=
  let best' := if startsWith s p then Z.of_nat i else best in
  match s with
  | EmptyString => best'
  | String _ t => lastIndexOf_from (S i) t p best'
  end.

Definition lastIndexOf (s p : string) : Z := lastIndexOf_from 0 s p (-1)%Z.

(** [s.split(sep)] for a one-character separator. *)
Fixpoint split_char (sep : ascii) (s cur : string) : list string :=
  match s with
  | EmptyString => [rev cur]
  | String c t =>
      if Ascii.eqb c sep then rev cur :: split_char sep t EmptyString
      else split_char sep t (String c cur)
  end.

Definition nl : string := String "010"%char EmptyString.
Definition tab : string := String "009"%char EmptyString.
Definition dq : string := String "034"%char EmptyString.
Definition sq : string := String "039"%char EmptyString.

Definition split_lines (s : string) : list string := split_char "010"%char s EmptyString.

Fixpoint join (sep : string) (l : list string) : string :=
  match l with
  | [] => EmptyString
  | [x] => x
  | x :: t => x ++ sep ++ join sep t
  end.

Definition len (s : string) : Z := Z.of_nat (String.length s).

(** Membership in an array of strings ([Array.prototype.includes]). *)
Definition mem (x : string) (l : list string) : bool :=
  existsb (String.eqb x) l.

(** Insertion into a [Set] of strings: insertion order is kept and a
    value already present stays where it is. *)
Definition set_add (x : string) (l : list string) : list string :=
  if mem x l then l else l ++ [x].

End Js.

(* ================================================================= *)
(** * Regular expressions *)

Module Re.

Import Js.

Inductive re : Type :=
| Eps                                   (* empty pattern *)
| Chr (p : ascii -> bool)               (* one character, class [p] *)
| Seq (a b : re)
| Alt (a b : re)                        (* a|b *)
| Star (greedy : bool) (a : re)         (* a* and a*? *)
| Group (n : nat) (a : re)              (* n-th capturing group *)
| Bol                                   (* ^ *)
| Eol                                   (* $ *)
| WordB                                 (* \b *)
| NegLook (a : re).                     (* (?!a) *)

Definition Plus (a : re) : re := Seq a (Star true a).        (* a+ *)
Definition PlusLazy (a : re) : re := Seq a (Star false a).   (* a+? *)
Definition Opt (a : re) : re := Alt a Eps.                   (* a? *)

Fixpoint seqs (l : list re) : re :=
  match l with
  | [] => Eps
  | [a] => a
  | a :: t => Seq a (seqs t)
  end.

Fixpoint alts (l : list re) : re :=
  match l with
  | [] => NegLook Eps
  | [a] => a
  | a :: t => Alt a (alts t)
  end.

(** A literal, and a literal under the [i] flag. *)
Fixpoint lit (s : string) : re :=
  match s with
  | EmptyString => Eps
  | String c EmptyString => Chr (is_char c)
  | String c t => Seq (Chr (is_char c)) (lit t)
  end.

Fixpoint liti (s : string) : re :=
  match s with
  | EmptyString => Eps
  | String c EmptyString => Chr (is_char_i c)
  | String c t => Seq (Chr (is_char_i c)) (liti t)
  end.

Definition ws : re := Chr is_space.                       (* \s *)
Definition nws : re := Chr (fun c => negb (is_space c)).  (* \S *)
Definition wd : re := Chr is_word.                        (* \w *)
Definition dg : re := Chr is_digit.                       (* \d *)
Definition dot : re := Chr is_dot.                        (* . *)
Definition ws0 : re := Star true ws.                      (* \s* *)
Definition ws1 : re := Plus ws.                           (* \s+ *)

(** One of the characters of [s]. *)
Definition one_of (s : string) (c : ascii) : bool :=
  existsb (Ascii.eqb c) (list_ascii_of_string s).

(** The matcher state: the character before the current position
    ([None] at the start of the input), the rest of the input, and the
    captures made so far. *)
Record mstate : Type := MS {
  ms_prev : option ascii;
  ms_rest : string;
  ms_caps : list (nat * string)
}.

Definition consumed (st st' : mstate) : string :=
  take (String.length (ms_rest st) - String.length (ms_rest st')) (ms_rest st).

Definition set_cap (n : nat) (v : string) (caps : list (nat * string)) :=
  (n, v) :: filter (fun p => negb (fst p =? n)) caps.

Fixpoint get_cap (n : nat) (caps : list (nat * string)) : option string :=
  match caps with
  | [] => None
  | (k, v) :: t => if k =? n then Some v else get_cap n t
  end.

Definition word_opt (o : option ascii) : bool :=
  match o with Some c => is_word c | None => false end.

Definition next_char (s : string) : option ascii :=
  match s with String c _ => Some c | EmptyString => None end.

(** Iterations of a starred pattern; an iteration that consumes nothing
    is rejected, as in ECMAScript. *)
Fixpoint star_iter (one : mstate -> list mstate) (greedy : bool)
         (fuel : nat) (st : mstate) : list mstate :=
  match fuel with
  | O => [st]
  | S f =>
      let nexts :=
        filter (fun st' => String.length (ms_rest st') <? String.length (ms_rest st))
               (one st) in
      let more := flat_map (star_iter one greedy f) nexts in
      if greedy then more ++ [st] else st :: more
  end.

(** All the ways [r] matches at the current position, in backtracking
    order. *)
Fixpoint rmatch (r : re) (st : mstate) : list mstate :=
  match r with
  | Eps => [st]
  | Chr p =>
      match ms_rest st with
      | String c t => if p c then [MS (Some c) t (ms_caps st)] else []
      | EmptyString => []
      end
  | Seq a b => flat_map (rmatch b) (rmatch a st)
  | Alt a b => rmatch a st ++ rmatch b st
  | Star g a => star_iter (rmatch a) g (String.length (ms_rest st)) st
  | Group n a =>
      map (fun st' => MS (ms_prev st') (ms_rest st')
                         (set_cap n (consumed st st') (ms_caps st')))
          (rmatch a st)
  | Bol => match ms_prev st with None => [st] | Some _ => [] end
  | Eol => match ms_rest st with EmptyString => [st] | String _ _ => [] end
  | WordB =>
      if xorb (word_opt (ms_prev st)) (word_opt (next_char (ms_rest st)))
      then [st] else []
  | NegLook a => match rmatch a st with [] => [st] | _ :: _ => [] end
  end.

Fixpoint ngroups (r : re) : nat :=
  match r with
  | Seq a b | Alt a b => Nat.max (ngroups a) (ngroups b)
  | Star _ a | NegLook a => ngroups a
  | Group n a => Nat.max n (ngroups a)
  | _ => 0
  end.

(** A match: the text before it, the matched text, the text after it,
    the character before the end position and the captures. *)
Record mresult : Type := MR {
  mr_before : string;
  mr_text : string;
  mr_after : string;
  mr_last : option ascii;
  mr_caps : list (nat * string)
}.

Definition mr_index (m : mresult) : nat := String.length (mr_before m).

Definition cap (n : nat) (m : mresult) : option string := get_cap n (mr_caps m).
Definition cap_or_empty (n : nat) (m : mresult) : string :=
  match cap n m with Some v => v | None => EmptyString end.

(** The leftmost match at or after the current position. [skipped]
    holds, reversed, the characters passed over. *)
Fixpoint search (r : re) (skipped : string) (prev : option ascii) (s : string)
  : option mresult :=
  match rmatch r (MS prev s []) with
  | st' :: _ =>
      Some (MR (rev skipped) (consumed (MS prev s []) st') (ms_rest st')
               (ms_prev st') (ms_caps st'))
  | [] =>
      match s with
      | EmptyString => None
      | String c t => search r (String c skipped) (Some c) t
      end
  end.

(** [r.exec(s)] / [s.match(r)] without the [g] flag. *)
Definition exec (r : re) (s : string) : option mresult := search r EmptyString None s.

(** [r.test(s)] *)
Definition test (r : re) (s : string) : bool :=
  match exec r s with Some _ => true | None => false end.

(** All the matches of a [g] regular expression, left to right. After an
    empty match the search resumes one character further. *)
Fixpoint exec_all_from (fuel : nat) (r : re) (pre : string)
         (prev : option ascii) (s : string) : list mresult :=
  match fuel with
  | O => []
  | S f =>
      match search r EmptyString prev s with
      | None => []
      | Some m =>
          let m' := MR (pre ++ mr_before m) (mr_text m) (mr_after m)
                       (mr_last m) (mr_caps m) in
          match mr_text m with
          | EmptyString =>
              match mr_after m with
              | EmptyString => [m']
              | String c t =>
                  m' :: exec_all_from f r (pre ++ mr_before m ++ String c EmptyString)
                                      (Some c) t
              end
          | String _ _ =>
              m' :: exec_all_from f r (pre ++ mr_before m ++ mr_text m)
                                  (mr_last m) (mr_after m)
          end
      end
  end.

Definition exec_all (r : re) (s : string) : list mresult :=
  exec_all_from (S (String.length s)) r EmptyString None s.

(** [s.match(r)] with the [g] flag: the matched texts ([null] is the
    empty list). *)
Definition match_all (r : re) (s : string) : list string :=
  map mr_text (exec_all r s).

(** ** Replacement text

    [GetSubstitution]: [$$], [$&], [$`], [$'] and [$n] / [$nn] are
    expanded; [m] is the number of capturing groups of the pattern and a
    reference beyond it stays as written. *)

Fixpoint expand (fuel : nat) (tmpl : string) (mr : mresult) (m : nat) : string :=
  match fuel with
  | O => EmptyString
  | S f =>
      match tmpl with
      | EmptyString => EmptyString
      | String c t =>
          if negb (code c =? 36) then String c (expand f t mr m)
          else
            match t with
            | EmptyString => String c EmptyString
            | String d t' =>
                if code d =? 36 then String d (expand f t' mr m)
                else if code d =? 38 then mr_text mr ++ expand f t' mr m
                else if code d =? 96 then mr_before mr ++ expand f t' mr m
                else if code d =? 39 then mr_after mr ++ expand f t' mr m
                else if is_digit d then
                  let two :=
                    match t' with
                    | String e t'' =>
                        if is_digit e then
                          let idx := 10 * digit_val d + digit_val e in
                          if (1 <=? idx) && (idx <=? m)
                          then Some (cap_or_empty idx mr ++ expand f t'' mr m)
                          else None
                        else None
                    | EmptyString => None
                    end in
                  match two with
                  | Some out => out
                  | None =>
                      let idx := digit_val d in
                      if (1 <=? idx) && (idx <=? m)
                      then cap_or_empty idx mr ++ expand f t' mr m
                      else String c (String d (expand f t' mr m))
                  end
                else String c (expand f t mr m)
            end
      end
  end.

Definition substitution (tmpl : string) (mr : mresult) (m : nat) : string :=
  expand (S (String.length tmpl)) tmpl mr m.

(** [s.replace(r, tmpl)] without the [g] flag. *)
Definition replace_first (r : re) (tmpl : string) (s : string) : string :=
  match exec r s with
  | None => s
  | Some m => mr_before m ++ substitution tmpl m (ngroups r) ++ mr_after m
  end.

(** [s.replace(r, tmpl)] with the [g] flag. *)
Fixpoint splice (tmpl : string) (m : nat) (pos : nat) (ms : list mresult)
         (s : string) : string :=
  match ms with
  | [] => drop pos s
  | mr :: rest =>
      substring pos (mr_index mr) s ++ substitution tmpl mr m
      ++ splice tmpl m (mr_index mr + String.length (mr_text mr)) rest s
  end.

Definition replace_all (r : re) (tmpl : string) (s : string) : string :=
  splice tmpl (ngroups r) 0 (exec_all r s) s.

(** [s.replace(pat, tmpl)] for a string pattern: the first occurrence. *)
Definition replace_string (pat tmpl : string) (s : string) : string :=
  match indexOf s pat with
  | Zneg _ => s
  | i =>
      let n := Z.to_nat i in
      let mr := MR (take n s) pat (drop (n + String.length pat) s) None [] in
      mr_before mr ++ substitution tmpl mr 0 ++ mr_after mr
  end.

(** [s.split(r)] for a pattern without capturing groups: the pattern is
    tried at each position [q]; a match ending at the start [p] of the
    current piece is skipped. [cur] holds, reversed, the piece so far. *)
Fixpoint split_from (fuel : nat) (r : re) (prev : option ascii)
         (cur : string) (s : string) : list string :=
  match fuel with
  | O => [rev cur ++ s]
  | S f =>
      match s with
      | EmptyString => [rev cur]
      | String c t =>
          match rmatch r (MS prev s []) with
          | st' :: _ =>
              if (String.length (ms_rest st') =? String.length s)
                 && (String.length cur =? 0)
              then split_from f r (Some c) (String c cur) t
              else rev cur :: split_from f r (ms_prev st') EmptyString (ms_rest st')
          | [] => split_from f r (Some c) (String c cur) t
          end
      end
  end.

Definition split (r : re) (s : string) : list string :=
  match s with
  | EmptyString => match rmatch r (MS None s []) with [] => [s] | _ :: _ => [] end
  | _ => split_from (2 * String.length s + 2) r None EmptyString s
  end.

End Re.

(* ================================================================= *)
(** * Numbers *)

Module Num.

Import Js.

(** A decimal [dmant / 10^dscale]: what [parseFloat] reads from a run of
    digits with an optional fraction. *)
Record decimal : Type := Dec { dmant : N; dscale : nat }.

Fixpoint digits_val (s : string) (acc : N) : N :=
  match s with
  | String c t => digits_val t (10 * acc + N.of_nat (digit_val c))%N
  | EmptyString => acc
  end.

Fixpoint take_digits (s : string) : string :=
  match s with
  | String c t => if is_digit c then String c (take_digits t) else EmptyString
  | EmptyString => EmptyString
  end.

(** [parseFloat(s)] on an unsigned decimal literal without exponent: the
    longest prefix [digits], [digits.], [digits.digits] or [.digits];
    [None] is [NaN]. *)
Definition parseFloat (s : string) : option decimal :=
  let s := trimStart s in
  let ip := take_digits s in
  let r := drop (String.length ip) s in
  let fp := match r with
            | String c t => if code c =? 46 then take_digits t else EmptyString
            | EmptyString => EmptyString
            end in
  match ip, fp with
  | EmptyString, EmptyString => None
  | _, _ => Some (Dec (digits_val (ip ++ fp) 0) (String.length fp))
  end.

(** [parseInt(s)] on a run of digits. *)
Definition parseInt (s : string) : N := digits_val (take_digits s) 0.

Definition dec_to_Q (d : decimal) : Q :=
  Qmake (Z.of_N (dmant d)) (Pos.of_nat (Nat.pow 10 (dscale d))).

(** The same rational, with the power of ten computed in binary. *)
Definition dec_value (d : decimal) : Q :=
  Qmake (Z.of_N (dmant d)) (Z.to_pos (10 ^ Z.of_nat (dscale d))).

(** ** Binary64

    A JavaScript number is a binary64 value, and so is a Python float. A
    finite one is kept as the rational it stands for; [round64] gives the
    binary64 value nearest to a rational, a tie going to the even
    significand. The sign of zero is not kept. *)

Inductive num : Type := Fin (q : Q) | Inf (negative : bool) | NaN.

(** The integer nearest to [p / q], for [0 <= p] and [0 < q]. *)
Definition nearest_even (p q : Z) : Z :=
  let f := (p / q)%Z in
  match (2 * (p mod q) ?= q)%Z with
  | Lt => f
  | Gt => (f + 1)%Z
  | Eq => if Z.even f then f else (f + 1)%Z
  end.

(** [p / (q * 2^e)] as a pair of integers. *)
Definition scaled (p q e : Z) : Z * Z :=
  if (0 <=? e)%Z then (p, (q * 2 ^ e)%Z) else ((p * 2 ^ (- e))%Z, q).

(** The exponent of the unit in the last place of [p / q]: the [e] with
    [2^52 <= p / (q * 2^e) < 2^53], and -1074 for the subnormal
    numbers. *)
Definition binade (p q : Z) : Z :=
  let e1 := (Z.log2 p - Z.log2 q - 52)%Z in
  let '(a, b) := scaled p q e1 in
  Z.max (if (a <? b * 2 ^ 52)%Z then e1 - 1 else e1)%Z (-1074)%Z.

Definition dyadic (m e : Z) : Q :=
  Qred (if (0 <=? e)%Z then inject_Z (m * 2 ^ e)
        else Qmake m (Z.to_pos (2 ^ (- e)))).

Definition round_pos (p q : Z) : num :=
  let e := binade p q in
  let '(a, b) := scaled p q e in
  let m := nearest_even a b in
  if (1024 <=? Z.log2 m + e)%Z then Inf false else Fin (dyadic m e).

Definition fneg (x : num) : num :=
  match x with
  | Fin q => Fin (Qred (- q))
  | Inf s => Inf (negb s)
  | NaN => NaN
  end.

Definition round64 (x : Q) : num :=
  match Qnum x with
  | Z0 => Fin 0
  | Zpos p => round_pos (Zpos p) (Zpos (Qden x))
  | Zneg p => fneg (round_pos (Zpos p) (Zpos (Qden x)))
  end.

Definition sign_of (q : Q) (s : bool) : bool :=
  match Qnum q with Zneg _ => negb s | _ => s end.

Definition fadd (x y : num) : num :=
  match x, y with
  | Fin a, Fin b => round64 (a + b)
  | Inf s, Inf t => if Bool.eqb s t then Inf s else NaN
  | Inf s, Fin _ | Fin _, Inf s => Inf s
  | _, _ => NaN
  end.

Definition fsub (x y : num) : num := fadd x (fneg y).

Definition fmul (x y : num) : num :=
  match x, y with
  | Fin a, Fin b => round64 (a * b)
  | Inf s, Fin b | Fin b, Inf s =>
      match Qnum b with Z0 => NaN | _ => Inf (sign_of b s) end
  | Inf s, Inf t => Inf (xorb s t)
  | _, _ => NaN
  end.

(** The quotient of JavaScript; a zero divisor is taken as [+0]. *)
Definition fdiv (x y : num) : num :=
  match x, y with
  | Fin a, Fin b =>
      match Qnum b, Qnum a with
      | Z0, Z0 => NaN
      | Z0, Zpos _ => Inf false
      | Z0, Zneg _ => Inf true
      | _, _ => round64 (a / b)
      end
  | Inf s, Fin b => Inf (sign_of b s)
  | Fin _, Inf _ => Fin 0
  | _, _ => NaN
  end.

(** The order of two numbers; [None] when one of them is [NaN]. *)
Definition fcompare (x y : num) : option comparison :=
  match x, y with
  | NaN, _ | _, NaN => None
  | Fin a, Fin b => Some (a ?= b)%Q
  | Inf s, Inf t => Some (if Bool.eqb s t then Eq else if s then Lt else Gt)
  | Inf s, Fin _ => Some (if s then Lt else Gt)
  | Fin _, Inf s => Some (if s then Gt else Lt)
  end.

(** [x >= y] *)
Definition fge (x y : num) : bool :=
  match fcompare x y with Some Lt | None => false | Some _ => true end.

Definition of_Z (n : Z) : num := round64 (inject_Z n).

(** The number a decimal literal stands for. *)
Definition number (d : decimal) : num := round64 (dec_value d).

(** ** [Number::toString]

    The digits are the shortest decimal that reads back as the same
    number (the closest one, if several): [k] digits [s], and the
    position [n] of the decimal point, with value [s * 10^(n - k)]. *)

(** [a / b] compared with [10^n]. *)
Definition cmp_pow10 (a b n : Z) : comparison :=
  if (0 <=? n)%Z then (a ?= b * 10 ^ n)%Z else (a * 10 ^ (- n) ?= b)%Z.

(** The [n] with [10^(n-1) <= a / b < 10^n]: looked for upwards from an
    estimate that is not above it. *)
Definition digits10 (a b : Z) : Z :=
  let est := ((Z.log2 a - Z.log2 b) * 30103 / 100000 - 1)%Z in
  match find (fun n => match cmp_pow10 a b n with Lt => true | _ => false end)
             (map (fun i => (est + i)%Z) [0; 1; 2; 3; 4; 5]%Z) with
  | Some n => n
  | None => est
  end.

(** [c * 10^u] *)
Definition dec_val (c u : Z) : Q :=
  if (0 <=? u)%Z then inject_Z (c * 10 ^ u) else Qmake c (Z.to_pos (10 ^ (- u))).

(** The [k]-digit decimal for [x], if one reads back as [x]. *)
Definition shortest_at (x : Q) (n k : Z) : option (Z * Z) :=
  let u := (n - k)%Z in
  let lo := if (0 <=? u)%Z then (Qnum x / (Zpos (Qden x) * 10 ^ u))%Z
            else (Qnum x * 10 ^ (- u) / Zpos (Qden x))%Z in
  let hi := (lo + 1)%Z in
  let ok c := match round64 (dec_val c u) with
              | Fin y => Qeq_bool y x
              | _ => false
              end in
  let pick :=
    match ok lo, ok hi with
    | true, true =>
        match (x - dec_val lo u ?= dec_val hi u - x)%Q with
        | Lt => Some lo
        | Gt => Some hi
        | Eq => Some (if Z.even lo then lo else hi)
        end
    | true, false => Some lo
    | false, true => Some hi
    | false, false => None
    end in
  match pick with
  | Some c => if (c =? 10 ^ k)%Z then Some (10 ^ (k - 1), n + 1)%Z else Some (c, n)
  | None => None
  end.

Fixpoint shortest_from (fuel : nat) (x : Q) (n k : Z) : Z * Z * Z :=
  match fuel with
  | O => (0, k, n)%Z
  | S f =>
      match shortest_at x n k with
      | Some (s, n') => (s, k, n')
      | None => shortest_from f x n (k + 1)%Z
      end
  end.

Fixpoint digits_of (fuel : nat) (n : N) (acc : string) : string :=
  match fuel with
  | O => acc
  | S f =>
      let acc' := String (ascii_of_nat (48 + N.to_nat (n mod 10))) acc in
      if (n / 10 =? 0)%N then acc' else digits_of f (n / 10) acc'
  end.

Definition N_to_string (n : N) : string :=
  digits_of (S (N.to_nat (N.log2 n))) n EmptyString.

Fixpoint zeros (n : nat) : string :=
  match n with O => EmptyString | S k => String "0"%char (zeros k) end.

(** The notation for the digits, the plain one for [-6 < n <= 21]. *)
Definition notation (digits : string) (k n : Z) : string :=
  if ((k <=? n) && (n <=? 21))%Z then digits ++ zeros (Z.to_nat (n - k))
  else if ((0 <? n) && (n <=? 21))%Z
  then take (Z.to_nat n) digits ++ "." ++ drop (Z.to_nat n) digits
  else if ((-6 <? n) && (n <=? 0))%Z then "0." ++ zeros (Z.to_nat (- n)) ++ digits
  else
    let e := (n - 1)%Z in
    let es := (if (e <? 0)%Z then "-" else "+") ++ N_to_string (Z.to_N (Z.abs e)) in
    if (k =? 1)%Z then digits ++ "e" ++ es
    else take 1 digits ++ "." ++ drop 1 digits ++ "e" ++ es.

Definition positive_to_string (x : Q) : string :=
  let n := digits10 (Qnum x) (Zpos (Qden x)) in
  let '(s, k, n') := shortest_from 17 x n 1 in
  notation (N_to_string (Z.to_N s)) k n'.

(** [String(x)] *)
Definition to_string (x : num) : string :=
  match x with
  | NaN => "NaN"
  | Inf s => if s then "-Infinity" else "Infinity"
  | Fin q =>
      match Qnum q with
      | Z0 => "0"
      | Zpos _ => positive_to_string q
      | Zneg _ => "-" ++ positive_to_string (Qred (- q))
      end
  end.

(** [String(x)] for what [parseFloat] and [parseInt] returned. *)
Definition num_to_string (o : option decimal) : string :=
  match o with Some d => to_string (number d) | None => "NaN" end.

Definition int_to_string (n : N) : string := to_string (of_Z (Z.of_N n)).

(** [String(n / 100)] *)
Definition hundredth_to_string (n : N) : string :=
  to_string (fdiv (of_Z (Z.of_N n)) (Fin 100)).

End Num.
(* ================================================================= *)
(** * validator.js *)

Module Validator.

Import Js Re Num.
Local Open Scope Z_scope.

Inductive Severity : Type := Error | Warning | Info.

(** [ValidationError] *)
Record diagnostic : Type := Diag {
  line : Z;
  column : Z;
  message : string;
  severity : Severity;
  startOffset : Z;
  endOffset : Z
}.

Inductive block : Type := BScenario | BDefinition | BSchedule.

(** The context variables of [validateCourgette]. [blockStartLine] is
    [-1] until a block header is met. *)
Record ctx : Type := Ctx {
  currentBlock : option block;
  blockStartLine : Z;
  hasConditions : bool;
  hasOutcomes : bool;
  expectingListItems : bool;
  indentLevel : Z;
  variables : list string
}.

Definition init_ctx : ctx := Ctx None (-1) false false false 0 [].

(** [getOffset(lines, lineIdx, column)] *)
Fixpoint sum_lengths (n : nat) (lines : list string) : Z :=
  match n, lines with
  | S n', l :: t => len l + 1 + sum_lengths n' t
  | _, _ => 0
  end.

Definition getOffset (lines : list string) (lineIdx column : Z) : Z :=
  sum_lengths (Z.to_nat lineIdx) lines + column.

Definition line_at (lines : list string) (i : Z) : string :=
  nth (Z.to_nat i) lines EmptyString.

(** ** The patterns *)

(** [[\d,._]] *)
Definition amt_chr : re := Chr (fun c => is_digit c || one_of ",._" c).
(** [[a-zA-Z_]] *)
Definition id_start : re := Chr (fun c => is_alpha c || (code c =? 95)%nat).

(** [/^(\s* )/] *)
Definition re_leading : re := seqs [Bol; Group 1 ws0].
(** [/^[A-Z]/] *)
Definition re_capital : re := seqs [Bol; Chr is_upper].
(** [/^(When|Given|And|Or)\s+/] *)
Definition re_cond_kw : re :=
  seqs [Bol; Group 1 (alts [lit "When"; lit "Given"; lit "And"; lit "Or"]); ws1].
(** [/^(Then|And)\s+/] *)
Definition re_outcome_kw : re :=
  seqs [Bol; Group 1 (alts [lit "Then"; lit "And"]); ws1].
(** [/^When\s+(.+?):\s*\$?([\d,._]+)(?:\s+per\s+(\w+))?$/] *)
Definition re_schedule_entry : re :=
  seqs [Bol; lit "When"; ws1; Group 1 (PlusLazy dot); lit ":"; ws0;
        Opt (lit "$"); Group 2 (Plus amt_chr);
        Opt (seqs [ws1; lit "per"; ws1; Group 3 (Plus wd)]); Eol].
(** [/^\d+(?:[,._]\d+)*(?:\.\d+)?$/] *)
Definition re_amount : re :=
  seqs [Bol; Plus dg; Star true (Seq (Chr (one_of ",._")) (Plus dg));
        Opt (Seq (lit ".") (Plus dg)); Eol].

Definition naturalOperators : list string :=
  ["is less than"; "is greater than"; "is at least"; "is at most";
   "is more than"; "is no more than"; "is no less than";
   "is equal to"; "is not equal to"; "is not"; "is"].

Definition codeOperators : list string := ["=="; "!="; "<="; ">="; "<"; ">"].

(** [new RegExp(`\\s*${op.replace(/[<>=]/g, '\\$&')}\\s*`)]: the escaped
    characters stand for themselves. *)
Definition re_code_op (op : string) : re := seqs [ws0; lit op; ws0].

(** [/\bbetween\b/i] *)
Definition re_between_word : re := seqs [WordB; liti "between"; WordB].
(** [/^[a-zA-Z_][a-zA-Z0-9_]*$/] *)
Definition re_standalone : re := seqs [Bol; id_start; Star true wd; Eol].
(** [/(\w+)\s+between\s+(.+?)\s+and\s+(.+)/i] *)
Definition re_between : re :=
  seqs [Group 1 (Plus wd); ws1; liti "between"; ws1; Group 2 (PlusLazy dot);
        ws1; liti "and"; ws1; Group 3 (Plus dot)].
(** [/[QUOTES]/g]: one double or single quote. *)
Definition re_quote : re := Chr (one_of (dq ++ sq)).
(** [/\b(true|false|yes|no|eligible)\b/gi] *)
Definition re_bool : re :=
  seqs [WordB;
        Group 1 (alts [liti "true"; liti "false"; liti "yes"; liti "no";
                       liti "eligible"]);
        WordB].
(** [/\b(\d{1,3}(?:,\d{3})*(?:\.\d+)?)\b/g] *)
Definition re_money : re :=
  seqs [WordB;
        Group 1 (seqs [dg; Opt (Seq dg (Opt dg));
                       Star true (seqs [lit ","; dg; dg; dg]);
                       Opt (Seq (lit ".") (Plus dg))]);
        WordB].
(** [/,/g] *)
Definition re_comma : re := lit ",".

(** [eligibilityPatterns] *)
Definition eligibilityPatterns : list re :=
  [ seqs [Plus wd; ws0; lit "="; ws0; liti "true"];
    seqs [Plus wd; ws1; liti "is"; ws1; liti "eligible"];
    seqs [Plus wd; ws1; liti "is"; ws1; liti "yes"];
    seqs [Plus wd; ws1; liti "is"; ws1; liti "true"] ].

(** [/payment\s+is\s+\$?[\d,._]+/i] *)
Definition re_payment : re :=
  seqs [liti "payment"; ws1; liti "is"; ws1; Opt (lit "$"); Plus amt_chr].
(** [/\$?([\d,._]+)/] *)
Definition re_first_amount : re := seqs [Opt (lit "$"); Group 1 (Plus amt_chr)].
(** [/base\s+rate\s+is\s+\$?[\d,._]+/i] *)
Definition re_base_rate : re :=
  seqs [liti "base"; ws1; liti "rate"; ws1; liti "is"; ws1; Opt (lit "$");
        Plus amt_chr].
(** [/rate\s+is\s+determined\s+by\s+(.+)/i] *)
Definition re_schedule_ref : re :=
  seqs [liti "rate"; ws1; liti "is"; ws1; liti "determined"; ws1; liti "by";
        ws1; Group 1 (Plus dot)].
(** [/(?:payment\s+)?reduces?\s+by\s+\d+\s+cents?\s+per\s+dollar/i] *)
Definition re_reduction_test : re :=
  seqs [Opt (Seq (liti "payment") ws1); liti "reduce"; Opt (liti "s"); ws1;
        liti "by"; ws1; Plus dg; ws1; liti "cent"; Opt (liti "s"); ws1;
        liti "per"; ws1; liti "dollar"].
(** [/reduces?\s+by\s+(\d+)\s+cents?\s+per\s+dollar\s+over\s+\$?([\d,._]+)/i] *)
Definition re_reduction : re :=
  seqs [liti "reduce"; Opt (liti "s"); ws1; liti "by"; ws1; Group 1 (Plus dg);
        ws1; liti "cent"; Opt (liti "s"); ws1; liti "per"; ws1; liti "dollar";
        ws1; liti "over"; ws1; Opt (lit "$"); Group 2 (Plus amt_chr)].
(** [/(?:payment\s+)?(?:cuts?\s*out|ceases?)\s+at\s+\$?([\d,._]+)/i] *)
Definition re_cutout : re :=
  seqs [Opt (Seq (liti "payment") ws1);
        Alt (seqs [liti "cut"; Opt (liti "s"); ws0; liti "out"])
            (seqs [liti "cease"; Opt (liti "s")]);
        ws1; liti "at"; ws1; Opt (lit "$"); Group 1 (Plus amt_chr)].
(** [/\b([a-zA-Z_][a-zA-Z0-9_]* )\b/g] *)
Definition re_ident : re :=
  seqs [WordB; Group 1 (Seq id_start (Star true wd)); WordB].

(** ** Messages *)

Definition msg_tabs : string := "Use spaces instead of tabs for indentation".
Definition msg_missing_outcome : string :=
  "Scenario missing outcome statements (Then...)".
Definition msg_scenario_name : string := "Scenario name is required".
Definition msg_scenario_capital : string :=
  "Scenario names should start with a capital letter".
Definition msg_definition_term : string := "Definition term is required".
Definition msg_schedule_name : string := "Schedule name is required".
Definition msg_or_first : string := "Or cannot be used before any conditions".
Definition msg_list_item : string :=
  "List items must follow a group declaration (e.g., " ++ dq
  ++ "any of these are true:" ++ dq ++ ")".
Definition msg_outcome_first : string :=
  "Outcomes (Then) must follow conditions (When/Given)".
Definition msg_expected_keyword : string :=
  "Expected When, Given, And, Or, Then, or list item (-)".
Definition msg_schedule_format : string :=
  "Invalid schedule entry format. Expected: " ++ dq
  ++ "When [condition]: $[amount] per [period]" ++ dq.
Definition msg_amount_format : string := "Invalid amount format".
Definition msg_unknown_period (period : string) : string :=
  "Unknown period '" ++ period ++ "'. Use: fortnight, week, month, or year".
Definition msg_schedule_expected : string :=
  "Expected schedule entry starting with " ++ dq ++ "When" ++ dq ++ " or "
  ++ dq ++ "Note:" ++ dq.
Definition msg_missing_comparison : string :=
  "Condition missing comparison (e.g., " ++ dq ++ "is less than" ++ dq ++ ", "
  ++ dq ++ "<" ++ dq ++ ", " ++ dq ++ "between" ++ dq ++ ")".
Definition msg_between : string :=
  "Invalid " ++ dq ++ "between" ++ dq ++ " syntax. Use: variable between X and Y".
Definition msg_quotes : string := "Unmatched quotes in condition".
Definition msg_bool (b : string) : string := "Invalid boolean value: " ++ b.
Definition msg_money (amount : string) : string :=
  "Consider using $ for monetary amounts: $" ++ amount.
Definition msg_payment_amount : string := "Invalid payment amount format".
Definition msg_base_rate_amount : string := "Invalid base rate amount format".
Definition msg_schedule_undefined (name : string) : string :=
  "Schedule '" ++ name ++ "' not defined".
Definition msg_reduction_rate : string :=
  "Reduction rate cannot exceed 100 cents per dollar".
Definition msg_threshold : string := "Invalid threshold amount format".
Definition msg_cutout : string := "Invalid cutout amount format".
Definition msg_unrecognised : string :=
  "Unrecognised outcome format. Expected: eligibility (is eligible), payment amount, schedule reference, or reduction rule".

(** ** [validateCondition] *)

(** [parseFloat(amount.replace(/,/g, '')) >= 1000] *)
Definition ge_1000 (amount : string) : bool :=
  match parseFloat (replace_all re_comma "" amount) with
  | Some d => fge (number d) (Fin 1000)
  | None => false
  end.

Definition validateCondition (condition : string) (lineNum columnOffset : Z)
           (lines : list string) (lineIdx : Z) : list diagnostic :=
  let hasNaturalOp :=
    existsb (fun op => includes (toLowerCase condition) op) naturalOperators in
  let hasCodeOp :=
    existsb (fun op => test (re_code_op op) condition) codeOperators in
  let hasBetween := test re_between_word condition in
  let isStandaloneBoolean := test re_standalone (trim condition) in
  if negb hasNaturalOp && negb hasCodeOp && negb hasBetween
     && negb isStandaloneBoolean && negb (condition =? "")%string
  then
    [Diag lineNum columnOffset msg_missing_comparison Error
          (getOffset lines lineIdx (columnOffset - 1))
          (getOffset lines lineIdx (columnOffset - 1 + len condition))]
  else
    (* Validate between syntax *)
    (if hasBetween then
       match exec re_between condition with
       | Some _ => []
       | None =>
           let betweenPos := indexOf (toLowerCase condition) "between" in
           [Diag lineNum (columnOffset + betweenPos) msg_between Error
                 (getOffset lines lineIdx (columnOffset - 1 + betweenPos))
                 (getOffset lines lineIdx (columnOffset - 1 + betweenPos + 7))]
       end
     else [])
    (* Check for unmatched quotes *)
    ++ (let quotes := match_all re_quote condition in
        if negb (Nat.even (List.length quotes)) then
          [Diag lineNum columnOffset msg_quotes Error
                (getOffset lines lineIdx (columnOffset - 1))
                (getOffset lines lineIdx (columnOffset - 1 + len condition))]
        else [])
    (* Validate boolean values *)
    ++ flat_map
         (fun b =>
            if negb (mem (toLowerCase b) ["true"; "false"; "yes"; "no"; "eligible"])
            then
              let boolPos := indexOf condition b in
              [Diag lineNum (columnOffset + boolPos) (msg_bool b) Warning
                    (getOffset lines lineIdx (columnOffset - 1 + boolPos))
                    (getOffset lines lineIdx (columnOffset - 1 + boolPos + len b))]
            else [])
         (match_all re_bool condition)
    (* Validate money values have $ symbol *)
    ++ flat_map
         (fun amount =>
            if ge_1000 amount then
              let amountPos := indexOf condition amount in
              let hasDollar :=
                includes (substring (Z.to_nat (Z.max 0 (amountPos - 2)))
                                    (Z.to_nat amountPos) condition) "$" in
              if negb hasDollar then
                [Diag lineNum (columnOffset + amountPos) (msg_money amount) Warning
                      (getOffset lines lineIdx (columnOffset - 1 + amountPos))
                      (getOffset lines lineIdx
                                 (columnOffset - 1 + amountPos + len amount))]
              else []
            else [])
         (match_all re_money condition).

(** ** [validateOutcome] *)

Definition hasEligibility (outcome : string) : bool :=
  existsb (fun pattern => test pattern outcome) eligibilityPatterns.

(** The check shared by the payment, base rate and cutout outcomes: the
    first run of amount characters must be a well-formed amount. *)
Definition first_amount_diags (msg : string) (outcome : string)
           (lineNum columnOffset : Z) (lines : list string) (lineIdx : Z)
  : list diagnostic :=
  match exec re_first_amount outcome with
  | Some m =>
      let amount := cap_or_empty 1 m in
      if negb (test re_amount amount) then
        let amountPos := indexOf outcome amount in
        [Diag lineNum (columnOffset + amountPos) msg Error
              (getOffset lines lineIdx (columnOffset - 1 + amountPos))
              (getOffset lines lineIdx (columnOffset - 1 + amountPos + len amount))]
      else []
  | None => []
  end.

(** The schedule named by [rate is determined by NAME]. *)
Definition schedule_ref (outcome : string) : option string :=
  match exec re_schedule_ref outcome with
  | Some m => Some (trim (cap_or_empty 1 m))
  | None => None
  end.

Definition schedule_diag (outcome scheduleName : string)
           (lineNum columnOffset : Z) (lines : list string) (lineIdx : Z)
  : diagnostic :=
  let schedulePos := indexOf outcome scheduleName in
  Diag lineNum (columnOffset + schedulePos) (msg_schedule_undefined scheduleName)
       Error
       (getOffset lines lineIdx (columnOffset - 1 + schedulePos))
       (getOffset lines lineIdx (columnOffset - 1 + schedulePos + len scheduleName)).

Definition reduction_diags (outcome : string) (lineNum columnOffset : Z)
           (lines : list string) (lineIdx : Z) : list diagnostic :=
  match exec re_reduction outcome with
  | Some m =>
      let cents := cap_or_empty 1 m in
      let threshold := cap_or_empty 2 m in
      (if (100 <? parseInt cents)%N then
         [Diag lineNum (columnOffset + indexOf outcome cents) msg_reduction_rate
               Warning
               (getOffset lines lineIdx (columnOffset - 1 + indexOf outcome cents))
               (getOffset lines lineIdx
                          (columnOffset - 1 + indexOf outcome cents + len cents))]
       else [])
      ++ (if negb (test re_amount threshold) then
            let thresholdPos := lastIndexOf outcome threshold in
            [Diag lineNum (columnOffset + thresholdPos) msg_threshold Error
                  (getOffset lines lineIdx (columnOffset - 1 + thresholdPos))
                  (getOffset lines lineIdx
                             (columnOffset - 1 + thresholdPos + len threshold))]
          else [])
  | None => []
  end.

Definition validateOutcome (outcome : string) (lineNum columnOffset : Z)
           (lines : list string) (lineIdx : Z) (schedules : list string)
  : list diagnostic :=
  if hasEligibility outcome then []
  else if test re_payment outcome then
    first_amount_diags msg_payment_amount outcome lineNum columnOffset lines lineIdx
  else if test re_base_rate outcome then
    first_amount_diags msg_base_rate_amount outcome lineNum columnOffset lines lineIdx
  else
    match schedule_ref outcome with
    | Some scheduleName =>
        if negb (mem scheduleName schedules)
        then [schedule_diag outcome scheduleName lineNum columnOffset lines lineIdx]
        else []
    | None =>
        if test re_reduction_test outcome then
          reduction_diags outcome lineNum columnOffset lines lineIdx
        else if test re_cutout outcome then
          first_amount_diags msg_cutout outcome lineNum columnOffset lines lineIdx
        else
          [Diag lineNum columnOffset msg_unrecognised Warning
                (getOffset lines lineIdx (columnOffset - 1))
                (getOffset lines lineIdx (columnOffset - 1 + len outcome))]
    end.

(** ** [extractVariables] *)

Definition excludeWords : list string :=
  ["and"; "or"; "not"; "between"; "is"; "true"; "false"; "yes"; "no";
   "eligible"; "less"; "greater"; "than"; "at"; "least"; "most"; "more";
   "equal"; "to"].

Definition extractVariables (condition : string) (variables : list string)
  : list string :=
  fold_left
    (fun vars varName =>
       if negb (mem (toLowerCase varName) excludeWords)
       then set_add varName vars else vars)
    (match_all re_ident condition) variables.

(** ** [validateCourgette] *)

(** First pass: the declared definitions and schedules. *)
Definition collect_step (acc : list string * list string) (line : string)
  : list string * list string :=
  let trimmed := trim line in
  if startsWith trimmed "Definition:" then
    let name := trim (substring_from 11 trimmed) in
    if negb (name =? "")%string then (set_add name (fst acc), snd acc) else acc
  else if startsWith trimmed "Schedule:" then
    let name := trim (substring_from 9 trimmed) in
    if negb (name =? "")%string then (fst acc, set_add name (snd acc)) else acc
  else acc.

Definition collect (lines : list string) : list string * list string :=
  fold_left collect_step lines ([], []).

Definition collect_schedules (lines : list string) : list string :=
  snd (collect lines).

(** The diagnostic pushed when a scenario is closed without outcome. *)
Definition missing_outcome_diag (lines : list string) (start : Z) : diagnostic :=
  Diag start 1 msg_missing_outcome Error
       (getOffset lines (start - 1) 0)
       (getOffset lines (start - 1) (len (line_at lines (start - 1)))).

Definition check_previous (lines : list string) (c : ctx) : list diagnostic :=
  match currentBlock c with
  | Some BScenario =>
      if negb (hasOutcomes c) then [missing_outcome_diag lines (blockStartLine c)]
      else []
  | _ => []
  end.

Definition tab_diags (lines : list string) (idx : Z) (line : string)
  : list diagnostic :=
  if includes line tab then
    [Diag (idx + 1) (indexOf line tab + 1) msg_tabs Warning
          (getOffset lines idx (indexOf line tab))
          (getOffset lines idx (indexOf line tab + 1))]
  else [].

Definition leading_spaces (line : string) : Z :=
  match exec re_leading line with
  | Some m => len (cap_or_empty 1 m)
  | None => 0
  end.

(** The three block headers. *)
Definition scenario_header (lines : list string) (idx : Z) (line trimmed : string)
           (c : ctx) : ctx * list diagnostic :=
  let lineNum := idx + 1 in
  let name := trim (substring_from 9 trimmed) in
  (Ctx (Some BScenario) lineNum false false (expectingListItems c)
       (indentLevel c) (variables c),
   (check_previous lines c
   ++ (if (name =? "")%string then
         [Diag lineNum 10 msg_scenario_name Error
               (getOffset lines idx 9) (getOffset lines idx (len line))]
       else if negb (test re_capital name) then
         [Diag lineNum 10 msg_scenario_capital Warning
               (getOffset lines idx 9) (getOffset lines idx (9 + len name))]
       else []))%list).

Definition definition_header (lines : list string) (idx : Z) (line trimmed : string)
           (c : ctx) : ctx * list diagnostic :=
  let lineNum := idx + 1 in
  let name := trim (substring_from 11 trimmed) in
  (Ctx (Some BDefinition) lineNum (hasConditions c) (hasOutcomes c)
       (expectingListItems c) (indentLevel c) (variables c),
   if (name =? "")%string then
     [Diag lineNum 12 msg_definition_term Error
           (getOffset lines idx 11) (getOffset lines idx (len line))]
   else []).

Definition schedule_header (lines : list string) (idx : Z) (line trimmed : string)
           (c : ctx) : ctx * list diagnostic :=
  let lineNum := idx + 1 in
  let name := trim (substring_from 9 trimmed) in
  (Ctx (Some BSchedule) lineNum (hasConditions c) (hasOutcomes c)
       (expectingListItems c) (indentLevel c) (variables c),
   if (name =? "")%string then
     [Diag lineNum 10 msg_schedule_name Error
           (getOffset lines idx 9) (getOffset lines idx (len line))]
   else []).

(** The branch taken by a line inside a scenario, in the order of the
    tests of the source. *)
Inductive line_kind : Type :=
| KCondition | KListItem | KOutcome | KInvalid | KComment.

Definition scenario_line_kind (trimmed : string) : line_kind :=
  if test re_cond_kw trimmed then KCondition
  else if startsWith trimmed "- " then KListItem
  else if test re_outcome_kw trimmed then KOutcome
  else if negb (startsWith trimmed "#") then KInvalid
  else KComment.

(** Condition keywords. *)
Definition condition_line (lines : list string) (idx : Z) (line trimmed : string)
           (c : ctx) : ctx * list diagnostic :=
  let lineNum := idx + 1 in
  let parts := split ws1 trimmed in
  let keyword := hd EmptyString parts in
  let condition := join " " (tl parts) in
  let '(c1, ds) :=
    if endsWith condition "these are true:" || endsWith condition "the following:"
    then
      (Ctx (currentBlock c) (blockStartLine c) (hasConditions c) (hasOutcomes c)
           true (leading_spaces line) (variables c),
       [])
    else
      (Ctx (currentBlock c) (blockStartLine c) true (hasOutcomes c)
           (expectingListItems c) (indentLevel c)
           (extractVariables condition (variables c)),
       validateCondition condition lineNum (len keyword + 1) lines idx) in
  (c1,
   (ds ++ (if (keyword =? "Or")%string && negb (hasConditions c1) then
             [Diag lineNum 1 msg_or_first Error
                   (getOffset lines idx 0) (getOffset lines idx (len keyword))]
           else []))%list).

(** List items. *)
Definition list_item_line (lines : list string) (idx : Z) (line trimmed : string)
           (c : ctx) : ctx * list diagnostic :=
  let lineNum := idx + 1 in
  let leadingSpaces := leading_spaces line in
  let condition := trim (substring_from 2 trimmed) in
  (Ctx (currentBlock c) (blockStartLine c) (hasConditions c) (hasOutcomes c)
       (expectingListItems c) (indentLevel c)
       (extractVariables condition (variables c)),
   ((if negb (expectingListItems c) then
       [Diag lineNum (leadingSpaces + 1) msg_list_item Error
             (getOffset lines idx leadingSpaces)
             (getOffset lines idx (leadingSpaces + 2))]
     else [])
    ++ validateCondition condition lineNum (leadingSpaces + 3) lines idx)%list).

(** The text of an outcome statement:
    [trimmed.replace(/^(Then|And)\s+/, '')]. *)
Definition outcome_text (trimmed : string) : string :=
  replace_first re_outcome_kw "" trimmed.

(** Outcome statements. *)
Definition outcome_line (lines schedules : list string) (idx : Z)
           (line trimmed : string) (c : ctx) : ctx * list diagnostic :=
  let lineNum := idx + 1 in
  let outcome := outcome_text trimmed in
  (Ctx (currentBlock c) (blockStartLine c) (hasConditions c) true false
       (indentLevel c) (variables c),
   ((if negb (hasConditions c) then
       [Diag lineNum 1 msg_outcome_first Error
             (getOffset lines idx 0) (getOffset lines idx 4)]
     else [])
    ++ validateOutcome outcome lineNum (indexOf trimmed outcome + 1) lines idx
                       schedules)%list).

Definition scenario_line (lines schedules : list string) (idx : Z)
           (line trimmed : string) (c : ctx) : ctx * list diagnostic :=
  match scenario_line_kind trimmed with
  | KCondition => condition_line lines idx line trimmed c
  | KListItem => list_item_line lines idx line trimmed c
  | KOutcome => outcome_line lines schedules idx line trimmed c
  | KInvalid =>
      (c, [Diag (idx + 1) 1 msg_expected_keyword Error
                (getOffset lines idx 0) (getOffset lines idx (len trimmed))])
  | KComment => (c, [])
  end.

(** Schedule validation. *)
Definition schedule_line (lines : list string) (idx : Z) (line trimmed : string)
  : list diagnostic :=
  let lineNum := idx + 1 in
  if startsWith trimmed "When " then
    match exec re_schedule_entry trimmed with
    | None =>
        [Diag lineNum 1 msg_schedule_format Error
              (getOffset lines idx 0) (getOffset lines idx (len trimmed))]
    | Some m =>
        let amount := cap_or_empty 2 m in
        (if negb (test re_amount amount) then
           let amountStart := indexOf trimmed amount in
           [Diag lineNum (amountStart + 1) msg_amount_format Error
                 (getOffset lines idx amountStart)
                 (getOffset lines idx (amountStart + len amount))]
         else [])
        ++ match cap 3 m with
           | Some period =>
               if negb (period =? "")%string
                  && negb (mem (toLowerCase period)
                               ["fortnight"; "week"; "month"; "year"])
               then
                 [Diag lineNum (lastIndexOf trimmed period + 1)
                       (msg_unknown_period period) Warning
                       (getOffset lines idx (lastIndexOf trimmed period))
                       (getOffset lines idx (lastIndexOf trimmed period + len period))]
               else []
           | None => []
           end
    end
  else if negb (startsWith trimmed "Note:") && negb (startsWith trimmed "#") then
    [Diag lineNum 1 msg_schedule_expected Error
          (getOffset lines idx 0) (getOffset lines idx (len trimmed))]
  else [].

(** Second pass: one line. The result is the new context and the
    diagnostics pushed for the line. *)
Definition line_step (lines schedules : list string) (idx : nat) (line : string)
           (c : ctx) : ctx * list diagnostic :=
  let i := Z.of_nat idx in
  let trimmed := trim line in
  let tabs := tab_diags lines i line in
  if (trimmed =? "")%string then
    (Ctx (currentBlock c) (blockStartLine c) (hasConditions c) (hasOutcomes c)
         false (indentLevel c) (variables c),
     tabs)
  else
    let '(c', ds) :=
      if startsWith trimmed "Scenario:" then scenario_header lines i line trimmed c
      else if startsWith trimmed "Definition:" then
        definition_header lines i line trimmed c
      else if startsWith trimmed "Schedule:" then
        schedule_header lines i line trimmed c
      else
        match currentBlock c with
        | Some BScenario => scenario_line lines schedules i line trimmed c
        | Some BSchedule => (c, schedule_line lines i line trimmed)
        | _ => (c, [])
        end in
    (c', (tabs ++ ds)%list).

(** The second pass over the lines from index [idx] on. *)
Fixpoint run (lines schedules : list string) (idx : nat) (rest : list string)
         (c : ctx) : ctx * list diagnostic :=
  match rest with
  | [] => (c, [])
  | l :: t =>
      let '(c1, d1) := line_step lines schedules idx l c in
      let '(c2, d2) := run lines schedules (S idx) t c1 in
      (c2, (d1 ++ d2)%list)
  end.

Definition validate_lines (lines : list string) : list diagnostic :=
  let schedules := collect_schedules lines in
  let '(c, ds) := run lines schedules 0 lines init_ctx in
  (* Final checks *)
  (ds ++ check_previous lines c)%list.

Definition validateCourgette (text : string) : list diagnostic :=
  validate_lines (split_lines text).

End Validator.

(* ================================================================= *)
(** * The target language

    The generated formulas are Python text. To state what a generated
    formula evaluates to, the fragment of Python expressions that the
    compiler emits is given a reader and an evaluator: names, numbers,
    quoted strings, [True], [False], [person('v', period)], comparisons
    (chained as in Python), [not], [and], [or] and parentheses. Text
    outside the fragment, or text Python rejects, has no value. *)

Module Py.

Import Js Num.

Inductive cmpop : Type := CLt | CGt | CLe | CGe | CEq | CNe.

Inductive token : Type :=
| TName (x : string)
| TNum (d : decimal)
| TStr (s : string)
| TOp (o : cmpop)
| TAssign                      (* a single = *)
| TLParen | TRParen | TComma.

Fixpoint take_while (p : ascii -> bool) (s : string) : string :=
  match s with
  | String c t => if p c then String c (take_while p t) else EmptyString
  | EmptyString => EmptyString
  end.

(** The text up to the closing quote [q], and what follows the quote. *)
Fixpoint until_quote (q : ascii) (s : string) (acc : string)
  : option (string * string) :=
  match s with
  | EmptyString => None
  | String c t =>
      if Ascii.eqb c q then Some (rev acc, t) else until_quote q t (String c acc)
  end.

(** An integer literal that Python refuses: a leading zero before other
    digits, unless all the digits are zeros. *)
Definition leading_zero (ip : string) : bool :=
  match ip with
  | String "0"%char (String _ _) => negb (digits_val ip 0 =? 0)%N
  | _ => false
  end.

Fixpoint tokenize (fuel : nat) (s : string) : option (list token) :=
  match fuel with
  | O => None
  | S f =>
      match s with
      | EmptyString => Some []
      | String c t =>
          let cons (tk : token) (rest : string) :=
            match tokenize f rest with
            | Some l => Some (tk :: l)
            | None => None
            end in
          if is_space c then tokenize f t
          else if is_alpha c || (code c =? 95) then
            let w := take_while is_word s in
            cons (TName w) (drop (String.length w) s)
          else if is_digit c then
            let ip := take_while is_digit s in
            let r := drop (String.length ip) s in
            match r with
            | String d r' =>
                if code d =? 46 then
                  let fp := take_while is_digit r' in
                  cons (TNum (Dec (digits_val (ip ++ fp) 0) (String.length fp)))
                       (drop (String.length fp) r')
                else if leading_zero ip then None
                     else cons (TNum (Dec (digits_val ip 0) 0)) r
            | EmptyString =>
                if leading_zero ip then None
                else cons (TNum (Dec (digits_val ip 0) 0)) r
            end
          else if (code c =? 39) || (code c =? 34) then
            match until_quote c t EmptyString with
            | Some (body, rest) => cons (TStr body) rest
            | None => None
            end
          else if code c =? 40 then cons TLParen t
          else if code c =? 41 then cons TRParen t
          else if code c =? 44 then cons TComma t
          else
            let two (o : cmpop) (one : option token) :=
              match t with
              | String d t' =>
                  if code d =? 61 then cons (TOp o) t'
                  else match one with Some tk => cons tk t | None => None end
              | EmptyString =>
                  match one with Some tk => cons tk t | None => None end
              end in
            if code c =? 60 then two CLe (Some (TOp CLt))
            else if code c =? 62 then two CGe (Some (TOp CGt))
            else if code c =? 61 then two CEq (Some TAssign)
            else if code c =? 33 then two CNe None
            else None
      end
  end.

Local Unset Elimination Schemes.

Inductive expr : Type :=
| ENum (d : decimal)
| EStr (s : string)
| EBool (b : bool)
| EName (x : string)
| EPerson (v : string)
| ENot (e : expr)
| EAnd (a b : expr)
| EOr (a b : expr)
| ECmp (a : expr) (o : cmpop) (b : expr) (more : list (cmpop * expr)).

Local Set Elimination Schemes.

(** The reserved words of Python. *)
Definition keyword (x : string) : bool :=
  mem x ["False"; "None"; "True"; "and"; "as"; "assert"; "async"; "await";
         "break"; "class"; "continue"; "def"; "del"; "elif"; "else"; "except";
         "finally"; "for"; "from"; "global"; "if"; "import"; "in"; "is";
         "lambda"; "nonlocal"; "not"; "or"; "pass"; "raise"; "return"; "try";
         "while"; "with"; "yield"].

(** Recursive descent; every call spends one unit of [fuel]. *)
Fixpoint parse_or (fuel : nat) (ts : list token) : option (expr * list token) :=
  match fuel with
  | O => None
  | S f =>
      match parse_and f ts with
      | Some (a, TName "or" :: r) =>
          match parse_or f r with
          | Some (b, r') => Some (EOr a b, r')
          | None => None
          end
      | other => other
      end
  end
with parse_and (fuel : nat) (ts : list token) : option (expr * list token) :=
  match fuel with
  | O => None
  | S f =>
      match parse_not f ts with
      | Some (a, TName "and" :: r) =>
          match parse_and f r with
          | Some (b, r') => Some (EAnd a b, r')
          | None => None
          end
      | other => other
      end
  end
with parse_not (fuel : nat) (ts : list token) : option (expr * list token) :=
  match fuel with
  | O => None
  | S f =>
      match ts with
      | TName "not" :: r =>
          match parse_not f r with
          | Some (a, r') => Some (ENot a, r')
          | None => None
          end
      | _ =>
          match parse_atom f ts with
          | Some (a, TOp o :: r) =>
              match parse_atom f r with
              | Some (b, r') =>
                  match parse_chain f r' with
                  | Some (more, r'') => Some (ECmp a o b more, r'')
                  | None => None
                  end
              | None => None
              end
          | other => other
          end
      end
  end
with parse_chain (fuel : nat) (ts : list token)
  : option (list (cmpop * expr) * list token) :=
  match fuel with
  | O => None
  | S f =>
      match ts with
      | TOp o :: r =>
          match parse_atom f r with
          | Some (b, r') =>
              match parse_chain f r' with
              | Some (more, r'') => Some ((o, b) :: more, r'')
              | None => None
              end
          | None => None
          end
      | _ => Some ([], ts)
      end
  end
with parse_atom (fuel : nat) (ts : list token) : option (expr * list token) :=
  match fuel with
  | O => None
  | S f =>
      match ts with
      | TNum d :: r => Some (ENum d, r)
      | TStr s :: r => Some (EStr s, r)
      | TName "True" :: r => Some (EBool true, r)
      | TName "False" :: r => Some (EBool false, r)
      | TName "person" :: TLParen :: TStr v :: TComma :: TName "period"
          :: TRParen :: r => Some (EPerson v, r)
      | TName x :: r => if keyword x then None else Some (EName x, r)
      | TLParen :: r =>
          match parse_or f r with
          | Some (e, TRParen :: r') => Some (e, r')
          | _ => None
          end
      | _ => None
      end
  end.

(** The expression a text denotes, when it is one. *)
Definition parse (s : string) : option expr :=
  match tokenize (S (String.length s)) s with
  | Some ts =>
      match parse_or (8 * (List.length ts + 1)) ts with
      | Some (e, []) => Some e
      | _ => None
      end
  | None => None
  end.

Inductive value : Type := VNum (q : Q) | VBool (b : bool) | VStr (s : string).

Definition truthy (v : value) : bool :=
  match v with
  | VNum q => negb (Qeq_bool q 0)
  | VBool b => b
  | VStr s => negb (s =? "")%string
  end.

Definition as_num (v : value) : option Q :=
  match v with
  | VNum q => Some q
  | VBool b => Some (if b then 1%Q else 0%Q)
  | VStr _ => None
  end.

(** One comparison; an ordering between a string and a number is an
    error, an equality between them is false. *)
Definition compare (o : cmpop) (a b : value) : option bool :=
  match as_num a, as_num b with
  | Some x, Some y =>
      Some match o with
           | CLt => negb (Qle_bool y x)
           | CGt => negb (Qle_bool x y)
           | CLe => Qle_bool x y
           | CGe => Qle_bool y x
           | CEq => Qeq_bool x y
           | CNe => negb (Qeq_bool x y)
           end
  | None, None =>
      match a, b with
      | VStr x, VStr y =>
          Some match o with
               | CEq => (x =? y)%string
               | CNe => negb (x =? y)%string
               | CLt => match String.compare x y with Lt => true | _ => false end
               | CGt => match String.compare x y with Gt => true | _ => false end
               | CLe => match String.compare x y with Gt => false | _ => true end
               | CGe => match String.compare x y with Lt => false | _ => true end
               end
      | _, _ => None
      end
  | _, _ =>
      match o with
      | CEq => Some false
      | CNe => Some true
      | _ => None
      end
  end.

(** [person] gives the value of a variable of the person; a local name
    of a formula is bound to [person('name', period)]. *)
Fixpoint eval (person : string -> option value) (e : expr) : option value :=
  match e with
  | ENum d => Some (VNum (dec_to_Q d))
  | EStr s => Some (VStr s)
  | EBool b => Some (VBool b)
  | EName x => person x
  | EPerson v => person v
  | ENot a =>
      match eval person a with
      | Some v => Some (VBool (negb (truthy v)))
      | None => None
      end
  | EAnd a b =>
      match eval person a with
      | Some v => if truthy v then eval person b else Some v
      | None => None
      end
  | EOr a b =>
      match eval person a with
      | Some v => if truthy v then Some v else eval person b
      | None => None
      end
  | ECmp a o b more =>
      match eval person a, eval person b with
      | Some x, Some y =>
          match compare o x y with
          | Some true =>
              (fix chain (prev : value) (l : list (cmpop * expr)) : option value :=
                 match l with
                 | [] => Some (VBool true)
                 | (o', e') :: l' =>
                     match eval person e' with
                     | Some z =>
                         match compare o' prev z with
                         | Some true => chain z l'
                         | Some false => Some (VBool false)
                         | None => None
                         end
                     | None => None
                     end
                 end) y more
          | Some false => Some (VBool false)
          | None => None
          end
      | _, _ => None
      end
  end.

(** The truth value of a formula text for a person. *)
Definition holds (person : string -> option value) (text : string) : option bool :=
  match parse text with
  | Some e =>
      match eval person e with
      | Some v => Some (truthy v)
      | None => None
      end
  | None => None
  end.

End Py.

(* ================================================================= *)
(** * The target language: formulas

    A generated formula is a Python function. To state what it returns,
    the statements the compiler emits are read from the generated text
    and run: assignments, [if] / [elif] / [else] blocks told by their
    indentation, and [return]; expressions as in [Py], with integers,
    binary64 floats, [+], [-], [*] and [max(a, b)], and with the names
    the formula has assigned. A statement in parentheses may run over
    several lines. Where a formula reads a variable,
    [person('v', period)], the value is computed by the formula the
    module gives for [v], and is an input, a value the person has, when
    the module gives none. Values are single values, one person at a
    time. *)

Module PyRun.

Import Js Num.

(** ** Expressions *)

Inductive token : Type :=
| TName (x : string)
| TInt (n : Z)
| TFloat (x : num)
| TStr (s : string)
| TOp (o : Py.cmpop)
| TAssign | TLParen | TRParen | TComma | TColon | TPlus | TMinus | TStar.

(** A number literal at the head of [s]: digits, an optional fraction
    and an optional exponent; the token and the rest of the text. A
    literal that runs into a name, or an integer written with a leading
    zero, is refused. *)
Definition number_token (s : string) : option (token * string) :=
  let ip := Py.take_while is_digit s in
  let r := drop (String.length ip) s in
  let '(fp, r1, dotted) :=
    match r with
    | String d r' =>
        if (code d =? 46)%nat
        then let fp := Py.take_while is_digit r' in
             (fp, drop (String.length fp) r', true)
        else (EmptyString, r, false)
    | EmptyString => (EmptyString, r, false)
    end in
  let '(ex, r2, exp) :=
    match r1 with
    | String e r' =>
        if ((code e =? 101) || (code e =? 69))%nat then
          let '(neg, r'') :=
            match r' with
            | String g t =>
                if (code g =? 45)%nat then (true, t)
                else if (code g =? 43)%nat then (false, t) else (false, r')
            | EmptyString => (false, r')
            end in
          let ds := Py.take_while is_digit r'' in
          match ds with
          | EmptyString => (0%Z, r1, false)
          | _ => ((if neg then - Z.of_N (digits_val ds 0) else Z.of_N (digits_val ds 0))%Z,
                  drop (String.length ds) r'', true)
          end
        else (0%Z, r1, false)
    | EmptyString => (0%Z, r1, false)
    end in
  let follows :=
    match r2 with
    | String c _ => is_word c || (code c =? 46)%nat
    | EmptyString => false
    end in
  if follows then None
  else if dotted || exp then
    let m := Z.of_N (digits_val (ip ++ fp) 0) in
    let u := (ex - Z.of_nat (String.length fp))%Z in
    Some (TFloat (round64 (if (0 <=? u)%Z then inject_Z (m * 10 ^ u)
                           else Qmake m (Z.to_pos (10 ^ (- u))))), r2)
  else
    if Py.leading_zero ip then None
    else Some (TInt (Z.of_N (digits_val ip 0)), r2).

Fixpoint tokenize (fuel : nat) (s : string) : option (list token) :=
  match fuel with
  | O => None
  | S f =>
      match s with
      | EmptyString => Some []
      | String c t =>
          let cons (tk : token) (rest : string) :=
            match tokenize f rest with
            | Some l => Some (tk :: l)
            | None => None
            end in
          if is_space c then tokenize f t
          else if (code c =? 35)%nat then Some []
          else if is_alpha c || (code c =? 95)%nat then
            let w := Py.take_while is_word s in
            cons (TName w) (drop (String.length w) s)
          else if is_digit c then
            match number_token s with
            | Some (tk, rest) =>
                if (String.length rest <? String.length s)%nat then cons tk rest
                else None
            | None => None
            end
          else if ((code c =? 39) || (code c =? 34))%nat then
            match Py.until_quote c t EmptyString with
            | Some (body, rest) => cons (TStr body) rest
            | None => None
            end
          else if (code c =? 40)%nat then cons TLParen t
          else if (code c =? 41)%nat then cons TRParen t
          else if (code c =? 44)%nat then cons TComma t
          else if (code c =? 58)%nat then cons TColon t
          else if (code c =? 43)%nat then cons TPlus t
          else if (code c =? 45)%nat then cons TMinus t
          else if (code c =? 42)%nat then cons TStar t
          else
            let two (o : Py.cmpop) (one : option token) :=
              match t with
              | String d t' =>
                  if (code d =? 61)%nat then cons (TOp o) t'
                  else match one with Some tk => cons tk t | None => None end
              | EmptyString =>
                  match one with Some tk => cons tk t | None => None end
              end in
            if (code c =? 60)%nat then two Py.CLe (Some (TOp Py.CLt))
            else if (code c =? 62)%nat then two Py.CGe (Some (TOp Py.CGt))
            else if (code c =? 61)%nat then two Py.CEq (Some TAssign)
            else if (code c =? 33)%nat then two Py.CNe None
            else None
      end
  end.

Inductive binop : Type := Add | Sub | Mul.

Local Unset Elimination Schemes.

Inductive expr : Type :=
| EInt (n : Z)
| EFloat (x : num)
| EStr (s : string)
| EBool (b : bool)
| EName (x : string)
| EPerson (v : string)
| ENot (e : expr)
| EAnd (a b : expr)
| EOr (a b : expr)
| ECmp (a : expr) (o : Py.cmpop) (b : expr) (more : list (Py.cmpop * expr))
| EBin (o : binop) (a b : expr)
| EMax (a b : expr).

Local Set Elimination Schemes.

Definition keyword : string -> bool := Py.keyword.

Fixpoint parse_or (fuel : nat) (ts : list token) : option (expr * list token) :=
  match fuel with
  | O => None
  | S f =>
      match parse_and f ts with
      | Some (a, TName "or" :: r) =>
          match parse_or f r with
          | Some (b, r') => Some (EOr a b, r')
          | None => None
          end
      | other => other
      end
  end
with parse_and (fuel : nat) (ts : list token) : option (expr * list token) :=
  match fuel with
  | O => None
  | S f =>
      match parse_not f ts with
      | Some (a, TName "and" :: r) =>
          match parse_and f r with
          | Some (b, r') => Some (EAnd a b, r')
          | None => None
          end
      | other => other
      end
  end
with parse_not (fuel : nat) (ts : list token) : option (expr * list token) :=
  match fuel with
  | O => None
  | S f =>
      match ts with
      | TName "not" :: r =>
          match parse_not f r with
          | Some (a, r') => Some (ENot a, r')
          | None => None
          end
      | _ =>
          match parse_sum f ts with
          | Some (a, TOp o :: r) =>
              match parse_sum f r with
              | Some (b, r') =>
                  match parse_chain f r' with
                  | Some (more, r'') => Some (ECmp a o b more, r'')
                  | None => None
                  end
              | None => None
              end
          | other => other
          end
      end
  end
with parse_chain (fuel : nat) (ts : list token)
  : option (list (Py.cmpop * expr) * list token) :=
  match fuel with
  | O => None
  | S f =>
      match ts with
      | TOp o :: r =>
          match parse_sum f r with
          | Some (b, r') =>
              match parse_chain f r' with
              | Some (more, r'') => Some ((o, b) :: more, r'')
              | None => None
              end
          | None => None
          end
      | _ => Some ([], ts)
      end
  end
with parse_sum (fuel : nat) (ts : list token) : option (expr * list token) :=
  match fuel with
  | O => None
  | S f =>
      match parse_product f ts with
      | Some (a, r) => parse_sum_rest f a r
      | None => None
      end
  end
with parse_sum_rest (fuel : nat) (a : expr) (ts : list token)
  : option (expr * list token) :=
  match fuel with
  | O => None
  | S f =>
      match ts with
      | TPlus :: r =>
          match parse_product f r with
          | Some (b, r') => parse_sum_rest f (EBin Add a b) r'
          | None => None
          end
      | TMinus :: r =>
          match parse_product f r with
          | Some (b, r') => parse_sum_rest f (EBin Sub a b) r'
          | None => None
          end
      | _ => Some (a, ts)
      end
  end
with parse_product (fuel : nat) (ts : list token) : option (expr * list token) :=
  match fuel with
  | O => None
  | S f =>
      match parse_atom f ts with
      | Some (a, r) => parse_product_rest f a r
      | None => None
      end
  end
with parse_product_rest (fuel : nat) (a : expr) (ts : list token)
  : option (expr * list token) :=
  match fuel with
  | O => None
  | S f =>
      match ts with
      | TStar :: r =>
          match parse_atom f r with
          | Some (b, r') => parse_product_rest f (EBin Mul a b) r'
          | None => None
          end
      | _ => Some (a, ts)
      end
  end
with parse_atom (fuel : nat) (ts : list token) : option (expr * list token) :=
  match fuel with
  | O => None
  | S f =>
      match ts with
      | TInt n :: r => Some (EInt n, r)
      | TFloat x :: r => Some (EFloat x, r)
      | TStr s :: r => Some (EStr s, r)
      | TName "True" :: r => Some (EBool true, r)
      | TName "False" :: r => Some (EBool false, r)
      | TName "person" :: TLParen :: TStr v :: TComma :: TName "period"
          :: TRParen :: r => Some (EPerson v, r)
      | TName "max" :: TLParen :: r =>
          match parse_or f r with
          | Some (a, TComma :: r') =>
              match parse_or f r' with
              | Some (b, TRParen :: r'') => Some (EMax a b, r'')
              | _ => None
              end
          | _ => None
          end
      | TName x :: r => if keyword x then None else Some (EName x, r)
      | TLParen :: r =>
          match parse_or f r with
          | Some (e, TRParen :: r') => Some (e, r')
          | _ => None
          end
      | _ => None
      end
  end.

Definition parse_expr (ts : list token) : option expr :=
  match parse_or (12 * (List.length ts + 1)) ts with
  | Some (e, []) => Some e
  | _ => None
  end.

Inductive value : Type :=
| VInt (n : Z) | VFloat (x : num) | VBool (b : bool) | VStr (s : string).

Definition truthy (v : value) : bool :=
  match v with
  | VInt n => negb (n =? 0)%Z
  | VFloat (Fin q) => negb (Qeq_bool q 0)
  | VFloat _ => true
  | VBool b => b
  | VStr s => negb (s =? "")%string
  end.

(** A number: an integer ([bool] is one) or a float. *)
Definition as_number (v : value) : option (Z + num) :=
  match v with
  | VInt n => Some (inl n)
  | VBool b => Some (inl (if b then 1 else 0)%Z)
  | VFloat x => Some (inr x)
  | VStr _ => None
  end.

(** [float(n)]: an integer too large for a float is an error. *)
Definition to_float (n : Z) : option num :=
  match of_Z n with
  | Fin q => Some (Fin q)
  | _ => None
  end.

Definition arith (o : binop) (a b : value) : option value :=
  match as_number a, as_number b with
  | Some (inl x), Some (inl y) =>
      Some (VInt match o with
                 | Add => x + y | Sub => x - y | Mul => x * y
                 end%Z)
  | Some x, Some y =>
      let fl (n : Z + num) :=
        match n with inl k => to_float k | inr f => Some f end in
      match fl x, fl y with
      | Some f, Some g =>
          Some (VFloat match o with
                       | Add => fadd f g | Sub => fsub f g | Mul => fmul f g
                       end)
      | _, _ => None
      end
  | _, _ => None
  end.

(** The order of two numbers, exact also between an integer and a
    float. *)
Definition num_compare (x y : Z + num) : option comparison :=
  let ex (n : Z + num) := match n with inl k => Fin (inject_Z k) | inr f => f end in
  fcompare (ex x) (ex y).

Definition test_cmp (o : Py.cmpop) (c : option comparison) : bool :=
  match c with
  | None => match o with Py.CNe => true | _ => false end
  | Some c =>
      match o, c with
      | Py.CLt, Lt | Py.CGt, Gt | Py.CEq, Eq => true
      | Py.CLe, Lt | Py.CLe, Eq | Py.CGe, Gt | Py.CGe, Eq => true
      | Py.CNe, Lt | Py.CNe, Gt => true
      | _, _ => false
      end
  end.

(** One comparison; an ordering between a string and a number is an
    error, an equality between them is false. *)
Definition compare (o : Py.cmpop) (a b : value) : option bool :=
  match as_number a, as_number b with
  | Some x, Some y => Some (test_cmp o (num_compare x y))
  | None, None =>
      match a, b with
      | VStr x, VStr y => Some (test_cmp o (Some (String.compare x y)))
      | _, _ => None
      end
  | _, _ =>
      match o with
      | Py.CEq => Some false
      | Py.CNe => Some true
      | _ => None
      end
  end.

Definition env : Type := list (string * value).

Fixpoint lookup (x : string) (e : env) : option value :=
  match e with
  | [] => None
  | (y, v) :: t => if (y =? x)%string then Some v else lookup x t
  end.

(** [person] gives the variables of the person; [locals] the names the
    formula has assigned. A name that is not assigned has no value. *)
Fixpoint eval (person : string -> option value) (locals : env) (e : expr)
  : option value :=
  match e with
  | EInt n => Some (VInt n)
  | EFloat x => Some (VFloat x)
  | EStr s => Some (VStr s)
  | EBool b => Some (VBool b)
  | EName x => lookup x locals
  | EPerson v => person v
  | ENot a =>
      match eval person locals a with
      | Some v => Some (VBool (negb (truthy v)))
      | None => None
      end
  | EAnd a b =>
      match eval person locals a with
      | Some v => if truthy v then eval person locals b else Some v
      | None => None
      end
  | EOr a b =>
      match eval person locals a with
      | Some v => if truthy v then Some v else eval person locals b
      | None => None
      end
  | ECmp a o b more =>
      match eval person locals a, eval person locals b with
      | Some x, Some y =>
          match compare o x y with
          | Some true =>
              (fix chain (prev : value) (l : list (Py.cmpop * expr)) : option value :=
                 match l with
                 | [] => Some (VBool true)
                 | (o', e') :: l' =>
                     match eval person locals e' with
                     | Some z =>
                         match compare o' prev z with
                         | Some true => chain z l'
                         | Some false => Some (VBool false)
                         | None => None
                         end
                     | None => None
                     end
                 end) y more
          | Some false => Some (VBool false)
          | None => None
          end
      | _, _ => None
      end
  | EBin o a b =>
      match eval person locals a, eval person locals b with
      | Some x, Some y => arith o x y
      | _, _ => None
      end
  | EMax a b =>
      match eval person locals a, eval person locals b with
      | Some x, Some y =>
          match compare Py.CGt y x with
          | Some true => Some y
          | Some false => Some x
          | None => None
          end
      | _, _ => None
      end
  end.

(** ** Statements *)

Inductive line : Type :=
| LAssign (x : string) (e : expr)
| LReturn (e : expr)
| LIf (e : expr)
| LElif (e : expr)
| LElse.

Fixpoint indent_of (s : string) : nat :=
  match s with
  | String c t => if (code c =? 32)%nat then S (indent_of t) else O
  | EmptyString => O
  end.

(** The tokens before a closing colon. *)
Definition before_colon (ts : list token) : option (list token) :=
  match List.rev ts with
  | TColon :: r => Some (List.rev r)
  | _ => None
  end.

(** One statement, from the tokens of its line. *)
Definition parse_stmt (ts : list token) : option line :=
  match ts with
  | TName "return" :: r => option_map LReturn (parse_expr r)
  | TName "if" :: r =>
      match before_colon r with
      | Some c => option_map LIf (parse_expr c)
      | None => None
      end
  | TName "elif" :: r =>
      match before_colon r with
      | Some c => option_map LElif (parse_expr c)
      | None => None
      end
  | [TName "else"; TColon] => Some LElse
  | TName x :: TAssign :: r =>
      if keyword x then None else option_map (LAssign x) (parse_expr r)
  | _ => None
  end.

(** The parentheses left open by the tokens. *)
Fixpoint paren_depth (ts : list token) (d : Z) : Z :=
  match ts with
  | TLParen :: r => paren_depth r (d + 1)
  | TRParen :: r => paren_depth r (d - 1)
  | _ :: r => paren_depth r d
  | [] => d
  end.

(** The logical lines of a text, each with the indentation of its first
    line: a line that leaves a parenthesis open goes on with the next
    one; a line without token is no statement. [None] when a line has a
    character that starts no token, or when a parenthesis is left
    open. *)
Fixpoint logical_lines (ls : list string) (pending : option (nat * list token))
  : option (list (nat * list token)) :=
  match ls with
  | [] => match pending with None => Some [] | Some _ => None end
  | l :: t =>
      match tokenize (S (String.length l)) l with
      | None => None
      | Some ts =>
          let cur :=
            match pending with
            | Some (i, ps) => Some (i, (ps ++ ts)%list)
            | None => match ts with [] => None | _ => Some (indent_of l, ts) end
            end in
          match cur with
          | None => logical_lines t None
          | Some (i, ts') =>
              if (0 <? paren_depth ts' 0)%Z then logical_lines t (Some (i, ts'))
              else match logical_lines t None with
                   | Some r => Some ((i, ts') :: r)
                   | None => None
                   end
          end
      end
  end.

Fixpoint parse_stmts (ls : list (nat * list token)) : option (list (nat * line)) :=
  match ls with
  | [] => Some []
  | (i, ts) :: t =>
      match parse_stmt ts, parse_stmts t with
      | Some x, Some r => Some ((i, x) :: r)
      | _, _ => None
      end
  end.

(** The statements of a text; [None] when a line is not a statement of
    the fragment. *)
Definition parse_lines (ls : list string) : option (list (nat * line)) :=
  match logical_lines ls None with
  | Some l => parse_stmts l
  | None => None
  end.

(** The lines of a block: those indented deeper than [ind], and what
    follows. *)
Fixpoint block (ind : nat) (ls : list (nat * line))
  : list (nat * line) * list (nat * line) :=
  match ls with
  | (i, l) :: t =>
      if (ind <? i)%nat then let '(b, r) := block ind t in ((i, l) :: b, r)
      else ([], ls)
  | [] => ([], [])
  end.

(** What follows the [elif] and [else] branches at indentation [ind]. *)
Fixpoint skip_branches (fuel : nat) (ind : nat) (ls : list (nat * line))
  : option (list (nat * line)) :=
  match fuel with
  | O => None
  | S f =>
      match ls with
      | (i, LElif _) :: t =>
          if (i =? ind)%nat then
            match block ind t with
            | ([], _) => None
            | (_, r) => skip_branches f ind r
            end
          else Some ls
      | (i, LElse) :: t =>
          if (i =? ind)%nat then
            match block ind t with
            | ([], _) => None
            | (_, r) => Some r
            end
          else Some ls
      | _ => Some ls
      end
  end.

Inductive result : Type := Returned (v : value) | Fell (locals : env).

(** The statements at indentation [ind], in order. *)
Fixpoint exec (fuel : nat) (person : string -> option value) (ind : nat)
         (ls : list (nat * line)) (locals : env) : option result :=
  match fuel with
  | O => None
  | S f =>
      match ls with
      | [] => Some (Fell locals)
      | (i, l) :: t =>
          if negb (i =? ind)%nat then None
          else
            let branch (c : bool) :=
              match block ind t with
              | ([], _) => None
              | ((j, l') :: b, r) =>
                  if c then
                    match skip_branches f ind r with
                    | Some r' =>
                        match exec f person j ((j, l') :: b) locals with
                        | Some (Fell locals') => exec f person ind r' locals'
                        | other => other
                        end
                    | None => None
                    end
                  else
                    match r with
                    | (i', LElif c') :: t' =>
                        if (i' =? ind)%nat
                        then exec f person ind ((ind, LIf c') :: t') locals
                        else exec f person ind r locals
                    | (i', LElse) :: t' =>
                        if (i' =? ind)%nat then
                          match block ind t' with
                          | ([], _) => None
                          | ((j', l'') :: b', r') =>
                              match exec f person j' ((j', l'') :: b') locals with
                              | Some (Fell locals') => exec f person ind r' locals'
                              | other => other
                              end
                          end
                        else exec f person ind r locals
                    | _ => exec f person ind r locals
                    end
              end in
            match l with
            | LAssign x e =>
                match eval person locals e with
                | Some v => exec f person ind t ((x, v) :: locals)
                | None => None
                end
            | LReturn e =>
                match eval person locals e with
                | Some v => Some (Returned v)
                | None => None
                end
            | LIf e =>
                match eval person locals e with
                | Some v => branch (truthy v)
                | None => None
                end
            | LElif _ | LElse => None
            end
      end
  end.

(** The lines of the body of [formula] in the class [cls] of a generated
    text. *)
Fixpoint after_line (l : string) (ls : list string) : option (list string) :=
  match ls with
  | [] => None
  | x :: t => if (x =? l)%string then Some t else after_line l t
  end.

Fixpoint body_lines (ls : list string) : list string :=
  match ls with
  | [] => []
  | x :: t =>
      if (trim x =? "")%string || (4 <? indent_of x)%nat then x :: body_lines t
      else []
  end.

Fixpoint until_class (ls : list string) : list string :=
  match ls with
  | [] => []
  | x :: t => if startsWith x "class " then [] else x :: until_class t
  end.

Definition formula_lines (code cls : string) : option (list string) :=
  match after_line ("class " ++ cls ++ "(Variable):") (split_lines code) with
  | Some ls =>
      match after_line "    def formula(person, period, parameters):" (until_class ls) with
      | Some b => Some (body_lines b)
      | None => None
      end
  | None => None
  end.

(** The value the formula of the class [cls] returns for a person;
    [None] when the text is outside the fragment, when Python raises an
    error, or when the formula returns nothing. *)
Definition run_formula (person : string -> option value) (code cls : string)
  : option value :=
  match formula_lines code cls with
  | Some ls =>
      match parse_lines ls with
      | Some ((i, l) :: t) =>
          match exec (2 * List.length t + 4) person i ((i, l) :: t) [] with
          | Some (Returned v) => Some v
          | _ => None
          end
      | _ => None
      end
  | None => None
  end.

(** The value of the variable [cls] for a person, in the module [code]:
    where a formula reads a variable, [person('v', period)], the value
    is what the formula of the class [v] of the module returns, and what
    the person has for [v] when the module gives [v] no formula. [None]
    also when the formulas depend on one another in a circle. *)
Fixpoint run_module (fuel : nat) (inputs : string -> option value)
         (code cls : string) : option value :=
  match fuel with
  | O => None
  | S f =>
      match formula_lines code cls with
      | Some _ =>
          run_formula (fun v => run_module f inputs code v) code cls
      | None => inputs cls
      end
  end.

End PyRun.

(* ================================================================= *)
(** * compiler.js: what the two variants share

    The repository keeps two variants of the compiler. The functions of
    this module have the same text in both. *)

Module Common.

Import Js Re Num.

(** [\bw1\s+w2\s+...\b] under the [i] flag. *)
Fixpoint words (l : list string) : re :=
  match l with
  | [] => Eps
  | [w] => liti w
  | w :: t => Seq (liti w) (Seq ws1 (words t))
  end.

Definition phrase (l : list string) : re := seqs [WordB; words l; WordB].

(** [/\bis\b(?!\s+(less|greater|at|more|no|equal|not))/gi] *)
Definition re_is : re :=
  seqs [WordB; liti "is"; WordB;
        NegLook (Seq ws1 (Group 1 (alts [liti "less"; liti "greater"; liti "at";
                                         liti "more"; liti "no"; liti "equal";
                                         liti "not"])))].

(** A chain of [.replace(pattern, text)] calls with the [g] flag. *)
Definition replace_chain (l : list (re * string)) (s : string) : string :=
  fold_left (fun acc p => replace_all (fst p) (snd p) acc) l s.

(** Natural language operators, in the order of the source. *)
Definition natural_operators : list (re * string) :=
  [ (phrase ["is"; "less"; "than"], "<");
    (phrase ["is"; "greater"; "than"], ">");
    (phrase ["is"; "at"; "least"], ">=");
    (phrase ["is"; "at"; "most"], "<=");
    (phrase ["is"; "more"; "than"], ">");
    (phrase ["is"; "no"; "more"; "than"], "<=");
    (phrase ["is"; "no"; "less"; "than"], ">=");
    (phrase ["is"; "equal"; "to"], "==");
    (phrase ["is"; "not"; "equal"; "to"], "!=");
    (phrase ["is"; "not"], "!=");
    (re_is, "==") ].

(** [/\s*OP\s*/g] *)
Definition spaced (op : string) : re := seqs [ws0; lit op; ws0].

(** The spacing of the symbolic operators, in the order of the source:
    the one-character operators come after the two-character ones. *)
Definition operator_spacing : list (re * string) :=
  [ (spaced "==", " == ");
    (spaced "!=", " != ");
    (spaced "<=", " <= ");
    (spaced ">=", " >= ");
    (spaced "<", " < ");
    (spaced ">", " > ") ].

(** [/\$?([\d,]+(?:\.\d+)?)/g] and [/,/g] *)
Definition amounts : list (re * string) :=
  [ (seqs [Opt (lit "$");
           Group 1 (Seq (Plus (Chr (fun c => is_digit c || (code c =? 44))))
                        (Opt (Seq (lit ".") (Plus dg))))], "$1");
    (lit ",", "") ].

(** [true], [false], [yes], [no], [eligible] and double-quoted strings. *)
Definition literals : list (re * string) :=
  [ (phrase ["true"], "True");
    (phrase ["false"], "False");
    (phrase ["yes"], "True");
    (phrase ["no"], "False");
    (phrase ["eligible"], "True");
    (seqs [lit dq; Group 1 (Plus (Chr (fun c => negb (code c =? 34)))); lit dq],
     "'$1'") ].

(** ** [parseOutcome] *)

Inductive outcome : Type :=
| Eligibility (variable : string)
| Payment (amount : option decimal) (period : string)
| Schedule (schedule : string)
| Reduction (cents : N) (threshold : option decimal)
| Unknown (text : string).

(** [/(\w+)\s*=\s*true/i], [/(\w+)\s+is\s+eligible/i],
    [/(\w+)\s+is\s+yes/i], [/(\w+)\s+is\s+true/i] *)
Definition eligibilityPatterns : list re :=
  [ seqs [Group 1 (Plus wd); ws0; lit "="; ws0; liti "true"];
    seqs [Group 1 (Plus wd); ws1; liti "is"; ws1; liti "eligible"];
    seqs [Group 1 (Plus wd); ws1; liti "is"; ws1; liti "yes"];
    seqs [Group 1 (Plus wd); ws1; liti "is"; ws1; liti "true"] ].

Definition amt_chr : re := Chr (fun c => is_digit c || one_of ",._" c).

(** [/payment\s+is\s+\$?([\d,._]+)(?:\s+per\s+(\w+))?/i] *)
Definition re_payment : re :=
  seqs [liti "payment"; ws1; liti "is"; ws1; Opt (lit "$");
        Group 1 (Plus amt_chr);
        Opt (seqs [ws1; liti "per"; ws1; Group 2 (Plus wd)])].
(** [/rate\s+is\s+determined\s+by\s+(.+)/i] *)
Definition re_schedule : re :=
  seqs [liti "rate"; ws1; liti "is"; ws1; liti "determined"; ws1; liti "by";
        ws1; Group 1 (Plus dot)].
(** [/payment\s+reduces\s+by\s+(\d+)\s+cents\s+per\s+dollar\s+over\s+\$?([\d,._]+)/i] *)
Definition re_reduction : re :=
  seqs [liti "payment"; ws1; liti "reduces"; ws1; liti "by"; ws1;
        Group 1 (Plus dg); ws1; liti "cents"; ws1; liti "per"; ws1;
        liti "dollar"; ws1; liti "over"; ws1; Opt (lit "$");
        Group 2 (Plus amt_chr)].
(** [/[,_]/g] *)
Definition re_sep : re := Chr (one_of ",_").

Definition first_match (l : list re) (s : string) : option mresult :=
  fold_right (fun r k => match exec r s with Some m => Some m | None => k end)
             None l.

Definition parseOutcome (text : string) : outcome :=
  match first_match eligibilityPatterns text with
  | Some m => Eligibility (cap_or_empty 1 m)
  | None =>
      match exec re_payment text with
      | Some m =>
          Payment (parseFloat (replace_all re_sep "" (cap_or_empty 1 m)))
                  (match cap 2 m with
                   | Some p => if (p =? "")%string then "fortnight" else p
                   | None => "fortnight"
                   end)
      | None =>
          match exec re_schedule text with
          | Some m => Schedule (trim (cap_or_empty 1 m))
          | None =>
              match exec re_reduction text with
              | Some m =>
                  Reduction (parseInt (cap_or_empty 1 m))
                            (parseFloat (replace_all re_sep "" (cap_or_empty 2 m)))
              | None => Unknown text
              end
          end
      end
  end.

(** ** [extractVariables] *)

Definition excludeWords : list string :=
  ["true"; "false"; "yes"; "no"; "eligible";
   "and"; "or"; "not"; "between";
   "is"; "are"; "was"; "were"; "be"; "been"; "has"; "have";
   "less"; "greater"; "than"; "at"; "least"; "most"; "more"; "equal"; "to";
   "per"; "by"; "cents"; "cent"; "dollar"; "dollars"; "over"; "under";
   "payment"; "payments"; "rate"; "rates"; "reduces"; "reduced"; "reduction";
   "amount"; "base"; "maximum"; "minimum";
   "fortnight"; "fortnightly"; "week"; "weekly"; "month"; "monthly";
   "year"; "yearly"; "annual"; "annually"; "day"; "daily";
   "all"; "any"; "of"; "these"; "are"; "the"; "a"; "an";
   "then"; "when"; "given"; "and"; "or"; "if"].

(** [/\b[a-zA-Z_]\w*\b/g] *)
Definition re_ident : re :=
  seqs [WordB; Chr (fun c => is_alpha c || (code c =? 95)); Star true wd; WordB].

Definition starts_with_digit (s : string) : bool :=
  match s with String c _ => is_digit c | EmptyString => false end.

Definition extractVariables (text : string) (variables : list string)
  : list string :=
  let cleanText :=
    replace_chain
      [ (seqs [lit "$"; Plus (Chr (fun c => is_digit c || (code c =? 44)));
               Opt (Seq (lit ".") (Plus dg))], "");
        (seqs [lit dq; Star true (Chr (fun c => negb (code c =? 34))); lit dq], "");
        (seqs [lit sq; Star true (Chr (fun c => negb (code c =? 39))); lit sq], "") ]
      text in
  fold_left
    (fun vars m =>
       if negb (mem (toLowerCase m) excludeWords) && negb (starts_with_digit m)
       then set_add m vars else vars)
    (match_all re_ident cleanText) variables.

(** ** [generateVariableDefinitions] *)

Inductive value_type : Type := TInt | TBool | TStr | TFloat.
Inductive period : Type := DAY | MONTH | YEAR | ETERNITY.

Definition type_name (t : value_type) : string :=
  match t with TInt => "int" | TBool => "bool" | TStr => "str" | TFloat => "float" end.

Definition period_name (p : period) : string :=
  match p with
  | DAY => "DAY" | MONTH => "MONTH" | YEAR => "YEAR" | ETERNITY => "ETERNITY"
  end.

(** The lines of a template, each closed by a line feed. *)
Definition text_lines (l : list string) : string :=
  String.concat "" (map (fun x => x ++ nl) l).

Definition generateVariableDefinitions
           (guessVariableType : string -> value_type * period)
           (variables : list string) : string :=
  fold_left
    (fun code variable =>
       let varInfo := guessVariableType variable in
       code ++ text_lines
         [ "";
           "class " ++ variable ++ "(Variable):";
           "    value_type = " ++ type_name (fst varInfo);
           "    entity = Person";
           "    definition_period = " ++ period_name (snd varInfo);
           "    label = " ++ dq ++ replace_all (lit "_") " " variable ++ dq ])
    variables ("# Variable definitions" ++ nl).

(** The header of the generated file; [today] is
    [new Date().toLocaleDateString('en-AU')]. *)
Definition header (today : string) : string :=
  text_lines
    [ dq ++ dq ++ dq;
      "Generated OpenFisca code from Courgette rules";
      "Created: " ++ today;
      "";
      "Note: This generated code should be validated with OpenFisca's type checker";
      "Run: openfisca test [this_file.py] --verbose";
      dq ++ dq ++ dq;
      "";
      "from openfisca_core.model_api import *";
      "from openfisca_core.periods import MONTH, YEAR, DAY, ETERNITY";
      "" ].

(** [name.replace(/\s+/g, '_').toLowerCase()] *)
Definition slug (name : string) : string :=
  toLowerCase (replace_all ws1 "_" name).

(** The local declarations of an eligibility formula: one line for each
    new name met in the conditions. *)
Definition declare_names (conditions : list string) : string :=
  snd (fold_left
         (fun (acc : list string * string) condition =>
            fold_left
              (fun (acc : list string * string) varName =>
                 if negb (mem varName ["True"; "False"; "and"; "or"; "not"])
                    && negb (starts_with_digit varName)
                    && negb (mem varName (fst acc))
                 then ((fst acc ++ [varName])%list,
                       snd acc ++ "        " ++ varName ++ " = person('" ++ varName
                       ++ "', period)" ++ nl)
                 else acc)
              (match_all re_ident condition) acc)
         conditions ([], EmptyString)).

Definition eligible_class (name : string) : string :=
  text_lines
    [ "";
      "class " ++ slug name ++ "_eligible(Variable):";
      "    value_type = bool";
      "    entity = Person";
      "    definition_period = MONTH";
      "    label = " ++ dq ++ name ++ " eligibility" ++ dq;
      "    documentation = " ++ dq ++ dq ++ dq;
      "    " ++ name ++ " eligibility conditions.";
      "    " ++ dq ++ dq ++ dq;
      "    ";
      "    def formula(person, period, parameters):" ].

Definition payment_class (name : string) (definition_period : period) : string :=
  text_lines
    [ "";
      "";
      "class " ++ slug name ++ "_payment(Variable):";
      "    value_type = float";
      "    entity = Person";
      "    definition_period = " ++ period_name definition_period;
      "    label = " ++ dq ++ name ++ " payment amount" ++ dq;
      "    documentation = " ++ dq ++ dq ++ dq;
      "    " ++ name ++ " payment calculation.";
      "    " ++ dq ++ dq ++ dq;
      "    ";
      "    def formula(person, period, parameters):";
      "        eligible = person('" ++ slug name ++ "_eligible', period)";
      "        ";
      "        if not eligible:";
      "            return 0";
      "        " ].

(** The lines of a [return ( ... )]: each condition in parentheses, the
    ones after the first preceded by [and]. *)
Fixpoint return_lines (first : bool) (fixedConditions : list string) : string :=
  match fixedConditions with
  | [] => EmptyString
  | c :: t =>
      "            " ++ (if first then "" else "and ") ++ "(" ++ c ++ ")" ++ nl
      ++ return_lines false t
  end.

(** The expression returned by an eligibility formula. *)
Definition return_expr (fixedConditions : list string) : string :=
  match fixedConditions with
  | [] => "True"
  | _ => "(" ++ nl ++ return_lines true fixedConditions ++ "        )"
  end.

Definition eligibility_body (conditions fixedConditions : list string) : string :=
  declare_names conditions
  ++ match fixedConditions with
     | [] => "        return True" ++ nl
     | _ => nl ++ "        return " ++ return_expr fixedConditions ++ nl
     end.

Definition is_eligibility (o : outcome) : bool :=
  match o with Eligibility _ => true | _ => false end.

Definition find_payment (l : list outcome) : option (option decimal) :=
  match find (fun o => match o with Payment _ _ => true | _ => false end) l with
  | Some (Payment a _) => Some a
  | _ => None
  end.

Definition find_schedule (l : list outcome) : option string :=
  match find (fun o => match o with Schedule _ => true | _ => false end) l with
  | Some (Schedule n) => Some n
  | _ => None
  end.

Definition reductions (l : list outcome) : list (N * option decimal) :=
  flat_map (fun o => match o with Reduction c t => [(c, t)] | _ => [] end) l.

(** [if (x)] on a string that may be [null]. *)
Definition truthy (o : option string) : bool :=
  match o with Some s => negb (s =? "")%string | None => false end.

(** [/^(When|Given|And)\s+/], [/^Or\s+/] and [/^(Then|And)\s+/] *)
Definition re_cond_kw : re :=
  seqs [Bol; Group 1 (alts [lit "When"; lit "Given"; lit "And"]); ws1].
Definition re_or_kw : re := seqs [Bol; lit "Or"; ws1].
Definition re_outcome_kw : re :=
  seqs [Bol; Group 1 (alts [lit "Then"; lit "And"]); ws1].

(** ** The statements of a payment formula

    Each constructor stands for the lines one template of
    [generateScenarioCode] emits; [render] gives the lines. *)

Inductive pay_stmt : Type :=
| PBase (amount : option decimal)
    (* base_amount = AMOUNT *)
| PScheduleTodo (schedule : string)
    (* first variant: base_amount = 0, the lookup is left to do *)
| PDispatch (schedule : string) (entries : list (string * string))
    (* if / elif over (condition code, variable), else base_amount = 0 *)
| PNotFound
    (* base_amount = 0 *)
| PZero
    (* base_amount = 0 *)
| PApplyTodo
    (* first variant: a comment *)
| PReduceTodo (cents : N) (threshold : option decimal)
    (* first variant: two comments *)
| PIncome
    (* income = person('income', period) *)
| PReduce (threshold : option decimal) (cents : N).
    (* if income > T: base_amount = max(0, base_amount - (income - T) * R) *)

Fixpoint render_entries (first : bool) (entries : list (string * string)) : string :=
  match entries with
  | [] => EmptyString
  | (conditionCode, varName) :: t =>
      text_lines
        [ (if first then "        if " else "        elif ") ++ conditionCode ++ ":";
          "            base_amount = person('" ++ varName ++ "', period)" ]
      ++ render_entries false t
  end.

Definition render (st : pay_stmt) : string :=
  match st with
  | PBase amount =>
      text_lines [ "        # Base payment amount";
                   "        base_amount = " ++ num_to_string amount ]
  | PScheduleTodo schedule =>
      text_lines
        [ "        # Payment from schedule: " ++ schedule;
          "        # TODO: Implement schedule lookup";
          "        base_amount = 0  # parameters."
          ++ replace_all ws1 "_" (toLowerCase schedule) ++ "[period]" ]
  | PDispatch schedule entries =>
      text_lines [ "        # Payment from schedule: " ++ schedule ]
      ++ render_entries true entries
      ++ text_lines [ "        else:"; "            base_amount = 0" ]
  | PNotFound =>
      text_lines [ "        # Schedule not found"; "        base_amount = 0" ]
  | PZero => text_lines [ "        base_amount = 0" ]
  | PApplyTodo =>
      text_lines [ "        "; "        # Apply income test reductions" ]
  | PReduceTodo cents threshold =>
      text_lines
        [ "        # Reduces by " ++ int_to_string cents ++ " cents per dollar over $"
          ++ num_to_string threshold;
          "        # TODO: Implement reduction calculation" ]
  | PIncome =>
      text_lines [ "        ";
                   "        # Apply income test reductions";
                   "        income = person('income', period)" ]
  | PReduce threshold cents =>
      text_lines
        [ "        if income > " ++ num_to_string threshold ++ ":";
          "            base_amount = max(0, base_amount - (income - "
          ++ num_to_string threshold ++ ") * " ++ hundredth_to_string cents ++ ")" ]
  end.

Definition render_payment (stmts : list pay_stmt) : string :=
  String.concat "" (map render stmts)
  ++ text_lines [ "        "; "        return base_amount" ].

(** A parsed scenario. *)
Record scenario : Type := Scen {
  name : string;
  conditions : list string;
  outcomes : list outcome
}.

End Common.

(* ================================================================= *)
(** * compiler.js, second variant *)

Module V2.

Import Js Re Num Common.

(** [/(\w+)\s+between\s+(\S+)\s+and\s+(\S+)/i] *)
Definition re_between : re :=
  seqs [Group 1 (Plus wd); ws1; liti "between"; ws1; Group 2 (Plus nws); ws1;
        liti "and"; ws1; Group 3 (Plus nws)].

Definition parseCondition (condition : string) : string :=
  (* First, convert natural language operators to symbols *)
  let parsed := replace_chain natural_operators condition in
  (* Handle between before other conversions *)
  let parsed :=
    match exec re_between parsed with
    | Some m =>
        let fullMatch := mr_text m in
        let varName := cap_or_empty 1 m in
        let low := cap_or_empty 2 m in
        let high := cap_or_empty 3 m in
        replace_string fullMatch
          (varName ++ " >= " ++ low ++ ") and (" ++ varName ++ " <= " ++ high)
          parsed
    | None => parsed
    end in
  (* Then handle remaining conversions *)
  replace_chain (operator_spacing ++ amounts ++ literals) parsed.

Definition guessVariableType (variable : string) : value_type * period :=
  let varLower := toLowerCase variable in
  if includes varLower "age" then (TInt, DAY)
  else if startsWith varLower "is_" || startsWith varLower "has_"
          || includes varLower "eligible" || (varLower =? "studying")%string
  then (TBool, MONTH)
  else if includes varLower "resident" || includes varLower "citizen"
  then (TBool, ETERNITY)
  else if includes varLower "years" || includes varLower "_years"
  then (TInt, YEAR)
  else if includes varLower "status" || includes varLower "type"
          || includes varLower "category"
  then (TStr, MONTH)
  else if includes varLower "income" || includes varLower "payment"
          || includes varLower "amount" || includes varLower "rate"
          || includes varLower "asset" || includes varLower "value"
  then (TFloat, MONTH)
  else (TFloat, MONTH).

(** A schedule entry. *)
Record entry : Type := Entry {
  e_condition : string;
  e_amount : option decimal;
  e_period : string
}.

Definition schedules_t : Type := list (string * list entry).

(** [Map.prototype.get] and [Map.prototype.set]: a key keeps the place
    of its first insertion. *)
Fixpoint map_get (k : string) (m : schedules_t) : option (list entry) :=
  match m with
  | [] => None
  | (k', v) :: t => if (k' =? k)%string then Some v else map_get k t
  end.

Fixpoint map_set (k : string) (v : list entry) (m : schedules_t) : schedules_t :=
  match m with
  | [] => [(k, v)]
  | (k', v') :: t =>
      if (k' =? k)%string then (k, v) :: t else (k', v') :: map_set k v t
  end.

(** [entry.condition.toLowerCase().replace(/[^a-z0-9]+/g, '_')] *)
Definition condition_slug (condition : string) : string :=
  replace_all (Plus (Chr (fun c => negb (is_lower c || is_digit c)))) "_"
              (toLowerCase condition).

(** [scheduleName.toLowerCase().replace(/\s+/g, '_')] *)
Definition param_name (scheduleName : string) : string :=
  replace_all ws1 "_" (toLowerCase scheduleName).

Definition generateScheduleParameters (schedules : schedules_t) : string :=
  fold_left
    (fun code (p : string * list entry) =>
       let scheduleName := fst p in
       fold_left
         (fun code e =>
            let varName := param_name scheduleName ++ "_"
                           ++ condition_slug (e_condition e) in
            code ++ text_lines
              [ "";
                "class " ++ varName ++ "(Variable):";
                "    value_type = float";
                "    entity = Person";
                "    definition_period = ETERNITY";
                "    label = " ++ dq ++ scheduleName ++ " - " ++ e_condition e ++ dq;
                "    default_value = " ++ num_to_string (e_amount e) ])
         (snd p) code)
    schedules ("# Schedule parameters as variables" ++ nl).

(** [/(\w+)\s+between\s+(\d+)\s+and\s+(\d+)/i] *)
Definition re_schedule_between : re :=
  seqs [Group 1 (Plus wd); ws1; liti "between"; ws1; Group 2 (Plus dg); ws1;
        liti "and"; ws1; Group 3 (Plus dg)].

(** [/(\w+)\s+is\s+WORDS\s+(\d+)/gi] *)
Definition re_natural (l : list string) : re :=
  seqs [Group 1 (Plus wd); ws1; words ("is" :: l); ws1; Group 2 (Plus dg)].

(** [/(\w+)\s+OP\s+(\d+)/g] *)
Definition re_symbolic (op : string) : re :=
  seqs [Group 1 (Plus wd); ws1; lit op; ws1; Group 2 (Plus dg)].

Definition parseScheduleCondition (condition : string) : string :=
  match exec re_schedule_between condition with
  | Some m =>
      let varName := cap_or_empty 1 m in
      "person('" ++ varName ++ "', period) >= " ++ cap_or_empty 2 m
      ++ " and person('" ++ varName ++ "', period) <= " ++ cap_or_empty 3 m
  | None =>
      let parsed :=
        replace_chain
          [ (re_natural ["less"; "than"], "person('$1', period) < $2");
            (re_natural ["greater"; "than"], "person('$1', period) > $2");
            (re_natural ["at"; "least"], "person('$1', period) >= $2");
            (re_natural ["at"; "most"], "person('$1', period) <= $2");
            (re_symbolic "<", "person('$1', period) < $2");
            (re_symbolic ">", "person('$1', period) > $2");
            (re_symbolic "<=", "person('$1', period) <= $2");
            (re_symbolic ">=", "person('$1', period) >= $2") ]
          condition in
      if negb (includes parsed "person(")
      then "person('family_situation', period) == '" ++ condition ++ "'"
      else parsed
  end.

(** [/\s+([<>=]+)\s+/g] *)
Definition re_operator : re :=
  seqs [ws1; Group 1 (Plus (Chr (one_of "<>="))); ws1].

(** [/(\w+)\s*>=\s*\d+\)\s*and\s*\((\w+)\s*<=\s*\d+/] *)
Definition re_between_var : re :=
  seqs [Group 1 (Plus wd); ws0; lit ">="; ws0; Plus dg; lit ")"; ws0; lit "and";
        ws0; lit "("; Group 2 (Plus wd); ws0; lit "<="; ws0; Plus dg].

(** The text of a condition as it is written in the formula. *)
Definition fixedCondition (condition : string) : string :=
  let fixed := replace_all re_operator " $1 " condition in
  match exec re_between_var fixed with
  | Some m =>
      if negb (cap_or_empty 1 m =? "")%string
      then replace_string (cap_or_empty 2 m) (cap_or_empty 1 m) fixed
      else fixed
  | None => fixed
  end.

(** The statements of the payment formula, when the scenario has one. *)
Definition payment_stmts (outcomes : list outcome) (schedules : schedules_t)
  : option (list pay_stmt) :=
  let paymentOutcomes := filter (fun o => negb (is_eligibility o)) outcomes in
  let paymentOutcome := find_payment paymentOutcomes in
  let scheduleOutcome := find_schedule paymentOutcomes in
  let reductionOutcomes := reductions paymentOutcomes in
  let base :=
    match paymentOutcome with
    | Some amount => [PBase amount]
    | None =>
        match scheduleOutcome with
        | Some sname =>
            match map_get sname schedules with
            | Some (e :: es) =>
                [PDispatch sname
                   (map (fun e =>
                           (parseScheduleCondition (e_condition e),
                            param_name sname ++ "_"
                            ++ condition_slug (e_condition e)))
                        (e :: es))]
            | _ => [PNotFound]
            end
        | None => [PZero]
        end
    end in
  let reduce :=
    match reductionOutcomes with
    | [] => []
    | _ => PIncome :: map (fun r => PReduce (snd r) (fst r)) reductionOutcomes
    end in
  match paymentOutcome, scheduleOutcome, reductionOutcomes with
  | None, None, [] => None
  | _, _, _ => Some (base ++ reduce)%list
  end.

Definition generateScenarioCode (name : string) (conditions : list string)
           (outcomes : list outcome) (schedules : schedules_t) : string :=
  eligible_class name
  ++ eligibility_body conditions (map fixedCondition conditions)
  ++ match payment_stmts outcomes schedules with
     | Some stmts => payment_class name MONTH ++ render_payment stmts
     | None => EmptyString
     end.

(** The variables of [compileToOpenFisca]. *)
Record state : Type := St {
  scenarios : list scenario;
  currentScenario : option string;
  currentDefinition : option string;
  currentSchedule : option string;
  variables : list string;
  cur_conditions : list string;
  cur_outcomes : list outcome;
  inConditions : bool;
  schedules : schedules_t
}.

Definition init : state := St [] None None None [] [] [] true [].

(** [/^When\s+(.+?):\s*\$?([\d,._]+)(?:\s+per\s+(\w+))?$/] *)
Definition re_schedule_entry : re :=
  seqs [Bol; lit "When"; ws1; Group 1 (PlusLazy dot); lit ":"; ws0;
        Opt (lit "$"); Group 2 (Plus amt_chr);
        Opt (seqs [ws1; lit "per"; ws1; Group 3 (Plus wd)]); Eol].

Definition add_condition (condition : string) (s : state) : state :=
  if negb (condition =? "")%string && negb (includes condition ":") then
    St (scenarios s) (currentScenario s) (currentDefinition s) (currentSchedule s)
       (extractVariables condition (variables s))
       (cur_conditions s ++ [parseCondition condition])
       (cur_outcomes s) (inConditions s) (schedules s)
  else s.

(** A list item is taken as it is. *)
Definition add_condition_item (item : string) (s : state) : state :=
  St (scenarios s) (currentScenario s) (currentDefinition s) (currentSchedule s)
     (extractVariables item (variables s))
     (cur_conditions s ++ [parseCondition item])
     (cur_outcomes s) (inConditions s) (schedules s).

(** One line of the source text. *)
Definition line_step (s : state) (line : string) : state :=
  let trimmed := trim line in
  if startsWith trimmed "Scenario:" then
    St (if truthy (currentScenario s)
        then scenarios s
             ++ [Scen (match currentScenario s with Some n => n | None => "" end)
                      (cur_conditions s) (cur_outcomes s)]
        else scenarios s)
       (Some (trim (substring_from 9 trimmed)))
       (currentDefinition s) None (variables s) [] [] true (schedules s)
  else if startsWith trimmed "Definition:" then
    St (scenarios s) (currentScenario s) (Some (trim (substring_from 11 trimmed)))
       None (variables s) (cur_conditions s) (cur_outcomes s) (inConditions s)
       (schedules s)
  else if startsWith trimmed "Schedule:" then
    let sname := trim (substring_from 9 trimmed) in
    St (scenarios s) (currentScenario s) (currentDefinition s) (Some sname)
       (variables s) (cur_conditions s) (cur_outcomes s) (inConditions s)
       (map_set sname [] (schedules s))
  else if truthy (currentSchedule s) && startsWith trimmed "When " then
    match exec re_schedule_entry trimmed, currentSchedule s with
    | Some m, Some sname =>
        let e := Entry (cap_or_empty 1 m)
                       (parseFloat (replace_all re_sep "" (cap_or_empty 2 m)))
                       (match cap 3 m with
                        | Some p => if (p =? "")%string then "fortnight" else p
                        | None => "fortnight"
                        end) in
        St (scenarios s) (currentScenario s) (currentDefinition s)
           (currentSchedule s) (variables s) (cur_conditions s) (cur_outcomes s)
           (inConditions s)
           (map_set sname
                    (match map_get sname (schedules s) with
                     | Some es => es ++ [e]
                     | None => [e]
                     end)
                    (schedules s))
    | _, _ => s
    end
  else if truthy (currentScenario s) then
    if test re_cond_kw trimmed && inConditions s then
      add_condition (replace_first re_cond_kw "" trimmed) s
    else if startsWith trimmed "Or" && inConditions s then
      add_condition (replace_first re_or_kw "" trimmed) s
    else if test re_outcome_kw trimmed then
      St (scenarios s) (currentScenario s) (currentDefinition s)
         (currentSchedule s) (variables s) (cur_conditions s)
         (cur_outcomes s ++ [parseOutcome (replace_first re_outcome_kw "" trimmed)])
         false (schedules s)
    else if startsWith trimmed "-" then
      if inConditions s
      then add_condition_item (trim (substring_from 1 trimmed)) s
      else s
    else s
  else s.

(** The state after all the lines, with the last scenario saved. *)
Definition parse_lines (lines : list string) : state :=
  let s := fold_left line_step lines init in
  if truthy (currentScenario s) then
    St (scenarios s
        ++ [Scen (match currentScenario s with Some n => n | None => "" end)
                 (cur_conditions s) (cur_outcomes s)])
       (currentScenario s) (currentDefinition s) (currentSchedule s)
       (variables s) (cur_conditions s) (cur_outcomes s) (inConditions s)
       (schedules s)
  else s.

(** [compileToOpenFisca]; [today] is the date the host prints for
    [new Date().toLocaleDateString('en-AU')]. *)
Definition compileToOpenFisca (today : string) (courgette : string) : string :=
  let s := parse_lines (split_lines courgette) in
  header today
  ++ generateVariableDefinitions guessVariableType (variables s)
  ++ nl
  ++ (match schedules s with
      | [] => EmptyString
      | _ => generateScheduleParameters (schedules s) ++ nl
      end)
  ++ String.concat ""
       (map (fun sc => generateScenarioCode (name sc) (conditions sc) (outcomes sc)
                                            (schedules s))
            (scenarios s)).

End V2.

(* ================================================================= *)
(** * compiler.js, first variant *)

Module V1.

Import Js Re Num Common.

(** [/\bbetween\s+(\S+)\s+and\s+(\S+)/gi] *)
Definition re_between : re :=
  seqs [WordB; liti "between"; ws1; Group 1 (Plus nws); ws1; liti "and"; ws1;
        Group 2 (Plus nws)].

Definition parseCondition (condition : string) : string :=
  (* First, convert natural language operators to symbols *)
  let parsed := replace_chain natural_operators condition in
  (* Then handle remaining conversions *)
  replace_chain
    (operator_spacing ++ amounts
     ++ [(re_between, ">= $1) and (_ <= $2")] ++ literals)
    parsed.

Definition guessVariableType (variable : string) : value_type * period :=
  let varLower := toLowerCase variable in
  if includes varLower "age" then (TInt, DAY)
  else if startsWith varLower "is_" || startsWith varLower "has_"
          || includes varLower "eligible" || (varLower =? "studying")%string
  then (TBool, DAY)
  else if includes varLower "resident" || includes varLower "citizen"
  then (TBool, ETERNITY)
  else if includes varLower "years" || includes varLower "_years"
  then (TInt, YEAR)
  else if includes varLower "status" || includes varLower "type"
          || includes varLower "category"
  then (TStr, MONTH)
  else if includes varLower "income" || includes varLower "payment"
          || includes varLower "amount" || includes varLower "rate"
          || includes varLower "asset" || includes varLower "value"
  then (TFloat, DAY)
  else (TFloat, MONTH).

(** [/\s+([<>=]+)\s+/g] and [/\)\s+and\s+\(_/g] *)
Definition re_operator : re :=
  seqs [ws1; Group 1 (Plus (Chr (one_of "<>="))); ws1].
Definition re_between_fix : re := seqs [lit ")"; ws1; lit "and"; ws1; lit "(_"].

Definition fixedCondition (condition : string) : string :=
  replace_chain [(re_operator, " $1 "); (re_between_fix, ") and (")] condition.

(** The statements of the payment formula, when the scenario has one. *)
Definition payment_stmts (outcomes : list outcome) : option (list pay_stmt) :=
  let paymentOutcomes := filter (fun o => negb (is_eligibility o)) outcomes in
  let paymentOutcome := find_payment paymentOutcomes in
  let scheduleOutcome := find_schedule paymentOutcomes in
  let reductionOutcomes := reductions paymentOutcomes in
  let base :=
    match paymentOutcome with
    | Some amount => [PBase amount]
    | None =>
        match scheduleOutcome with
        | Some sname => [PScheduleTodo sname]
        | None => []
        end
    end in
  let reduce :=
    match reductionOutcomes with
    | [] => []
    | _ => PApplyTodo :: map (fun r => PReduceTodo (fst r) (snd r)) reductionOutcomes
    end in
  match paymentOutcome, scheduleOutcome with
  | None, None => None
  | _, _ => Some (base ++ reduce)%list
  end.

Definition generateScenarioCode (name : string) (conditions : list string)
           (outcomes : list outcome) : string :=
  eligible_class name
  ++ eligibility_body conditions (map fixedCondition conditions)
  ++ match payment_stmts outcomes with
     | Some stmts => payment_class name DAY ++ render_payment stmts
     | None => EmptyString
     end.

(** The variables of [compileToOpenFisca]. *)
Record state : Type := St {
  output : string;
  currentScenario : option string;
  currentDefinition : option string;
  currentSchedule : option string;
  variables : list string;
  cur_conditions : list string;
  cur_outcomes : list outcome;
  inConditions : bool
}.

Definition init (today : string) : state :=
  St (header today) None None None [] [] [] true.

Definition add_condition (condition : string) (s : state) : state :=
  if negb (condition =? "")%string && negb (includes condition ":") then
    St (output s) (currentScenario s) (currentDefinition s) (currentSchedule s)
       (extractVariables condition (variables s))
       (cur_conditions s ++ [parseCondition condition])
       (cur_outcomes s) (inConditions s)
  else s.

(** A list item is taken as it is. *)
Definition add_condition_item (item : string) (s : state) : state :=
  St (output s) (currentScenario s) (currentDefinition s) (currentSchedule s)
     (extractVariables item (variables s))
     (cur_conditions s ++ [parseCondition item])
     (cur_outcomes s) (inConditions s).

(** The code of the scenario being read, if there is one. *)
Definition flush (s : state) : string :=
  match currentScenario s with
  | Some n =>
      if truthy (currentScenario s)
      then output s ++ generateScenarioCode n (cur_conditions s) (cur_outcomes s)
      else output s
  | None => output s
  end.

(** One line of the source text. *)
Definition line_step (s : state) (line : string) : state :=
  let trimmed := trim line in
  if startsWith trimmed "Scenario:" then
    St (flush s) (Some (trim (substring_from 9 trimmed)))
       (currentDefinition s) (currentSchedule s) (variables s) [] [] true
  else if startsWith trimmed "Definition:" then
    St (output s) (currentScenario s) (Some (trim (substring_from 11 trimmed)))
       (currentSchedule s) (variables s) (cur_conditions s) (cur_outcomes s)
       (inConditions s)
  else if startsWith trimmed "Schedule:" then
    St (output s) (currentScenario s) (currentDefinition s)
       (Some (trim (substring_from 9 trimmed)))
       (variables s) (cur_conditions s) (cur_outcomes s) (inConditions s)
  else if truthy (currentScenario s) then
    if test re_cond_kw trimmed && inConditions s then
      add_condition (replace_first re_cond_kw "" trimmed) s
    else if startsWith trimmed "Or" && inConditions s then
      add_condition (replace_first re_or_kw "" trimmed) s
    else if test re_outcome_kw trimmed && includes trimmed "is" then
      St (output s) (currentScenario s) (currentDefinition s) (currentSchedule s)
         (variables s) (cur_conditions s)
         (cur_outcomes s ++ [parseOutcome (replace_first re_outcome_kw "" trimmed)])
         false
    else if startsWith trimmed "-" then
      if inConditions s
      then add_condition_item (trim (substring_from 1 trimmed)) s
      else s
    else s
  else s.

Definition parse_lines (today : string) (lines : list string) : state :=
  fold_left line_step lines (init today).

Definition compileToOpenFisca (today : string) (courgette : string) : string :=
  let s := parse_lines today (split_lines courgette) in
  generateVariableDefinitions guessVariableType (variables s)
  ++ nl ++ nl ++ flush s.

End V1.

(* ================================================================= *)
(** * Vocabulary of the properties *)

Module Props.

Import Js Re Num Validator Common.

(** A text made of the given lines. *)
Definition doc (l : list string) : string := join nl l.

(** [t] begins with the keyword [kw] followed by white space. *)
Definition keyword_line (kw t : string) : bool :=
  startsWith t kw
  && match drop (String.length kw) t with
     | String c _ => is_space c
     | EmptyString => false
     end.

(** [/^(kw1|kw2|...)\s+/] *)
Definition kw_re (kws : list string) : re :=
  seqs [Bol; Group 1 (alts (map lit kws)); ws1].

(** A line that opens a block. *)
Definition is_header (l : string) : bool :=
  startsWith (trim l) "Scenario:" || startsWith (trim l) "Definition:"
  || startsWith (trim l) "Schedule:".

Definition opens_scenario (l : string) : bool := startsWith (trim l) "Scenario:".

(** The diagnostic of a scenario without outcome. *)
Definition is_missing_outcome (d : diagnostic) : bool :=
  (message d =? msg_missing_outcome)%string.

Definition is_error (d : diagnostic) : bool :=
  match severity d with Error => true | _ => false end.

(** Diagnostics in document line order: the line number of a diagnostic
    is at most that of every diagnostic after it in the list. *)
Definition in_line_order (ds : list diagnostic) : Prop :=
  StronglySorted Z.le (map line ds).

Definition plain (d : diagnostic) : bool := negb (is_missing_outcome d).

(** The diagnostic reports a scenario without outcome and is anchored
    at line [L]. *)
Definition missing_at (L : Z) (d : diagnostic) : bool :=
  is_missing_outcome d && (line d =? L)%Z.

(** While line [idx] is read, a scenario under way started at or before
    line [idx]. *)
Definition started_by (idx : nat) (c : ctx) : Prop :=
  currentBlock c = Some BScenario -> (blockStartLine c <= Z.of_nat idx)%Z.

(** The line declares the schedule [N]. *)
Definition declares_schedule (N : string) (l : string) : bool :=
  startsWith (trim l) "Schedule:"
  && (trim (substring_from 9 (trim l)) =? N)%string.

(** The lines after a scenario close it by a [Scenario:] header, or
    there are none. *)
Definition closes_scenario (rest : list string) : Prop :=
  match rest with
  | [] => True
  | h :: _ => opens_scenario h = true
  end.

(** No line of [body] opens a block or begins with [Then]. *)
Definition no_outcome_lines (body : list string) : Prop :=
  Forall (fun l => is_header l = false /\ keyword_line "Then" (trim l) = false)
         body.

(** A diagnostic anchored at line [n] that does not report a scenario
    without outcome. *)
Definition at_line (n : Z) (d : diagnostic) : Prop :=
  line d = n /\ is_missing_outcome d = false.

(** The character before the position reached after reading [p]. *)
Fixpoint prev_after (p : string) (prev : option ascii) : option ascii :=
  match p with
  | EmptyString => prev
  | String c t => prev_after t (Some c)
  end.

(** A person described by an age, and one described by an income. *)
Definition aged (a : Z) (x : string) : option Py.value :=
  if (x =? "age")%string then Some (Py.VNum (inject_Z a)) else None.

(** The truth value of the eligibility formula generated for the
    conditions of a scenario (second variant). *)
Definition eligibility_holds (person : string -> option Py.value)
           (sc : scenario) : option bool :=
  Py.holds person (return_expr (map V2.fixedCondition (conditions sc))).

(** The first variant started from an empty output: what it emits for
    the scenarios and for the variables. *)
Definition v1_empty : V1.state := V1.St EmptyString None None None [] [] [] true.

Definition v1_scenarios (courgette : string) : string :=
  V1.flush (fold_left V1.line_step (split_lines courgette) v1_empty).

Definition v1_variables (courgette : string) : string :=
  generateVariableDefinitions V1.guessVariableType
    (V1.variables (fold_left V1.line_step (split_lines courgette) v1_empty)).

(** Two states of the first variant that differ by the text [h] put
    before the output. *)
Definition v1_shifted (h : string) (s s0 : V1.state) : Prop :=
  V1.output s = h ++ V1.output s0
  /\ V1.currentScenario s = V1.currentScenario s0
  /\ V1.currentDefinition s = V1.currentDefinition s0
  /\ V1.currentSchedule s = V1.currentSchedule s0
  /\ V1.variables s = V1.variables s0
  /\ V1.cur_conditions s = V1.cur_conditions s0
  /\ V1.cur_outcomes s = V1.cur_outcomes s0
  /\ V1.inConditions s = V1.inConditions s0.



(** What the second variant emits after the header. *)
Definition v2_body (courgette : string) : string :=
  let s := V2.parse_lines (split_lines courgette) in
  generateVariableDefinitions V2.guessVariableType (V2.variables s)
  ++ nl
  ++ (match V2.schedules s with
      | [] => EmptyString
      | _ => V2.generateScheduleParameters (V2.schedules s) ++ nl
      end)
  ++ String.concat ""
       (map (fun sc => V2.generateScenarioCode (name sc) (conditions sc)
                                               (outcomes sc) (V2.schedules s))
            (V2.scenarios s)).

(** The documents of the examples. *)
Definition between_doc : string :=
  doc ["Scenario: S"; "  When age between 16 and 24"; "  Then x is eligible"].

Definition reduction_doc : string :=
  doc ["Scenario: S"; "  When age > 5"; "  Then payment is $1000 per fortnight";
       "  And payment reduces by 50 cents per dollar over $200"].

Definition or_first_doc : string :=
  doc ["Scenario: S"; "Or age > 5"; "Then x is eligible"].

Definition or_group_doc : string :=
  doc ["Scenario: S"; "Or any of these are true:"; "- age > 5";
       "Then x is eligible"].

Definition no_outcome_doc : string := doc ["Scenario: A"; "When foo bar"].

Definition and_schedule_doc : string :=
  doc ["Scenario: S"; "When age > 5"; "Then x is eligible";
       "And rate is determined by Missing Schedule"].

Definition eligible_name_doc : string :=
  doc ["Scenario: S"; "When age > 5";
       "Then rate is determined by Who is eligible"].

Definition missing_schedule_doc : string :=
  doc ["Scenario: S"; "When age > 5";
       "Then rate is determined by Missing Schedule"].

Definition unordered_doc : string :=
  doc ["Scenario: A"; "When foo bar"; "Scenario: B"; "When age > 5";
       "Then x is eligible"].


End Props.

(* ================================================================= *)
(** * Vocabulary of further properties *)

Module More.

Import Js Re Num Validator Common Props.

(** The characters of a text from offset [a] up to offset [b]. *)
Definition span (a b : Z) (text : string) : string :=
  substring (Z.to_nat a) (Z.to_nat b) text.

(** The text of the lines before a position: each line and its line
    feed. *)
Fixpoint lines_text (l : list string) : string :=
  match l with
  | [] => EmptyString
  | x :: t => (x ++ nl ++ lines_text t)%string
  end.

(** The end offset of a diagnostic is not before its start offset. *)
Definition span_ok (d : diagnostic) : Prop := (startOffset d <= endOffset d)%Z.

(** The diagnostic is the warning about tabs. *)
Definition is_tab_warning (d : diagnostic) : Prop :=
  message d = msg_tabs /\ severity d = Warning.

(** The line neither opens a block nor is a condition line that sets
    [hasConditions]. *)
Definition no_condition_lines (body : list string) : Prop :=
  Forall (fun l => is_header l = false
                   /\ scenario_line_kind (trim l) <> KCondition)
         body.

(** A line that opens a definition or a schedule. *)
Definition opens_other_block (l : string) : Prop :=
  is_header l = true /\ opens_scenario l = false.

(** Texts of the examples. *)
Definition tabbed_line : string := (tab ++ "When age > 5")%string.

Definition tabbed_doc : string :=
  doc ["Scenario: S"; tabbed_line; "Then x is eligible"].

Definition unclosed_doc : string :=
  doc ["Scenario: A"; "When age > 5"; "Schedule: Rates"; "When single: $10 per week"].

Definition blank_doc : string :=
  doc ["Scenario: S"; "When any of these are true:"; ""; "- age > 5";
       "Then x is eligible"].

Definition early_outcome_doc : string :=
  doc ["Scenario: S"; "# no condition"; "Then x is eligible"].

Definition loose_doc : string := doc ["When foo bar"; "- x"; "Then nonsense"].

(** The variables of a compilation are distinct and none of them is an
    excluded word. *)
Definition variables_ok (vars : list string) : Prop :=
  NoDup vars /\ Forall (fun v => mem (toLowerCase v) Common.excludeWords = false) vars.

(** No line opens a scenario. *)
Definition no_scenario (lines : list string) : Prop :=
  Forall (fun l => startsWith (trim l) "Scenario:" = false) lines.

Definition schedules_only_doc : string :=
  doc ["When age > 5"; "Schedule: Rates"; "When single: $10 per week";
       "Then x is eligible"].

(** The names a call of [extractVariables] keeps out: the lower-cased
    name is one of [excl]. *)
Definition excluded (excl : list string) (v : string) : bool :=
  mem (toLowerCase v) excl.

(** Every character of the text is in the class [p]. *)
Fixpoint all_chars (p : ascii -> bool) (s : string) : bool :=
  match s with
  | EmptyString => true
  | String c t => p c && all_chars p t
  end.

(** [[a-z0-9_]] *)
Definition is_name_char (c : ascii) : bool :=
  is_lower c || is_digit c || (code c =? 95)%nat.

Definition not_space (c : ascii) : bool := negb (is_space c).

(** A line that opens a definition. *)
Definition opens_definition (l : string) : bool :=
  startsWith (trim l) "Definition:".

Definition definition_doc : string :=
  doc ["Definition: income"; tabbed_line; "Then nothing at all"; "- stray item";
       "Scenario: S"; "When age > 5"; "Then x is eligible"].

(** The scenario opened at line [L] is closed at line [p]: line [L] is a
    [Scenario:] line, and [p] is the next [Scenario:] line after it, or
    the line after the last one when there is none. *)
Definition closed_at (lines : list string) (L p : Z) : Prop :=
  (1 <= L < p)%Z
  /\ opens_scenario (line_at lines (L - 1)) = true
  /\ (forall j, (L < j < p)%Z -> opens_scenario (line_at lines (j - 1)) = false)
  /\ (p = Z.of_nat (List.length lines) + 1
      \/ (p <= Z.of_nat (List.length lines)
          /\ opens_scenario (line_at lines (p - 1)) = true))%Z.

(** The line at which a diagnostic is pushed: its own line, and for the
    report of a scenario without outcome, which carries the opening line
    of the scenario, the line at which the scenario is closed. *)
Definition pushed_at (lines : list string) (d : diagnostic) (p : Z) : Prop :=
  if is_missing_outcome d then closed_at lines (line d) p else line d = p.

(** While line [idx] is read, a scenario under way was opened by the
    [Scenario:] line the context records, and no line since opens
    one. *)
Definition opened_by (lines : list string) (idx : nat) (c : ctx) : Prop :=
  currentBlock c = Some BScenario ->
  (1 <= blockStartLine c <= Z.of_nat idx)%Z
  /\ opens_scenario (line_at lines (blockStartLine c - 1)) = true
  /\ (forall j, (blockStartLine c < j <= Z.of_nat idx)%Z ->
                opens_scenario (line_at lines (j - 1)) = false).

(** The diagnostics anchored at line [n], the reports of a scenario
    without outcome apart. *)
Definition at_line_b (n : Z) (d : diagnostic) : bool :=
  (line d =? n)%Z && plain d.

(** [rest.join(' ')]: the text after the keyword of a condition line. *)
Definition condition_of (trimmed : string) : string :=
  join " " (tl (split ws1 trimmed)).

(** The text opens a group of list items. *)
Definition opens_group (condition : string) : bool :=
  endsWith condition "these are true:" || endsWith condition "the following:".

(** The messages of condition validation. *)
Definition condition_message (m : string) : Prop :=
  m = msg_missing_comparison \/ m = msg_between \/ m = msg_quotes
  \/ exists amount, m = msg_money amount.

Definition and_group_doc : string :=
  doc ["Scenario: S"; "When age > 5"; "And any of these are true:";
       "- income < 100"; "Then x is eligible"].



(** The text holds no digit. *)
Definition no_digit (s : string) : Prop :=
  all_chars (fun c => negb (is_digit c)) s = true.

(** A person with an age and an income. *)
Definition person_aged (age income : Z) (x : string) : option PyRun.value :=
  if (x =? "age")%string then Some (PyRun.VInt age)
  else if (x =? "income")%string then Some (PyRun.VInt income)
  else None.




(** A scenario read up to its first outcome, and lines that follow. *)
Definition outcome_read : list string :=
  ["Scenario: A"; "When age > 5"; "Then a is eligible"].

Definition late_lines : list string :=
  ["When income < 100"; "- savings > 3"; "Schedule: Rates"; "And b is eligible"].

(** A scenario that declares two reductions. *)
Definition two_reductions_doc : string :=
  doc ["Scenario: S"; "  When age > 5"; "  Then payment is $1000 per fortnight";
       "  And payment reduces by 50 cents per dollar over $200";
       "  And payment reduces by 25 cents per dollar over $600"].

(** A pattern that finds nothing in a text without digit. *)
Definition needs_digit (r : re) : Prop :=
  forall st, no_digit (ms_rest st) -> rmatch r st = [].

End More.

(* ================================================================= *)
(** * Facts about the matcher *)

Import Js Re Num Validator Common Props More.

Lemma star_iter_nonempty one g fuel st : star_iter one g fuel st <> [].
Proof.
  destruct fuel as [|f]; simpl; [discriminate|].
  destruct g; [|discriminate].
  intro H. apply app_eq_nil in H. destruct H as [_ H]. discriminate.
Qed.

Lemma rmatch_lit p : forall prev t caps,
  rmatch (lit p) (MS prev t caps)
  = if startsWith t p
    then [MS (prev_after p prev) (drop (String.length p) t) caps]
    else [].
Proof.
  induction p as [|c p IH]; intros prev t caps; [reflexivity|].
  destruct p as [|c' p'].
  - simpl. destruct t as [|b t]; [reflexivity|]. unfold is_char.
    rewrite (Ascii.eqb_sym b c).
    destruct (Ascii.eqb_spec c b); subst; simpl; reflexivity.
  - change (lit (String c (String c' p')))
      with (Seq (Chr (is_char c)) (lit (String c' p'))).
    cbn [rmatch]. destruct t as [|b t]; [reflexivity|].
    cbn [ms_rest ms_caps]. unfold is_char. rewrite (Ascii.eqb_sym b c).
    cbn [startsWith]. destruct (Ascii.eqb_spec c b); subst;
      cbn [andb flat_map]; [|reflexivity].
    rewrite IH, app_nil_r. reflexivity.
Qed.

Lemma rmatch_alts_lit kws prev t caps :
  rmatch (alts (map lit kws)) (MS prev t caps)
  = flat_map (fun kw => if startsWith t kw
                        then [MS (prev_after kw prev) (drop (String.length kw) t) caps]
                        else [])
             kws.
Proof.
  induction kws as [|kw kws IH]; [reflexivity|].
  destruct kws as [|kw' kws'].
  - cbn [map alts flat_map]. rewrite rmatch_lit, app_nil_r. reflexivity.
  - change (alts (map lit (kw :: kw' :: kws')))
      with (Alt (lit kw) (alts (map lit (kw' :: kws')))).
    cbn [rmatch]. rewrite IH, rmatch_lit. reflexivity.
Qed.

Lemma rmatch_ws1_nil st :
  rmatch ws1 st = []
  <-> match ms_rest st with String c _ => is_space c = false | EmptyString => True end.
Proof.
  unfold ws1, Plus, ws. cbn [rmatch]. destruct (ms_rest st) as [|c r].
  - simpl. tauto.
  - destruct (is_space c); cbn [flat_map].
    + rewrite app_nil_r. split; [|discriminate].
      intro H. exfalso. revert H. apply star_iter_nonempty.
    + tauto.
Qed.

Lemma flat_map_nil {A B} (f : A -> list B) l :
  flat_map f l = [] <-> Forall (fun x => f x = []) l.
Proof.
  induction l as [|a l IH]; simpl.
  - split; auto.
  - split.
    + intro H. apply app_eq_nil in H. destruct H as [H1 H2].
      constructor; [assumption|]. apply IH. assumption.
    + intro H. inversion H; subst. rewrite H2. simpl. apply IH. assumption.
Qed.

(** At the start of the input, a keyword pattern matches exactly when
    one of its keywords opens the text and white space follows. *)
Lemma rmatch_kw_re kws t :
  rmatch (kw_re kws) (MS None t []) = []
  <-> existsb (fun kw => keyword_line kw t) kws = false.
Proof.
  unfold kw_re. cbn [seqs rmatch ms_prev flat_map]. rewrite app_nil_r.
  rewrite rmatch_alts_lit. rewrite flat_map_nil, Forall_map.
  induction kws as [|kw kws IH].
  - simpl. split; auto.
  - cbn [flat_map existsb]. rewrite Forall_app, orb_false_iff, <- IH.
    apply and_iff_compat_r. unfold keyword_line.
    destruct (startsWith t kw); cbn [andb].
    + split.
      * intro H. inversion H as [|? ? H1 _]; subst.
        apply rmatch_ws1_nil in H1. cbn [ms_rest] in H1.
        destruct (drop (String.length kw) t); [reflexivity|assumption].
      * intro H. constructor; [|constructor]. apply rmatch_ws1_nil. cbn [ms_rest].
        destruct (drop (String.length kw) t); [exact I|assumption].
    + split; auto.
Qed.

Lemma search_bol_none r skipped c s : search (Seq Bol r) skipped (Some c) s = None.
Proof.
  revert skipped c. induction s as [|b s IH]; intros skipped c; simpl.
  - reflexivity.
  - apply IH.
Qed.

Lemma search_eq r skipped prev s :
  search r skipped prev s
  = match rmatch r (MS prev s []) with
    | st' :: _ =>
        Some (MR (rev skipped) (consumed (MS prev s []) st') (ms_rest st')
                 (ms_prev st') (ms_caps st'))
    | [] =>
        match s with
        | EmptyString => None
        | String c t => search r (String c skipped) (Some c) t
        end
    end.
Proof. destruct s; reflexivity. Qed.

Lemma test_kw_re kws t :
  test (kw_re kws) t = existsb (fun kw => keyword_line kw t) kws.
Proof.
  unfold test, exec. rewrite search_eq.
  destruct (existsb (fun kw => keyword_line kw t) kws) eqn:E.
  - destruct (rmatch (kw_re kws) (MS None t [])) as [|st l] eqn:R; [|reflexivity].
    apply rmatch_kw_re in R. congruence.
  - apply rmatch_kw_re in E. rewrite E.
    destruct t as [|b t]; [reflexivity|].
    unfold kw_re. cbn [seqs]. rewrite search_bol_none. reflexivity.
Qed.

Lemma test_cond_kw t :
  test Validator.re_cond_kw t
  = keyword_line "When" t || keyword_line "Given" t || keyword_line "And" t
    || keyword_line "Or" t.
Proof.
  change Validator.re_cond_kw with (kw_re ["When"; "Given"; "And"; "Or"]).
  rewrite test_kw_re. cbn [existsb]. rewrite orb_false_r, !orb_assoc. reflexivity.
Qed.

Lemma test_outcome_kw t :
  test Validator.re_outcome_kw t = keyword_line "Then" t || keyword_line "And" t.
Proof.
  change Validator.re_outcome_kw with (kw_re ["Then"; "And"]).
  rewrite test_kw_re. cbn [existsb]. rewrite orb_false_r. reflexivity.
Qed.

(* ================================================================= *)
(** * Facts about the validator *)

Local Open Scope Z_scope.

Lemma Forall_flat_map_intro {A B} (P : B -> Prop) (f : A -> list B) l :
  (forall x, Forall P (f x)) -> Forall P (flat_map f l).
Proof.
  intro H. induction l as [|a l IH]; simpl; [constructor|].
  apply Forall_app. split; [apply H|exact IH].
Qed.

Ltac at_line_tac :=
  repeat first
    [ apply Forall_nil
    | apply Forall_cons; [split; reflexivity|]
    | apply Forall_app; split
    | apply Forall_flat_map_intro; intros
    | match goal with
      | |- Forall _ (if ?b then _ else _) => destruct b
      | |- Forall _ (match ?x with _ => _ end) => destruct x
      end ].

Lemma validateCondition_lines condition lineNum col lines idx :
  Forall (at_line lineNum) (validateCondition condition lineNum col lines idx).
Proof. unfold validateCondition. at_line_tac. Qed.

Lemma first_amount_lines msg outcome lineNum col lines idx :
  (msg =? msg_missing_outcome)%string = false ->
  Forall (at_line lineNum) (first_amount_diags msg outcome lineNum col lines idx).
Proof.
  intro H. unfold first_amount_diags.
  destruct (exec re_first_amount outcome); [|constructor].
  destruct (negb _); constructor; [split; [reflexivity|exact H]|constructor].
Qed.

Lemma reduction_lines outcome lineNum col lines idx :
  Forall (at_line lineNum) (reduction_diags outcome lineNum col lines idx).
Proof. unfold reduction_diags. at_line_tac. Qed.

Lemma validateOutcome_lines outcome lineNum col lines idx schedules :
  Forall (at_line lineNum) (validateOutcome outcome lineNum col lines idx schedules).
Proof.
  unfold validateOutcome.
  repeat first
    [ apply first_amount_lines; reflexivity | apply reduction_lines
    | apply Forall_nil | apply Forall_cons; [split; reflexivity|]
    | match goal with
      | |- Forall _ (if ?b then _ else _) => destruct b
      | |- Forall _ (match ?x with _ => _ end) => destruct x
      end ].
Qed.

Lemma schedule_line_lines lines idx line trimmed :
  Forall (at_line (idx + 1)) (schedule_line lines idx line trimmed).
Proof. unfold schedule_line. at_line_tac. Qed.

Lemma tab_diags_lines lines idx line :
  Forall (at_line (idx + 1)) (tab_diags lines idx line).
Proof. unfold tab_diags. at_line_tac. Qed.

Lemma scenario_line_lines lines schedules idx line trimmed c :
  Forall (at_line (idx + 1)) (snd (scenario_line lines schedules idx line trimmed c)).
Proof.
  unfold scenario_line. destruct (scenario_line_kind trimmed); cbn [snd].
  - unfold condition_line.
    destruct (endsWith _ _ || endsWith _ _); cbn [snd]; at_line_tac.
    apply validateCondition_lines.
  - unfold list_item_line. cbn [snd]. at_line_tac; apply validateCondition_lines.
  - unfold outcome_line. cbn [snd]. at_line_tac; apply validateOutcome_lines.
  - at_line_tac.
  - at_line_tac.
Qed.

(** What a step does on a [Scenario:] line. *)
Lemma line_step_scenario lines schedules idx line c :
  opens_scenario line = true ->
  exists nm,
    line_step lines schedules idx line c
    = (Ctx (Some BScenario) (Z.of_nat idx + 1) false false (expectingListItems c)
           (indentLevel c) (variables c),
       (tab_diags lines (Z.of_nat idx) line ++ check_previous lines c ++ nm)%list)
    /\ Forall (at_line (Z.of_nat idx + 1)) nm.
Proof.
  unfold opens_scenario, line_step. intro H.
  destruct (String.eqb_spec (trim line) "") as [E|E].
  { rewrite E in H. discriminate. }
  rewrite H. unfold scenario_header.
  eexists. split; [reflexivity|].
  destruct (trim (substring_from 9 (trim line)) =? "")%string.
  - at_line_tac.
  - at_line_tac.
Qed.

(** What a step does on a [Definition:] or [Schedule:] line. *)
Lemma line_step_other_header lines schedules idx line c :
  opens_scenario line = false -> is_header line = true ->
  currentBlock (fst (line_step lines schedules idx line c)) <> Some BScenario
  /\ hasOutcomes (fst (line_step lines schedules idx line c)) = hasOutcomes c
  /\ Forall (at_line (Z.of_nat idx + 1)) (snd (line_step lines schedules idx line c)).
Proof.
  unfold opens_scenario, is_header, line_step. intros H1 H2.
  rewrite H1 in *. cbn [orb] in H2.
  destruct (String.eqb_spec (trim line) "") as [E|E].
  { rewrite E in H2. discriminate. }
  destruct (startsWith (trim line) "Definition:").
  - cbn [fst snd definition_header]. repeat split; [discriminate|].
    apply Forall_app; split; [apply tab_diags_lines|]. unfold definition_header.
    cbn [snd]. at_line_tac.
  - cbn [orb] in H2. rewrite H2. cbn [fst snd schedule_header].
    repeat split; [discriminate|].
    apply Forall_app; split; [apply tab_diags_lines|]. at_line_tac.
Qed.

(** What a step does on a line that is not a header. *)
Lemma line_step_plain lines schedules idx line c :
  is_header line = false ->
  let c' := fst (line_step lines schedules idx line c) in
  currentBlock c' = currentBlock c
  /\ blockStartLine c' = blockStartLine c
  /\ Forall (at_line (Z.of_nat idx + 1)) (snd (line_step lines schedules idx line c))
  /\ (hasOutcomes c' = hasOutcomes c
      \/ scenario_line_kind (trim line) = KOutcome).
Proof.
  unfold is_header, line_step. intro H.
  apply orb_false_iff in H. destruct H as [H H3].
  apply orb_false_iff in H. destruct H as [H1 H2].
  destruct (trim line =? "")%string.
  { cbn [fst snd currentBlock blockStartLine hasOutcomes].
    repeat split; auto. apply tab_diags_lines. }
  rewrite H1, H2, H3.
  destruct (currentBlock c) as [[| |]|] eqn:B; cbn [fst snd].
  - pose proof (scenario_line_lines lines schedules (Z.of_nat idx) line (trim line) c)
      as L.
    unfold scenario_line in *.
    destruct (scenario_line_kind (trim line)); cbn [fst snd] in *.
    + unfold condition_line in *.
      destruct (endsWith _ _ || endsWith _ _);
        cbn [fst snd currentBlock blockStartLine hasOutcomes] in *;
        repeat split; auto; apply Forall_app; split; auto; apply tab_diags_lines.
    + unfold list_item_line in *.
      cbn [fst snd currentBlock blockStartLine hasOutcomes] in *;
        repeat split; auto; apply Forall_app; split; auto; apply tab_diags_lines.
    + unfold outcome_line in *.
      cbn [fst snd currentBlock blockStartLine hasOutcomes] in *;
        repeat split; auto; apply Forall_app; split; auto; apply tab_diags_lines.
    + repeat split; auto; apply Forall_app; split; auto; apply tab_diags_lines.
    + repeat split; auto; apply Forall_app; split; auto; apply tab_diags_lines.
  - repeat split; auto. apply Forall_app; split; [apply tab_diags_lines|constructor].
  - repeat split; auto. apply Forall_app; split; [apply tab_diags_lines|].
    apply schedule_line_lines.
  - repeat split; auto. apply Forall_app; split; [apply tab_diags_lines|constructor].
Qed.

Lemma run_cons lines schedules idx l t c :
  run lines schedules idx (l :: t) c
  = (fst (run lines schedules (S idx) t (fst (line_step lines schedules idx l c))),
     (snd (line_step lines schedules idx l c)
      ++ snd (run lines schedules (S idx) t (fst (line_step lines schedules idx l c))))%list).
Proof.
  cbn [run]. destruct (line_step lines schedules idx l c) as [c1 d1].
  cbn [fst snd]. destruct (run lines schedules (S idx) t c1). reflexivity.
Qed.

Lemma run_app lines schedules l1 : forall idx l2 c,
  run lines schedules idx (l1 ++ l2) c
  = (fst (run lines schedules (idx + List.length l1) l2
              (fst (run lines schedules idx l1 c))),
     (snd (run lines schedules idx l1 c)
      ++ snd (run lines schedules (idx + List.length l1) l2
                  (fst (run lines schedules idx l1 c))))%list).
Proof.
  induction l1 as [|l l1 IH]; intros idx l2 c.
  - cbn [app run fst snd List.length]. rewrite Nat.add_0_r.
    destruct (run lines schedules idx l2 c). reflexivity.
  - rewrite <- app_comm_cons, !run_cons, IH. cbn [fst snd List.length].
    replace (S idx + List.length l1)%nat with (idx + S (List.length l1))%nat by lia.
    rewrite <- app_assoc. reflexivity.
Qed.

Lemma validate_lines_eq lines :
  validate_lines lines
  = (snd (run lines (collect_schedules lines) 0 lines init_ctx)
     ++ check_previous lines
          (fst (run lines (collect_schedules lines) 0 lines init_ctx)))%list.
Proof.
  unfold validate_lines.
  destruct (run lines (collect_schedules lines) 0 lines init_ctx). reflexivity.
Qed.

Lemma check_previous_inv lines c d :
  In d (check_previous lines c) ->
  d = missing_outcome_diag lines (blockStartLine c)
  /\ currentBlock c = Some BScenario /\ hasOutcomes c = false.
Proof.
  unfold check_previous. destruct (currentBlock c) as [[| |]|]; try contradiction.
  destruct (hasOutcomes c); cbn [negb]; [contradiction|].
  intros [H|[]]. auto.
Qed.

Lemma check_previous_missing lines c :
  Forall (fun d => is_missing_outcome d = true) (check_previous lines c).
Proof.
  apply Forall_forall. intros d H. apply check_previous_inv in H.
  destruct H as [-> _]. reflexivity.
Qed.

(** A diagnostic pushed for line [idx] is anchored at that line, unless
    it reports the scenario that the line closes. *)
Lemma line_step_diag lines schedules idx l c d :
  In d (snd (line_step lines schedules idx l c)) ->
  at_line (Z.of_nat idx + 1) d
  \/ (In d (check_previous lines c) /\ opens_scenario l = true).
Proof.
  intro H. destruct (opens_scenario l) eqn:S.
  - destruct (line_step_scenario lines schedules idx l c S) as [nm [E F]].
    rewrite E in H. cbn [snd] in H.
    apply in_app_or in H. destruct H as [H|H].
    + left. pose proof (tab_diags_lines lines (Z.of_nat idx) l) as T.
      rewrite Forall_forall in T. apply T, H.
    + apply in_app_or in H. destruct H as [H|H]; [right; auto|].
      left. rewrite Forall_forall in F. apply F, H.
  - left. destruct (is_header l) eqn:Hd.
    + destruct (line_step_other_header lines schedules idx l c S Hd) as [_ [_ F]].
      rewrite Forall_forall in F. apply F, H.
    + destruct (line_step_plain lines schedules idx l c Hd) as [_ [_ [F _]]].
      rewrite Forall_forall in F. apply F, H.
Qed.

Lemma StronglySorted_app {A} (R : A -> A -> Prop) l1 l2 :
  StronglySorted R l1 -> StronglySorted R l2 ->
  (forall x y, In x l1 -> In y l2 -> R x y) ->
  StronglySorted R (l1 ++ l2).
Proof.
  intros S1 S2 H. induction S1 as [|a l S1 IH F]; [exact S2|].
  cbn [app]. constructor.
  - apply IH. intros x y Hx Hy. apply H; [right|]; assumption.
  - apply Forall_app. split; [exact F|].
    apply Forall_forall. intros y Hy. apply H; [left; reflexivity|exact Hy].
Qed.

Lemma StronglySorted_const l n :
  Forall (fun x => x = n) l -> StronglySorted Z.le l.
Proof.
  induction 1 as [|x l -> F IH]; constructor; [exact IH|].
  eapply Forall_impl; [|exact F]. cbn. intros a ->. lia.
Qed.

Lemma line_step_plain_diags lines schedules idx l c :
  Forall (fun d => line d = Z.of_nat idx + 1)
         (filter plain (snd (line_step lines schedules idx l c))).
Proof.
  apply Forall_forall. intros d H. apply filter_In in H. destruct H as [H P].
  apply line_step_diag in H. destruct H as [H|[H _]]; [exact (proj1 H)|].
  pose proof (check_previous_missing lines c) as M. rewrite Forall_forall in M.
  apply M in H. unfold plain in P. rewrite H in P. discriminate.
Qed.

Lemma run_plain_sorted lines schedules rest : forall idx c,
  StronglySorted Z.le
    (map line (filter plain (snd (run lines schedules idx rest c))))
  /\ Forall (fun d => Z.of_nat idx + 1 <= line d)
            (filter plain (snd (run lines schedules idx rest c))).
Proof.
  induction rest as [|l rest IH]; intros idx c.
  - cbn. split; constructor.
  - rewrite run_cons. cbn [snd]. rewrite filter_app, map_app.
    destruct (IH (S idx) (fst (line_step lines schedules idx l c))) as [S1 F1].
    pose proof (line_step_plain_diags lines schedules idx l c) as F0.
    split.
    + apply StronglySorted_app.
      * apply StronglySorted_const with (n := Z.of_nat idx + 1).
        apply Forall_map. exact F0.
      * exact S1.
      * intros x y Hx Hy. apply in_map_iff in Hx. destruct Hx as [dx [<- Hx]].
        apply in_map_iff in Hy. destruct Hy as [dy [<- Hy]].
        rewrite Forall_forall in F0, F1. rewrite (F0 _ Hx).
        specialize (F1 _ Hy). lia.
    + apply Forall_app. split.
      * eapply Forall_impl; [|exact F0]. cbn. intros a ->. lia.
      * eapply Forall_impl; [|exact F1]. cbn. intros a Ha. lia.
Qed.

(** ** Which lines are outcome lines *)

Lemma kind_of_and t :
  keyword_line "And" t = true -> scenario_line_kind t = KCondition.
Proof.
  intro H. unfold scenario_line_kind. rewrite test_cond_kw, H.
  rewrite !orb_true_r. reflexivity.
Qed.

Lemma kind_outcome_then t :
  scenario_line_kind t = KOutcome -> keyword_line "Then" t = true.
Proof.
  unfold scenario_line_kind. rewrite test_cond_kw, test_outcome_kw.
  destruct (keyword_line "And" t).
  - rewrite !orb_true_r. discriminate.
  - rewrite !orb_false_r.
    destruct (keyword_line "When" t || keyword_line "Given" t || keyword_line "Or" t);
      [discriminate|].
    destruct (startsWith t "- "); [discriminate|].
    destruct (keyword_line "Then" t); [reflexivity|].
    destruct (negb (startsWith t "#")); discriminate.
Qed.

(** ** The block a line belongs to *)

Lemma line_step_started lines schedules idx l c :
  started_by idx c -> started_by (S idx) (fst (line_step lines schedules idx l c)).
Proof.
  unfold started_by. intros H B.
  destruct (opens_scenario l) eqn:S.
  - destruct (line_step_scenario lines schedules idx l c S) as [nm [E _]].
    rewrite E. cbn. lia.
  - destruct (is_header l) eqn:Hd.
    + destruct (line_step_other_header lines schedules idx l c S Hd) as [N _].
      contradiction.
    + destruct (line_step_plain lines schedules idx l c Hd) as [E1 [E2 _]].
      rewrite E2. rewrite E1 in B. specialize (H B). lia.
Qed.

Lemma run_upper lines schedules rest : forall idx c,
  started_by idx c ->
  started_by (idx + List.length rest) (fst (run lines schedules idx rest c))
  /\ Forall (fun d => line d <= Z.of_nat (idx + List.length rest))
            (snd (run lines schedules idx rest c)).
Proof.
  induction rest as [|l rest IH]; intros idx c H.
  - cbn [run fst snd List.length]. rewrite Nat.add_0_r. split; [exact H|constructor].
  - rewrite run_cons. cbn [fst snd List.length].
    replace (idx + S (List.length rest))%nat with (S idx + List.length rest)%nat by lia.
    destruct (IH (S idx) _ (line_step_started lines schedules idx l c H)) as [I F].
    split; [exact I|]. apply Forall_app. split; [|exact F].
    apply Forall_forall. intros d Hd. apply line_step_diag in Hd.
    destruct Hd as [[Hd _]|[Hd _]].
    + rewrite Hd. lia.
    + apply check_previous_inv in Hd. destruct Hd as [-> [B _]].
      cbn [line missing_outcome_diag]. specialize (H B). lia.
Qed.

Lemma run_lower lines schedules rest : forall idx c b,
  b <= Z.of_nat idx + 1 ->
  (currentBlock c = Some BScenario -> b <= blockStartLine c) ->
  Forall (fun d => b <= line d)
         (snd (run lines schedules idx rest c)
          ++ check_previous lines (fst (run lines schedules idx rest c))).
Proof.
  induction rest as [|l rest IH]; intros idx c b Hb Hc.
  - cbn [run fst snd app]. apply Forall_forall. intros d Hd.
    apply check_previous_inv in Hd. destruct Hd as [-> [B _]].
    cbn [line missing_outcome_diag]. auto.
  - rewrite run_cons. cbn [fst snd]. rewrite <- app_assoc.
    apply Forall_app. split.
    + apply Forall_forall. intros d Hd. apply line_step_diag in Hd.
      destruct Hd as [[Hd _]|[Hd _]].
      * rewrite Hd. exact Hb.
      * apply check_previous_inv in Hd. destruct Hd as [-> [B _]].
        cbn [line missing_outcome_diag]. auto.
    + apply IH; [lia|]. intro B.
      destruct (opens_scenario l) eqn:S.
      * destruct (line_step_scenario lines schedules idx l c S) as [nm [E _]].
        rewrite E. cbn. exact Hb.
      * destruct (is_header l) eqn:Hd.
        -- destruct (line_step_other_header lines schedules idx l c S Hd) as [N _].
           contradiction.
        -- destruct (line_step_plain lines schedules idx l c Hd) as [E1 [E2 _]].
           rewrite E2. rewrite E1 in B. auto.
Qed.

(** Lines of a scenario that are neither headers nor [Then] lines leave
    the scenario open and without outcome. *)
Lemma run_body lines schedules body : forall idx c,
  Forall (fun l => is_header l = false /\ keyword_line "Then" (trim l) = false) body ->
  currentBlock c = Some BScenario -> hasOutcomes c = false ->
  currentBlock (fst (run lines schedules idx body c)) = Some BScenario
  /\ blockStartLine (fst (run lines schedules idx body c)) = blockStartLine c
  /\ hasOutcomes (fst (run lines schedules idx body c)) = false
  /\ Forall (fun d => is_missing_outcome d = false)
            (snd (run lines schedules idx body c)).
Proof.
  induction body as [|l body IH]; intros idx c F B O.
  - cbn. auto.
  - inversion F as [|? ? [Hd T] F']; subst. rewrite run_cons. cbn [fst snd].
    destruct (line_step_plain lines schedules idx l c Hd) as [E1 [E2 [A K]]].
    assert (O' : hasOutcomes (fst (line_step lines schedules idx l c)) = false).
    { destruct K as [K|K]; [congruence|].
      apply kind_outcome_then in K. congruence. }
    destruct (IH (S idx) _ F' (eq_trans E1 B) O') as [I1 [I2 [I3 I4]]].
    repeat split; auto; [congruence|].
    apply Forall_app. split; [|exact I4].
    eapply Forall_impl; [|exact A]. intros d [_ M]. exact M.
Qed.

Lemma filter_none {A} (p : A -> bool) l :
  Forall (fun x => p x = false) l -> filter p l = [].
Proof.
  induction 1 as [|x l H _ IH]; [reflexivity|]. cbn [filter]. rewrite H. exact IH.
Qed.

Lemma filter_missing_other_line L l :
  Forall (fun d => line d <> L) l -> filter (missing_at L) l = [].
Proof.
  intro H. apply filter_none. eapply Forall_impl; [|exact H].
  intros d Hd. unfold missing_at. apply andb_false_iff. right.
  apply Z.eqb_neq. exact Hd.
Qed.

Lemma filter_missing_plain L l :
  Forall (fun d => is_missing_outcome d = false) l -> filter (missing_at L) l = [].
Proof.
  intro H. apply filter_none. eapply Forall_impl; [|exact H].
  intros d Hd. unfold missing_at. rewrite Hd. reflexivity.
Qed.

Lemma at_line_plain n l :
  Forall (at_line n) l -> Forall (fun d => is_missing_outcome d = false) l.
Proof. intro H. eapply Forall_impl; [|exact H]. intros d [_ M]. exact M. Qed.

Lemma check_previous_open lines c :
  currentBlock c = Some BScenario -> hasOutcomes c = false ->
  check_previous lines c = [missing_outcome_diag lines (blockStartLine c)].
Proof. unfold check_previous. intros -> ->. reflexivity. Qed.

Lemma check_previous_lines lines c n :
  started_by n c ->
  Forall (fun d => line d <= Z.of_nat n) (check_previous lines c).
Proof.
  intro H. apply Forall_forall. intros d Hd. apply check_previous_inv in Hd.
  destruct Hd as [-> [B _]]. cbn [line missing_outcome_diag]. auto.
Qed.

(** The scenario opened by [hdr], without outcome line and closed by
    the next [Scenario:] header or by the end of the text, is reported
    once at its opening line. *)
Lemma missing_outcome_once lines schedules pre hdr body rest :
  opens_scenario hdr = true ->
  no_outcome_lines body ->
  closes_scenario rest ->
  filter (missing_at (Z.of_nat (List.length pre) + 1))
         (snd (run lines schedules 0 (pre ++ hdr :: body ++ rest) init_ctx)
          ++ check_previous lines
               (fst (run lines schedules 0 (pre ++ hdr :: body ++ rest) init_ctx)))
  = [missing_outcome_diag lines (Z.of_nat (List.length pre) + 1)].
Proof.
  intros Hh Hb Hr. set (n := List.length pre). set (L := Z.of_nat n + 1).
  assert (I0 : started_by 0 init_ctx) by (intro B; discriminate B).
  destruct (run_upper lines schedules pre 0 init_ctx I0) as [I1 U1].
  rewrite run_app. cbn [fst snd]. cbn [Nat.add] in *. fold n in I1, U1 |- *.
  set (c1 := fst (run lines schedules 0 pre init_ctx)) in *.
  rewrite run_cons. cbn [fst snd].
  destruct (line_step_scenario lines schedules n hdr c1 Hh) as [nm [E Fnm]].
  rewrite E. cbn [fst snd].
  set (c2 := Ctx (Some BScenario) (Z.of_nat n + 1) false false
                 (expectingListItems c1) (indentLevel c1) (variables c1)).
  rewrite run_app. cbn [fst snd].
  destruct (run_body lines schedules body (S n) c2 Hb eq_refl eq_refl)
    as [B3 [S3 [O3 M3]]].
  set (c3 := fst (run lines schedules (S n) body c2)) in *.
  cbn [blockStartLine c2] in S3.
  rewrite !filter_app.
  (* before the scenario *)
  rewrite (filter_missing_other_line L (snd (run lines schedules 0 pre init_ctx))).
  2:{ eapply Forall_impl; [|exact U1]. unfold L. cbn. intros d Hd. lia. }
  (* the header line *)
  rewrite (filter_missing_plain L (tab_diags lines (Z.of_nat n) hdr)).
  2:{ eapply at_line_plain, tab_diags_lines. }
  rewrite (filter_missing_other_line L (check_previous lines c1)).
  2:{ pose proof (check_previous_lines lines c1 n I1) as P.
      eapply Forall_impl; [|exact P]. unfold L. cbn. intros d Hd. lia. }
  rewrite (filter_missing_plain L nm) by (eapply at_line_plain; exact Fnm).
  (* the lines of the scenario *)
  rewrite (filter_missing_plain L (snd (run lines schedules (S n) body c2))) by exact M3.
  cbn [app].
  (* what follows *)
  destruct rest as [|h r].
  - cbn [run fst snd app filter].
    rewrite (check_previous_open lines c3 B3 O3), S3.
    cbn [filter]. unfold missing_at, L. cbn [line missing_outcome_diag].
    rewrite Z.eqb_refl. reflexivity.
  - cbn [closes_scenario] in Hr. rewrite run_cons. cbn [fst snd].
    set (m := (S n + List.length body)%nat).
    destruct (line_step_scenario lines schedules m h c3 Hr) as [nm' [E' Fnm']].
    rewrite E'. cbn [fst snd].
    set (c4 := Ctx (Some BScenario) (Z.of_nat m + 1) false false
                   (expectingListItems c3) (indentLevel c3) (variables c3)).
    rewrite !filter_app.
    rewrite (filter_missing_plain L (tab_diags lines (Z.of_nat m) h)).
    2:{ eapply at_line_plain, tab_diags_lines. }
    rewrite (filter_missing_plain L nm') by (eapply at_line_plain; exact Fnm').
    rewrite (check_previous_open lines c3 B3 O3), S3.
    assert (T : Forall (fun d => Z.of_nat m + 1 <= line d)
                       (snd (run lines schedules (S m) r c4)
                        ++ check_previous lines (fst (run lines schedules (S m) r c4)))).
    { apply run_lower; [lia|]. intros _. cbn. lia. }
    apply Forall_app in T. destruct T as [T1 T2].
    rewrite (filter_missing_other_line L (snd (run lines schedules (S m) r c4))).
    2:{ eapply Forall_impl; [|exact T1]. unfold L, m. cbn. intros d Hd. lia. }
    rewrite (filter_missing_other_line L (check_previous lines _)).
    2:{ eapply Forall_impl; [|exact T2]. unfold L, m. cbn. intros d Hd. lia. }
    cbn [app filter]. unfold missing_at, L. cbn [line missing_outcome_diag].
    rewrite Z.eqb_refl. reflexivity.
Qed.

(** A line that begins with [Then] begins with no other keyword. *)
Lemma then_line_facts t :
  keyword_line "Then" t = true ->
  (t =? "")%string = false
  /\ startsWith t "Scenario:" = false /\ startsWith t "Definition:" = false
  /\ startsWith t "Schedule:" = false /\ startsWith t "When " = false
  /\ startsWith t "Or" = false /\ startsWith t "- " = false
  /\ keyword_line "When" t = false /\ keyword_line "Given" t = false
  /\ keyword_line "And" t = false /\ keyword_line "Or" t = false.
Proof.
  unfold keyword_line. destruct t as [|a t]; [discriminate|].
  cbn [startsWith]. destruct (Ascii.eqb_spec "T" a) as [<-|]; [|discriminate].
  intros _. cbn. repeat split; reflexivity.
Qed.

Lemma and_line_facts t :
  keyword_line "And" t = true ->
  (t =? "")%string = false
  /\ startsWith t "Scenario:" = false /\ startsWith t "Definition:" = false
  /\ startsWith t "Schedule:" = false /\ startsWith t "When " = false
  /\ startsWith t "Or" = false.
Proof.
  unfold keyword_line. destruct t as [|a t]; [discriminate|].
  cbn [startsWith]. destruct (Ascii.eqb_spec "A" a) as [<-|]; [|discriminate].
  intros _. cbn. repeat split; reflexivity.
Qed.

Lemma kind_of_then t :
  keyword_line "Then" t = true -> scenario_line_kind t = KOutcome.
Proof.
  intro H. destruct (then_line_facts t H) as (_ & _ & _ & _ & _ & _ & L & W & G & A & O).
  unfold scenario_line_kind. rewrite test_cond_kw, test_outcome_kw, W, G, A, O, L, H.
  reflexivity.
Qed.

(** Lines that are not headers leave the current block as it is. *)
Lemma run_in_block lines schedules body : forall idx c,
  Forall (fun l => is_header l = false) body ->
  currentBlock (fst (run lines schedules idx body c)) = currentBlock c.
Proof.
  induction body as [|l body IH]; intros idx c F; [reflexivity|].
  inversion F as [|? ? Hd F']; subst. rewrite run_cons. cbn [fst].
  rewrite (IH (S idx) _ F').
  destruct (line_step_plain lines schedules idx l c Hd) as [E _]. exact E.
Qed.

(** A schedule collected by the first pass is declared by a line. *)
Lemma mem_set_add x y l : mem x (set_add y l) = (x =? y)%string || mem x l.
Proof.
  unfold set_add. destruct (mem y l) eqn:M.
  - destruct (String.eqb_spec x y) as [->|]; [rewrite M|]; reflexivity.
  - unfold mem. rewrite existsb_app. cbn. rewrite orb_false_r, orb_comm. reflexivity.
Qed.

Lemma collect_schedules_declared N lines :
  Forall (fun l => declares_schedule N l = false) lines ->
  mem N (collect_schedules lines) = false.
Proof.
  unfold collect_schedules, collect.
  assert (G : forall acc, mem N (snd acc) = false ->
                Forall (fun l => declares_schedule N l = false) lines ->
                mem N (snd (fold_left collect_step lines acc)) = false).
  { induction lines as [|l lines IH]; intros acc M F; [exact M|].
    inversion F as [|? ? D F']; subst. cbn [fold_left]. apply IH; [|exact F'].
    unfold collect_step, declares_schedule in *.
    destruct (startsWith (trim l) "Definition:").
    - destruct (negb _); exact M.
    - destruct (startsWith (trim l) "Schedule:"); [|exact M].
      cbn [andb] in D. destruct (negb _); [|exact M].
      cbn [snd]. rewrite mem_set_add, M, orb_false_r.
      rewrite String.eqb_sym. exact D. }
  intro F. apply G; [reflexivity|exact F].
Qed.

(* ================================================================= *)
(** * C7: the order of the diagnostics *)

(** C7, claim as stated, refuted: for the text [unordered_doc] the
    diagnostic of line 2 comes before the diagnostic anchored at line 1,
    so the list returned by [validateCourgette] is not in line order. *)
Lemma diagnostics_not_in_line_order :
  ~ in_line_order (validateCourgette unordered_doc).
Proof.
  unfold in_line_order.
  assert (E : map line (validateCourgette unordered_doc) = [2; 1])
    by (vm_compute; reflexivity).
  rewrite E. intro H. inversion H as [|a l _ F]; subst.
  inversion F as [|x y Hle _]; subst. lia.
Qed.

Lemma filter_all {A} (p : A -> bool) l :
  Forall (fun x => p x = true) l -> filter p l = l.
Proof.
  induction 1 as [|x l H _ IH]; [reflexivity|]. cbn [filter]. rewrite H, IH.
  reflexivity.
Qed.

(** The reports of scenarios without outcome pushed for one line. *)
Lemma line_step_missing lines schedules idx l c :
  filter is_missing_outcome (snd (line_step lines schedules idx l c))
  = if opens_scenario l then check_previous lines c else [].
Proof.
  destruct (opens_scenario l) eqn:S.
  - destruct (line_step_scenario lines schedules idx l c S) as [nm [E F]].
    rewrite E. cbn [snd]. rewrite !filter_app.
    rewrite (filter_none _ (tab_diags lines (Z.of_nat idx) l))
      by (eapply at_line_plain, tab_diags_lines).
    rewrite (filter_none _ nm) by (eapply at_line_plain; exact F).
    rewrite filter_all by apply check_previous_missing.
    rewrite app_nil_r. reflexivity.
  - apply filter_none. apply Forall_forall. intros d Hd.
    apply line_step_diag in Hd. destruct Hd as [[_ M]|[_ O]]; [exact M|congruence].
Qed.

Lemma check_previous_sorted lines c :
  StronglySorted Z.le (map line (check_previous lines c)).
Proof.
  unfold check_previous. destruct (currentBlock c) as [[| |]|]; try constructor.
  destruct (negb (hasOutcomes c)); repeat constructor.
Qed.

Lemma run_missing_sorted lines schedules rest : forall idx c,
  started_by idx c ->
  StronglySorted Z.le
    (map line
       (filter is_missing_outcome
          (snd (run lines schedules idx rest c)
           ++ check_previous lines (fst (run lines schedules idx rest c))))).
Proof.
  induction rest as [|l rest IH]; intros idx c I.
  - cbn [run fst snd app]. rewrite filter_all by apply check_previous_missing.
    apply check_previous_sorted.
  - rewrite run_cons. cbn [fst snd]. rewrite <- app_assoc, filter_app, map_app.
    rewrite line_step_missing.
    pose proof (IH (S idx) _ (line_step_started lines schedules idx l c I)) as S1.
    destruct (opens_scenario l) eqn:O; [|exact S1].
    apply StronglySorted_app; [apply check_previous_sorted|exact S1|].
    intros x y Hx Hy.
    apply in_map_iff in Hx. destruct Hx as [dx [<- Hx]].
    apply in_map_iff in Hy. destruct Hy as [dy [<- Hy]].
    apply filter_In in Hy. destruct Hy as [Hy _].
    pose proof (check_previous_lines lines c idx I) as U.
    rewrite Forall_forall in U. specialize (U _ Hx).
    assert (T : Forall (fun d => Z.of_nat idx + 1 <= line d)
                  (snd (run lines schedules (S idx) rest
                            (fst (line_step lines schedules idx l c)))
                   ++ check_previous lines
                        (fst (run lines schedules (S idx) rest
                                  (fst (line_step lines schedules idx l c)))))).
    { apply run_lower; [lia|]. intros _.
      destruct (line_step_scenario lines schedules idx l c O) as [nm [E _]].
      rewrite E. cbn. lia. }
    rewrite Forall_forall in T. specialize (T _ Hy). lia.
Qed.

Lemma line_at_app pre l rest :
  line_at (pre ++ l :: rest) (Z.of_nat (List.length pre) + 1 - 1) = l.
Proof.
  unfold line_at. replace (Z.of_nat (List.length pre) + 1 - 1) with
    (Z.of_nat (List.length pre)) by lia.
  rewrite Nat2Z.id, app_nth2 by lia. rewrite Nat.sub_diag. reflexivity.
Qed.

Lemma Forall2_const {A} (P : A -> Z -> Prop) (p : Z) l :
  Forall (fun d => P d p) l -> Forall2 P l (map (fun _ => p) l).
Proof. induction 1; constructor; assumption. Qed.

(** The context after a line records the scenario under way. *)
Lemma line_step_opened lines schedules pre l rest c :
  lines = (pre ++ l :: rest)%list ->
  opened_by lines (List.length pre) c ->
  opened_by lines (S (List.length pre))
            (fst (line_step lines schedules (List.length pre) l c)).
Proof.
  intros E I. set (idx := List.length pre) in *.
  assert (A : line_at lines (Z.of_nat idx + 1 - 1) = l)
    by (rewrite E; apply line_at_app).
  destruct (opens_scenario l) eqn:O.
  - destruct (line_step_scenario lines schedules idx l c O) as [nm [Es _]].
    rewrite Es. intros _. cbn [fst blockStartLine]. repeat split; try lia.
    exact (eq_trans (f_equal opens_scenario A) O).
  - destruct (is_header l) eqn:Hd.
    + destruct (line_step_other_header lines schedules idx l c O Hd) as [N _].
      intro B. contradiction.
    + destruct (line_step_plain lines schedules idx l c Hd) as [B1 [B2 _]].
      intro B. rewrite B1 in B. rewrite B2.
      destruct (I B) as [R1 [R2 R3]]. repeat split; try lia; [exact R2|].
      intros j Hj. destruct (Z.eq_dec j (Z.of_nat idx + 1)) as [->|Nj].
      * rewrite A. exact O.
      * apply R3. lia.
Qed.

(** The diagnostics, each with the line at which it is pushed. *)
Lemma run_pushed lines schedules : forall rest pre c,
  lines = (pre ++ rest)%list ->
  opened_by lines (List.length pre) c ->
  exists ps,
    Forall2 (pushed_at lines)
            (snd (run lines schedules (List.length pre) rest c)
             ++ check_previous lines
                  (fst (run lines schedules (List.length pre) rest c)))
            ps
    /\ Forall (fun p => Z.of_nat (List.length pre) + 1 <= p) ps
    /\ StronglySorted Z.le ps.
Proof.
  induction rest as [|l rest IH]; intros pre c E I.
  - cbn [run fst snd app].
    exists (map (fun _ => Z.of_nat (List.length pre) + 1) (check_previous lines c)).
    split; [|split].
    + apply Forall2_const. apply Forall_forall. intros d Hd.
      apply check_previous_inv in Hd. destruct Hd as [-> [B _]].
      unfold pushed_at.
      replace (is_missing_outcome
                 (missing_outcome_diag lines (blockStartLine c)))
        with true by reflexivity.
      cbn [missing_outcome_diag line]. destruct (I B) as [R1 [R2 R3]].
      rewrite app_nil_r in E. subst pre.
      repeat split; try lia; [exact R2|].
      intros j Hj. apply R3. lia.
    + apply Forall_forall. intros p Hp. apply in_map_iff in Hp.
      destruct Hp as [d [<- _]]. lia.
    + apply (StronglySorted_const _ (Z.of_nat (List.length pre) + 1)).
      apply Forall_forall. intros p Hp. apply in_map_iff in Hp.
      destruct Hp as [d [<- _]]. reflexivity.
  - set (idx := List.length pre) in *.
    assert (A : line_at lines (Z.of_nat idx + 1 - 1) = l)
      by (rewrite E; apply line_at_app).
    assert (E' : lines = ((pre ++ [l]) ++ rest)%list)
      by (rewrite <- app_assoc; exact E).
    assert (L' : List.length (pre ++ [l]) = S idx)
      by (rewrite length_app; cbn; unfold idx; lia).
    pose proof (line_step_opened lines schedules pre l rest c E I) as I'.
    fold idx in I'. rewrite <- L' in I'.
    destruct (IH (pre ++ [l])%list _ E' I') as [ps2 [F2 [B2 S2]]].
    rewrite L' in F2, B2.
    rewrite run_cons. cbn [fst snd]. rewrite <- app_assoc.
    exists (map (fun _ => Z.of_nat idx + 1)
                (snd (line_step lines schedules idx l c)) ++ ps2)%list.
    split; [|split].
    + apply Forall2_app; [|exact F2].
      apply Forall2_const. apply Forall_forall. intros d Hd.
      apply line_step_diag in Hd. destruct Hd as [[Hl Hm]|[Hd O]].
      * unfold pushed_at. rewrite Hm. exact Hl.
      * apply check_previous_inv in Hd. destruct Hd as [-> [B _]].
        unfold pushed_at.
        replace (is_missing_outcome
                   (missing_outcome_diag lines (blockStartLine c)))
          with true by reflexivity.
        cbn [missing_outcome_diag line]. destruct (I B) as [R1 [R2 R3]].
        repeat split; try lia; [exact R2| |].
        -- intros j Hj. apply R3. lia.
        -- right. split; [|rewrite A; exact O].
           rewrite E, length_app. cbn [List.length]. unfold idx. lia.
    + apply Forall_app. split.
      * apply Forall_forall. intros p Hp. apply in_map_iff in Hp.
        destruct Hp as [d [<- _]]. lia.
      * eapply Forall_impl; [|exact B2]. cbn. intros p Hp. lia.
    + apply StronglySorted_app; [|exact S2|].
      * apply (StronglySorted_const _ (Z.of_nat idx + 1)).
        apply Forall_forall. intros p Hp. apply in_map_iff in Hp.
        destruct Hp as [d [<- _]]. reflexivity.
      * intros x y Hx Hy. apply in_map_iff in Hx. destruct Hx as [d [<- _]].
        rewrite Forall_forall in B2. specialize (B2 _ Hy). lia.
Qed.

(** C7, amended: for every input text the diagnostics are in the order
    in which the pass over the lines pushes them. A diagnostic other
    than the report of a scenario without outcome is pushed at its own
    line; the report of a scenario without outcome carries the opening
    line of the scenario and is pushed at the line that closes the
    scenario, the next [Scenario:] line or the line after the last one.
    With each diagnostic counted at the line where it is pushed, the
    list is in line order; in particular the diagnostics other than
    those reports are in line order, and so are the reports among
    themselves. *)
Theorem diagnostics_in_push_order (text : string) :
  (exists ps,
     Forall2 (pushed_at (split_lines text)) (validateCourgette text) ps
     /\ StronglySorted Z.le ps)
  /\ in_line_order (filter plain (validateCourgette text))
  /\ in_line_order (filter is_missing_outcome (validateCourgette text)).
Proof.
  split.
  - unfold validateCourgette. rewrite validate_lines_eq.
    destruct (run_pushed (split_lines text)
                (collect_schedules (split_lines text)) (split_lines text) []
                init_ctx eq_refl) as [ps [F [_ S]]].
    { intro B. discriminate B. }
    exists ps. split; [exact F|exact S].
  - unfold in_line_order, validateCourgette. rewrite validate_lines_eq. split.
    + rewrite filter_app.
      assert (E : filter plain
                    (check_previous (split_lines text)
                       (fst (run (split_lines text)
                                 (collect_schedules (split_lines text)) 0
                                 (split_lines text) init_ctx))) = []).
      { apply filter_none.
        eapply Forall_impl; [|apply check_previous_missing].
        intros d Hd. unfold plain. rewrite Hd. reflexivity. }
      rewrite E, app_nil_r. apply run_plain_sorted.
    + apply run_missing_sorted. intro B. discriminate B.
Qed.

(** The text [unordered_doc]: the report of scenario [A], which carries
    line 1, is pushed at line 3, after the diagnostic of line 2. *)
Example unordered_doc_pushed :
  map line (validateCourgette unordered_doc) = [2; 1]
  /\ map is_missing_outcome (validateCourgette unordered_doc) = [false; true].
Proof. split; vm_compute; reflexivity. Qed.

(* ================================================================= *)
(** * C5: a scenario without outcome *)

(** C5, claim as stated, refuted: the scenario of [no_outcome_doc] has
    no outcome line and is closed by the end of the text, and the
    error-severity diagnostics are two, the first of them at line 2. *)
Lemma not_exactly_one_error :
  ~ (exists d, filter is_error (validateCourgette no_outcome_doc) = [d]
               /\ line d = 1).
Proof.
  intros [d [H _]]. vm_compute in H. discriminate H.
Qed.

(** C5, amended: for every scenario block without [Then] line, closed by
    the next [Scenario:] header or by the end of the text, exactly one
    diagnostic reports the missing outcome at the opening line of the
    scenario; its severity is error. Other diagnostics, of any severity,
    may be anchored at the lines of the block. *)
Theorem missing_outcome_reported_once
        (text : string) (pre : list string) (hdr : string)
        (body rest : list string) :
  split_lines text = (pre ++ hdr :: body ++ rest)%list ->
  opens_scenario hdr = true ->
  no_outcome_lines body ->
  closes_scenario rest ->
  exists d,
    filter (missing_at (Z.of_nat (List.length pre) + 1)) (validateCourgette text) = [d]
    /\ severity d = Error
    /\ line d = Z.of_nat (List.length pre) + 1
    /\ message d = msg_missing_outcome.
Proof.
  intros E Hh Hb Hr. unfold validateCourgette. rewrite validate_lines_eq.
  set (lines := split_lines text) in *.
  pose proof (missing_outcome_once lines (collect_schedules lines) pre hdr body rest
                Hh Hb Hr) as M.
  rewrite <- E in M. rewrite M.
  eexists. split; [reflexivity|]. repeat split.
Qed.

Lemma missing_outcome_reported_once_witness :
  split_lines no_outcome_doc = ([] ++ "Scenario: A" :: ["When foo bar"] ++ [])%list
  /\ opens_scenario "Scenario: A" = true
  /\ no_outcome_lines ["When foo bar"]
  /\ closes_scenario []
  /\ exists d,
       filter (missing_at 1) (validateCourgette no_outcome_doc) = [d]
       /\ severity d = Error /\ line d = 1 /\ message d = msg_missing_outcome.
Proof.
  assert (H1 : split_lines no_outcome_doc
               = ([] ++ "Scenario: A" :: ["When foo bar"] ++ [])%list)
    by (vm_compute; reflexivity).
  assert (H2 : opens_scenario "Scenario: A" = true) by (vm_compute; reflexivity).
  assert (H3 : no_outcome_lines ["When foo bar"]).
  { constructor; [split; vm_compute; reflexivity|constructor]. }
  assert (H4 : closes_scenario []) by exact I.
  split; [exact H1|]. split; [exact H2|]. split; [exact H3|]. split; [exact H4|].
  exact (missing_outcome_reported_once no_outcome_doc [] "Scenario: A"
           ["When foo bar"] [] H1 H2 H3 H4).
Defined.

(* ================================================================= *)
(** * C4: Or before any condition *)

(** C4: the text [or_first_doc] has [Or age > 5] as the first condition
    line of its scenario, and [validateCourgette] returns no diagnostic
    at all: the flag [hasConditions] is set before the test on the
    keyword. The diagnostic is pushed only when the [Or] line opens a
    group, as in [or_group_doc]. *)
Theorem or_first_not_reported :
  validateCourgette or_first_doc = []
  /\ exists d, In d (validateCourgette or_group_doc)
               /\ line d = 2 /\ severity d = Error /\ message d = msg_or_first.
Proof.
  split; [vm_compute; reflexivity|].
  eexists. split; [vm_compute; left; reflexivity|]. repeat split.
Qed.

(* ================================================================= *)
(** * C6: a schedule that is not declared *)

(** C6: in [and_schedule_doc] the outcome line
    [And rate is determined by Missing Schedule] follows a [Then] line
    and names a schedule that no line declares. No diagnostic at all is
    returned: the line is taken by the test for the condition keywords,
    which comes first, and never reaches the check of the schedule. The
    same outcome on a [Then] line, in [missing_schedule_doc], is
    reported, and the compiler reads the [And] line as the outcome it
    is. *)
Theorem and_schedule_reference_not_checked :
  validateCourgette and_schedule_doc = []
  /\ collect_schedules (split_lines and_schedule_doc) = []
  /\ validateCourgette missing_schedule_doc
     = [Diag 3 28 "Schedule 'Missing Schedule' not defined" Error 52 68]
  /\ map outcomes (V2.scenarios (V2.parse_lines (split_lines and_schedule_doc)))
     = [[Eligibility "x"; Schedule "Missing Schedule"]].
Proof. repeat split; vm_compute; reflexivity. Qed.

(** An outcome text that matches an eligibility pattern is an
    eligibility outcome, whatever else it says: the schedule it seems to
    name is not looked up. *)
Example eligibility_pattern_comes_first :
  validateCourgette eligible_name_doc = []
  /\ map outcomes (V2.scenarios (V2.parse_lines (split_lines eligible_name_doc)))
     = [[Eligibility "Who"]].
Proof. split; vm_compute; reflexivity. Qed.

(** The schedules are collected before the lines are checked: a schedule
    declared after the line that names it is known. *)
Example schedule_declared_later :
  validateCourgette
    (doc ["Scenario: S"; "When age > 5"; "Then rate is determined by Rates";
          "Schedule: Rates"; "When single: $10 per week"])
  = [].
Proof. vm_compute. reflexivity. Qed.

(** X22: for every text with a line inside a scenario block that begins
    with [Then] and whose outcome text reaches the schedule test (it
    matches none of the eligibility, payment and base rate patterns) and
    names a schedule [N] that no [Schedule:] line of the text declares,
    a diagnostic of severity error is returned for that line, with the
    message [Schedule 'N' not defined]. *)
Theorem undeclared_schedule_reported
        (text : string) (pre : list string) (hdr : string)
        (body : list string) (l : string) (post : list string) (N : string) :
  split_lines text = (pre ++ hdr :: body ++ l :: post)%list ->
  opens_scenario hdr = true ->
  Forall (fun x => is_header x = false) body ->
  keyword_line "Then" (trim l) = true ->
  hasEligibility (outcome_text (trim l)) = false ->
  test Validator.re_payment (outcome_text (trim l)) = false ->
  test re_base_rate (outcome_text (trim l)) = false ->
  schedule_ref (outcome_text (trim l)) = Some N ->
  Forall (fun x => declares_schedule N x = false) (split_lines text) ->
  exists d,
    In d (validateCourgette text)
    /\ line d = Z.of_nat (List.length pre + List.length body) + 2
    /\ severity d = Error
    /\ message d = msg_schedule_undefined N.
Proof.
  intros E Hh Hb T He Hp Hr Hs Hd.
  unfold validateCourgette. rewrite validate_lines_eq.
  set (lines := split_lines text) in *.
  set (schedules := collect_schedules lines).
  assert (M : mem N schedules = false) by (apply collect_schedules_declared; exact Hd).
  set (i := (S (List.length pre) + List.length body)%nat).
  set (c2 := fst (line_step lines schedules (List.length pre) hdr
                            (fst (run lines schedules 0 pre init_ctx)))).
  set (c3 := fst (run lines schedules (S (List.length pre)) body c2)).
  exists (schedule_diag (outcome_text (trim l)) N (Z.of_nat i + 1)
                        (indexOf (trim l) (outcome_text (trim l)) + 1)
                        lines (Z.of_nat i)).
  split; [|repeat split; cbn [line schedule_diag]; unfold i; lia].
  apply in_or_app. left.
  assert (R : run lines schedules 0 lines init_ctx
              = run lines schedules 0 (pre ++ hdr :: body ++ l :: post) init_ctx)
    by (rewrite <- E; reflexivity).
  rewrite R, run_app. cbn [fst snd Nat.add]. apply in_or_app. right.
  rewrite run_cons. cbn [fst snd]. apply in_or_app. right. fold c2.
  rewrite run_app. cbn [fst snd]. apply in_or_app. right. fold c3. fold i.
  rewrite run_cons. cbn [fst snd]. apply in_or_app. left.
  assert (B3 : currentBlock c3 = Some BScenario).
  { unfold c3. rewrite run_in_block by exact Hb. unfold c2.
    destruct (line_step_scenario lines schedules (List.length pre) hdr
                (fst (run lines schedules 0 pre init_ctx)) Hh) as [nm [Es _]].
    rewrite Es. reflexivity. }
  destruct (then_line_facts (trim l) T) as (E0 & H1 & H2 & H3 & _).
  unfold line_step. rewrite E0, H1, H2, H3, B3.
  unfold scenario_line. rewrite (kind_of_then (trim l) T).
  unfold outcome_line. cbn [snd]. apply in_or_app. right. apply in_or_app. right.
  unfold validateOutcome. rewrite He, Hp, Hr, Hs, M. left. reflexivity.
Qed.

Lemma undeclared_schedule_reported_witness :
  split_lines missing_schedule_doc
  = ([] ++ "Scenario: S" :: ["When age > 5"]
        ++ "Then rate is determined by Missing Schedule" :: [])%list
  /\ opens_scenario "Scenario: S" = true
  /\ Forall (fun x => is_header x = false) ["When age > 5"]
  /\ keyword_line "Then" (trim "Then rate is determined by Missing Schedule") = true
  /\ schedule_ref (outcome_text (trim "Then rate is determined by Missing Schedule"))
     = Some "Missing Schedule"
  /\ Forall (fun x => declares_schedule "Missing Schedule" x = false)
            (split_lines missing_schedule_doc)
  /\ exists d,
       In d (validateCourgette missing_schedule_doc)
       /\ line d = 3 /\ severity d = Error
       /\ message d = "Schedule 'Missing Schedule' not defined".
Proof.
  assert (H1 : split_lines missing_schedule_doc
               = ([] ++ "Scenario: S" :: ["When age > 5"]
                     ++ "Then rate is determined by Missing Schedule" :: [])%list)
    by (vm_compute; reflexivity).
  assert (H2 : opens_scenario "Scenario: S" = true) by (vm_compute; reflexivity).
  assert (H3 : Forall (fun x => is_header x = false) ["When age > 5"])
    by (constructor; [vm_compute; reflexivity|constructor]).
  assert (H4 : keyword_line "Then" (trim "Then rate is determined by Missing Schedule")
               = true) by (vm_compute; reflexivity).
  assert (H5 : hasEligibility
                 (outcome_text (trim "Then rate is determined by Missing Schedule"))
               = false) by (vm_compute; reflexivity).
  assert (H6 : test Validator.re_payment
                 (outcome_text (trim "Then rate is determined by Missing Schedule"))
               = false) by (vm_compute; reflexivity).
  assert (H7 : test re_base_rate
                 (outcome_text (trim "Then rate is determined by Missing Schedule"))
               = false) by (vm_compute; reflexivity).
  assert (H8 : schedule_ref
                 (outcome_text (trim "Then rate is determined by Missing Schedule"))
               = Some "Missing Schedule") by (vm_compute; reflexivity).
  assert (H9 : Forall (fun x => declares_schedule "Missing Schedule" x = false)
                      (split_lines missing_schedule_doc)).
  { rewrite H1. repeat (constructor; [vm_compute; reflexivity|]). constructor. }
  split; [exact H1|]. split; [exact H2|]. split; [exact H3|]. split; [exact H4|].
  split; [exact H8|]. split; [exact H9|].
  exact (undeclared_schedule_reported missing_schedule_doc [] "Scenario: S"
           ["When age > 5"] "Then rate is determined by Missing Schedule" []
           "Missing Schedule" H1 H2 H3 H4 H5 H6 H7 H8 H9).
Defined.

(* ================================================================= *)
(** * C3: the type and period of a variable *)

(** C3, claim as stated, refuted: the second variant gives the period
    MONTH, not DAY, to [is_student]. *)
Lemma is_student_period_month :
  V2.guessVariableType "is_student" <> (TBool, DAY).
Proof. vm_compute. discriminate. Qed.

(** C3, amended: [guessVariableType] is a function of the name alone; in
    both variants [residence_years] is an int of period YEAR and
    [is_student] is a bool, of period DAY in the first variant and of
    period MONTH in the second. *)
Theorem guessVariableType_examples :
  V1.guessVariableType "residence_years" = (TInt, YEAR)
  /\ V2.guessVariableType "residence_years" = (TInt, YEAR)
  /\ V1.guessVariableType "is_student" = (TBool, DAY)
  /\ V2.guessVariableType "is_student" = (TBool, MONTH).
Proof. repeat split; vm_compute; reflexivity. Qed.

(* ================================================================= *)
(** * C9: the two variants and the outcome lines *)









(* ================================================================= *)
(** * C8: what the results depend on *)

Lemma append_assoc (a b c : string) : ((a ++ b) ++ c = a ++ (b ++ c))%string.
Proof. induction a as [|x a IH]; [reflexivity|]. cbn. rewrite IH. reflexivity. Qed.

Lemma append_nil_r (x : string) : (x ++ "")%string = x.
Proof. induction x as [|c x IH]; [reflexivity|]. cbn. rewrite IH. reflexivity. Qed.

Lemma v1_shifted_flush h s s0 :
  v1_shifted h s s0 -> V1.flush s = (h ++ V1.flush s0)%string.
Proof.
  intros (O & C & _ & _ & _ & Cs & Os & _). unfold V1.flush.
  rewrite O, C, Cs, Os. destruct (V1.currentScenario s0); [|reflexivity].
  destruct (truthy _); [|reflexivity]. apply append_assoc.
Qed.

Lemma v1_shifted_step h s s0 l :
  v1_shifted h s s0 -> v1_shifted h (V1.line_step s l) (V1.line_step s0 l).
Proof.
  intro H. pose proof (v1_shifted_flush h s s0 H) as F.
  pose proof H as (O & C & D & Sc & V & Cs & Os & I).
  unfold V1.line_step, V1.add_condition, V1.add_condition_item.
  rewrite C, D, Sc, V, Cs, Os, I, F.
  destruct (startsWith (trim l) "Scenario:"); [repeat split|].
  destruct (startsWith (trim l) "Definition:"); [repeat split; assumption|].
  destruct (startsWith (trim l) "Schedule:"); [repeat split; assumption|].
  destruct (truthy (V1.currentScenario s0)); [|exact H].
  destruct (test re_cond_kw (trim l) && V1.inConditions s0).
  { destruct (negb _ && negb _); [repeat split; assumption|exact H]. }
  destruct (startsWith (trim l) "Or" && V1.inConditions s0).
  { destruct (negb _ && negb _); [repeat split; assumption|exact H]. }
  destruct (test re_outcome_kw (trim l) && includes (trim l) "is");
    [repeat split; assumption|].
  destruct (startsWith (trim l) "-"); [|exact H].
  destruct (V1.inConditions s0); [repeat split; assumption|exact H].
Qed.

Lemma v1_shifted_fold h lines : forall s s0,
  v1_shifted h s s0 ->
  v1_shifted h (fold_left V1.line_step lines s) (fold_left V1.line_step lines s0).
Proof.
  induction lines as [|l lines IH]; intros s s0 H; [exact H|].
  cbn [fold_left]. apply IH, v1_shifted_step, H.
Qed.

(** C8, claim as stated, refuted: two calls of the compiler on the same
    text, made on different days, give different outputs. *)
Lemma compile_depends_on_the_date :
  V2.compileToOpenFisca "03/11/2026" between_doc
  <> V2.compileToOpenFisca "04/11/2026" between_doc.
Proof.
  intro H.
  apply (f_equal (fun s => substring 59 69 s)) in H.
  vm_compute in H. discriminate H.
Qed.

(** C8, amended: [validate] is a function of the text alone, and the
    output of [compile] is a function of the text and of the local date
    of the call, which is written in the header: the second variant
    emits the header and then code that depends on the text only, the
    first variant emits the variable definitions, the header and the
    code of the scenarios. Two calls on the same text and on the same
    date give the same output. *)
Theorem compile_is_header_and_text (today1 today2 text1 text2 : string) :
  today1 = today2 -> text1 = text2 ->
  validateCourgette text1 = validateCourgette text2
  /\ V2.compileToOpenFisca today1 text1 = V2.compileToOpenFisca today2 text2
  /\ V1.compileToOpenFisca today1 text1 = V1.compileToOpenFisca today2 text2
  /\ V2.compileToOpenFisca today1 text1 = (header today1 ++ v2_body text1)%string
  /\ V1.compileToOpenFisca today1 text1
     = (v1_variables text1 ++ nl ++ nl ++ header today1 ++ v1_scenarios text1)%string.
Proof.
  intros -> ->. repeat split.
  unfold V1.compileToOpenFisca, v1_variables, v1_scenarios, V1.parse_lines.
  assert (H : v1_shifted (header today2) (V1.init today2) v1_empty).
  { unfold v1_shifted, V1.init, v1_empty.
    cbn [V1.output V1.currentScenario V1.currentDefinition V1.currentSchedule
         V1.variables V1.cur_conditions V1.cur_outcomes V1.inConditions].
    repeat split. generalize (header today2). clear.
    intro h. induction h as [|c h IH]; [reflexivity|].
    cbn [append]. rewrite <- IH. reflexivity. }
  apply (v1_shifted_fold _ (split_lines text2)) in H.
  rewrite (v1_shifted_flush _ _ _ H).
  destruct H as (_ & _ & _ & _ & V & _). rewrite V. reflexivity.
Qed.

Lemma compile_is_header_and_text_witness :
  "03/11/2026" = "03/11/2026" /\ between_doc = between_doc
  /\ V2.compileToOpenFisca "03/11/2026" between_doc
     = (header "03/11/2026" ++ v2_body between_doc)%string
  /\ V1.compileToOpenFisca "03/11/2026" between_doc
     = (v1_variables between_doc ++ nl ++ nl ++ header "03/11/2026"
        ++ v1_scenarios between_doc)%string.
Proof.
  split; [reflexivity|]. split; [reflexivity|].
  exact (proj2 (proj2 (proj2 (compile_is_header_and_text
                                "03/11/2026" "03/11/2026" between_doc between_doc
                                eq_refl eq_refl)))).
Defined.

(* ================================================================= *)
(** * C1: between *)

(** A well-formed inclusive range has the values the specification
    expects. *)
Example inclusive_range_values :
  map (fun a => Py.holds (aged a) "(age >= 16) and (age <= 24)") [15; 16; 24; 25]%Z
  = [Some false; Some true; Some true; Some false].
Proof. vm_compute. reflexivity. Qed.

(** C1: for the scenario of [between_doc] the condition is rewritten to
    [age >= 16) and (age <= 24] and then the spacing of the operators
    [<] and [>] splits [<=] and [>=]: the formula returns
    [(age > = 16) and (age < = 24)], which is not an expression, so it
    has no value at any age. *)
Theorem between_formula_is_malformed :
  V2.scenarios (V2.parse_lines (split_lines between_doc))
  = [Scen "S" ["age > = 16) and (age < = 24"] [Eligibility "x"]]
  /\ return_expr (map V2.fixedCondition ["age > = 16) and (age < = 24"])
     = ("(" ++ nl ++ "            (age > = 16) and (age < = 24)" ++ nl
        ++ "        )")%string
  /\ forall person,
       eligibility_holds person
         (Scen "S" ["age > = 16) and (age < = 24"] [Eligibility "x"]) = None.
Proof.
  split; [vm_compute; reflexivity|]. split; [vm_compute; reflexivity|].
  intro person. unfold eligibility_holds, Py.holds. cbn [conditions].
  assert (P : Py.parse (return_expr
                          (map V2.fixedCondition ["age > = 16) and (age < = 24"]))
              = None) by (vm_compute; reflexivity).
  rewrite P. reflexivity.
Qed.

(** The same spacing splits every [>=] and [<=] of a condition, written
    as symbols or in words. *)
Example comparison_operators_split :
  map V2.parseCondition ["age >= 67"; "hours <= 15"; "income is at least $20,000"]
  = ["age > = 67"; "hours < = 15"; "income > = 20000"].
Proof. vm_compute. reflexivity. Qed.

(** The first variant leaves the second bound without variable. *)
Example between_first_variant :
  map V1.fixedCondition
      (V1.cur_conditions (V1.parse_lines "03/11/2026" (split_lines between_doc)))
  = ["age >= 16) and ( <= 24"].
Proof. vm_compute. reflexivity. Qed.

(* ================================================================= *)
(** * C2: reductions *)





(** The outcomes of [reduction_doc], in the order of their lines. *)
Example reduction_outcomes :
  map outcomes (V2.scenarios (V2.parse_lines (split_lines reduction_doc)))
  = [[Payment (Some (Dec 1000 0)) "fortnight"; Reduction 50 (Some (Dec 200 0))]].
Proof. vm_compute. reflexivity. Qed.

(** The body of the payment formula the second variant emits for
    [reduction_doc]. *)
Example reduction_formula :
  PyRun.formula_lines (V2.compileToOpenFisca "03/11/2026" reduction_doc) "s_payment"
  = Some [ "        eligible = person('s_eligible', period)";
           "        ";
           "        if not eligible:";
           "            return 0";
           "        ";
           "        # Base payment amount";
           "        base_amount = 1000";
           "        ";
           "        # Apply income test reductions";
           "        income = person('income', period)";
           "        if income > 200:";
           "            base_amount = max(0, base_amount - (income - 200) * 0.5)";
           "        ";
           "        return base_amount";
           "" ].
Proof. vm_compute. reflexivity. Qed.

(** The formula of eligibility the second variant emits for
    [reduction_doc], whose condition is [age > 5]. *)
Example reduction_eligibility :
  PyRun.formula_lines (V2.compileToOpenFisca "03/11/2026" reduction_doc) "s_eligible"
  = Some [ "        age = person('age', period)";
           "";
           "        return (";
           "            (age > 5)";
           "        )";
           "";
           "" ]
  /\ map (fun a => PyRun.run_module 4 (person_aged a 400)
                     (V2.compileToOpenFisca "03/11/2026" reduction_doc)
                     "s_eligible")
         [30; 6; 5; 3]%Z
     = [Some (PyRun.VBool true); Some (PyRun.VBool true);
        Some (PyRun.VBool false); Some (PyRun.VBool false)].
Proof. split; vm_compute; reflexivity. Qed.


(** Where the first variant is given a reduction, it writes comments. *)
Example reduction_first_variant :
  option_map render_payment
    (V1.payment_stmts [Payment (Some (Dec 1000 0)) "fortnight";
                       Reduction 50 (Some (Dec 200 0))])
  = Some (text_lines
            [ "        # Base payment amount";
              "        base_amount = 1000";
              "        ";
              "        # Apply income test reductions";
              "        # Reduces by 50 cents per dollar over $200";
              "        # TODO: Implement reduction calculation";
              "        ";
              "        return base_amount" ]).
Proof. vm_compute. reflexivity. Qed.

(** Two reductions: the second is applied to what the first has left.
    With an income of 1000 the amount is 1000 - 800 * 0.5 = 600, then
    600 - 400 * 0.25 = 500; with an income of 400 only the first
    reduction applies; with an income of 3000 the first leaves 0. *)
Example two_reductions_values :
  map (fun i => PyRun.run_module 4 (person_aged 30 i)
                  (V2.compileToOpenFisca "03/11/2026" two_reductions_doc)
                  "s_payment")
      [1000; 400; 3000; 200]%Z
  = [Some (PyRun.VFloat (Fin (500 # 1))); Some (PyRun.VFloat (Fin (900 # 1)));
     Some (PyRun.VInt 0); Some (PyRun.VInt 1000)].
Proof. vm_compute. reflexivity. Qed.


(* ================================================================= *)
(** * Further properties of the validator *)

(** ** Lines, texts and offsets *)

Lemma rev_acc_app s : forall acc, rev_acc s acc = (rev s ++ acc)%string.
Proof.
  unfold rev. induction s as [|c s IH]; intro acc; [reflexivity|].
  cbn [rev_acc]. rewrite IH, (IH (String c EmptyString)), append_assoc.
  reflexivity.
Qed.

Lemma rev_cons c s : rev (String c s) = (rev s ++ String c EmptyString)%string.
Proof. unfold rev at 1. cbn [rev_acc]. apply rev_acc_app. Qed.

Lemma length_append (a b : string) :
  String.length (a ++ b) = (String.length a + String.length b)%nat.
Proof. induction a as [|c a IH]; [reflexivity|]. cbn. rewrite IH. reflexivity. Qed.

Lemma length_rev s : String.length (rev s) = String.length s.
Proof.
  induction s as [|c s IH]; [reflexivity|].
  rewrite rev_cons, length_append, IH. cbn. lia.
Qed.

Lemma split_char_join sep s : forall cur,
  join (String sep EmptyString) (split_char sep s cur) = (rev cur ++ s)%string.
Proof.
  induction s as [|c s IH]; intro cur.
  - cbn. destruct (rev cur); cbn; [reflexivity|].
    clear. f_equal. induction s as [|c s IH]; [reflexivity|]. cbn. rewrite <- IH.
    reflexivity.
  - cbn [split_char]. destruct (Ascii.eqb_spec c sep) as [->|N].
    + assert (J : forall x l, l <> [] ->
                  join (String sep EmptyString) (x :: l)
                  = (x ++ String sep EmptyString ++ join (String sep EmptyString) l)%string).
      { intros x [|y l] H; [contradiction|reflexivity]. }
      rewrite J.
      * rewrite IH. reflexivity.
      * destruct s as [|d s]; cbn; [discriminate|].
        destruct (Ascii.eqb d sep); [discriminate|].
        clear. generalize (String d EmptyString). induction s as [|e s IH]; intro cur.
        -- discriminate.
        -- cbn. destruct (Ascii.eqb e sep); [discriminate|apply IH].
    + rewrite IH, rev_cons, append_assoc. reflexivity.
Qed.

(** The lines of a text, joined by line feeds, are the text. *)
Lemma split_lines_join text : join nl (split_lines text) = text.
Proof. unfold split_lines, nl. rewrite split_char_join. reflexivity. Qed.

Lemma join_app_cons pre : forall l post,
  join nl (pre ++ l :: post) = (lines_text pre ++ join nl (l :: post))%string.
Proof.
  induction pre as [|x pre IH]; intros l post; [reflexivity|].
  cbn [app lines_text]. rewrite !append_assoc, <- IH.
  destruct pre; reflexivity.
Qed.

Lemma sum_lengths_prefix pre : forall rest,
  sum_lengths (List.length pre) (pre ++ rest)
  = Z.of_nat (String.length (lines_text pre)).
Proof.
  induction pre as [|x pre IH]; intro rest; [destruct rest; reflexivity|].
  cbn [List.length app sum_lengths lines_text]. rewrite IH.
  rewrite !length_append. unfold len, nl. cbn [String.length]. lia.
Qed.

Lemma drop_append p : forall n s,
  drop (String.length p + n) (p ++ s) = drop n s.
Proof. induction p as [|c p IH]; intros n s; [reflexivity|]. cbn. apply IH. Qed.

Lemma drop_append_le n : forall l r,
  (n <= String.length l)%nat -> drop n (l ++ r) = (drop n l ++ r)%string.
Proof.
  induction n as [|n IH]; intros l r H; [reflexivity|].
  destruct l as [|c l]; [cbn in H; lia|]. cbn. apply IH. cbn in H. lia.
Qed.

Lemma take_append_le n : forall l r,
  (n <= String.length l)%nat -> take n (l ++ r) = take n l.
Proof.
  induction n as [|n IH]; intros l r H; [reflexivity|].
  destruct l as [|c l]; [cbn in H; lia|]. cbn. rewrite IH; [reflexivity|].
  cbn in H. lia.
Qed.

Lemma length_drop n : forall s, String.length (drop n s) = (String.length s - n)%nat.
Proof.
  induction n as [|n IH]; intro s; [cbn; lia|].
  destruct s as [|c s]; [reflexivity|]. cbn. apply IH.
Qed.

(** X1: the offsets computed by [getOffset] are positions in the text
    that was split into lines: between the offsets of the columns [a]
    and [b] of a line, the text holds the characters of the line from
    [a] to [b]. *)
Theorem getOffset_is_position
        (text : string) (pre : list string) (l : string) (post : list string)
        (a b : Z) :
  split_lines text = (pre ++ l :: post)%list ->
  0 <= a -> a <= b -> b <= len l ->
  span (getOffset (split_lines text) (Z.of_nat (List.length pre)) a)
       (getOffset (split_lines text) (Z.of_nat (List.length pre)) b) text
  = substring (Z.to_nat a) (Z.to_nat b) l.
Proof.
  intros E Ha Hab Hb. unfold span, getOffset. rewrite E, Nat2Z.id.
  rewrite sum_lengths_prefix.
  rewrite <- (split_lines_join text) at 1. rewrite E, join_app_cons.
  set (P := lines_text pre).
  assert (J : exists R, join nl (l :: post) = (l ++ R)%string).
  { destruct post as [|x post]; [exists EmptyString|eexists; reflexivity].
    cbn. clear. induction l as [|c l IH]; [reflexivity|]. cbn. rewrite <- IH.
    reflexivity. }
  destruct J as [R ->]. unfold substring, len in *.
  replace (Z.to_nat (Z.of_nat (String.length P) + a))
    with (String.length P + Z.to_nat a)%nat by lia.
  replace (Z.to_nat (Z.of_nat (String.length P) + b) - (String.length P + Z.to_nat a))%nat
    with (Z.to_nat b - Z.to_nat a)%nat by lia.
  rewrite drop_append, drop_append_le by lia.
  apply take_append_le. rewrite length_drop. lia.
Qed.

Lemma getOffset_is_position_witness :
  split_lines no_outcome_doc = (["Scenario: A"] ++ "When foo bar" :: [])%list
  /\ 0 <= 5 /\ 5 <= 12 /\ 12 <= len "When foo bar"
  /\ span (getOffset (split_lines no_outcome_doc) 1 5)
          (getOffset (split_lines no_outcome_doc) 1 12) no_outcome_doc
     = "foo bar".
Proof.
  assert (H1 : split_lines no_outcome_doc
               = (["Scenario: A"] ++ "When foo bar" :: [])%list)
    by (vm_compute; reflexivity).
  assert (H2 : 0 <= 5) by lia.
  assert (H3 : 5 <= 12) by lia.
  assert (H4 : 12 <= len "When foo bar") by (vm_compute; discriminate).
  split; [exact H1|]. split; [exact H2|]. split; [exact H3|]. split; [exact H4|].
  exact (getOffset_is_position no_outcome_doc ["Scenario: A"] "When foo bar" []
           5 12 H1 H2 H3 H4).
Defined.

(** ** Where the diagnostics point *)

(** X2: every diagnostic is anchored at a line of the text: its line
    number is at least 1 and at most the number of lines. *)
Theorem diagnostics_within_text (text : string) (d : diagnostic) :
  In d (validateCourgette text) ->
  1 <= line d <= Z.of_nat (List.length (split_lines text)).
Proof.
  unfold validateCourgette. rewrite validate_lines_eq.
  set (lines := split_lines text). set (schedules := collect_schedules lines).
  intro H.
  assert (I0 : started_by 0 init_ctx) by (intro B; discriminate B).
  split.
  - pose proof (run_lower lines schedules lines 0 init_ctx 1) as L.
    rewrite Forall_forall in L. apply L; [lia|discriminate|exact H].
  - destruct (run_upper lines schedules lines 0 init_ctx I0) as [I U].
    apply in_app_or in H. destruct H as [H|H].
    + rewrite Forall_forall in U. apply U, H.
    + pose proof (check_previous_lines lines _ _ I) as P.
      rewrite Forall_forall in P. apply P, H.
Qed.

Lemma diagnostics_within_text_witness :
  In (Diag 3 28 "Schedule 'Missing Schedule' not defined" Error 52 68)
     (validateCourgette missing_schedule_doc)
  /\ 1 <= 3 <= Z.of_nat (List.length (split_lines missing_schedule_doc)).
Proof.
  assert (H : In (Diag 3 28 "Schedule 'Missing Schedule' not defined" Error 52 68)
                 (validateCourgette missing_schedule_doc))
    by (vm_compute; left; reflexivity).
  split; [exact H|].
  exact (diagnostics_within_text missing_schedule_doc _ H).
Defined.

Lemma length_trimStart s : (String.length (trimStart s) <= String.length s)%nat.
Proof.
  induction s as [|c s IH]; [cbn; lia|]. cbn [trimStart].
  destruct (is_space c); cbn [String.length]; lia.
Qed.

Lemma length_trim s : (String.length (trim s) <= String.length s)%nat.
Proof.
  unfold trim, trimEnd. rewrite length_rev.
  pose proof (length_trimStart (rev (trimStart s))) as H.
  rewrite length_rev in H. pose proof (length_trimStart s). lia.
Qed.

Lemma startsWith_length p : forall s,
  startsWith s p = true -> (String.length p <= String.length s)%nat.
Proof.
  induction p as [|c p IH]; intros s H; [cbn; lia|].
  destruct s as [|b s]; [discriminate|]. cbn in H.
  apply andb_true_iff in H. destruct H as [_ H]. apply IH in H. cbn. lia.
Qed.

Lemma getOffset_le lines i a b : a <= b -> getOffset lines i a <= getOffset lines i b.
Proof. unfold getOffset. lia. Qed.

Ltac span_tac :=
  repeat first
    [ apply Forall_nil
    | apply Forall_cons;
      [unfold span_ok; cbn [startOffset endOffset]; apply getOffset_le;
       unfold len in *; lia|]
    | apply Forall_app; split
    | apply Forall_flat_map_intro; intros
    | match goal with
      | |- Forall _ (if ?b then _ else _) => destruct b
      | |- Forall _ (match ?x with _ => _ end) => destruct x
      end ].

Lemma validateCondition_spans condition lineNum col lines idx :
  Forall span_ok (validateCondition condition lineNum col lines idx).
Proof. unfold validateCondition. span_tac. Qed.

Lemma first_amount_spans msg outcome lineNum col lines idx :
  Forall span_ok (first_amount_diags msg outcome lineNum col lines idx).
Proof. unfold first_amount_diags. span_tac. Qed.

Lemma reduction_spans outcome lineNum col lines idx :
  Forall span_ok (reduction_diags outcome lineNum col lines idx).
Proof. unfold reduction_diags. span_tac. Qed.

Lemma validateOutcome_spans outcome lineNum col lines idx schedules :
  Forall span_ok (validateOutcome outcome lineNum col lines idx schedules).
Proof.
  unfold validateOutcome, schedule_diag.
  repeat first
    [ apply first_amount_spans | apply reduction_spans
    | apply Forall_nil
    | apply Forall_cons;
      [unfold span_ok; cbn [startOffset endOffset]; apply getOffset_le;
       unfold len in *; lia|]
    | match goal with
      | |- Forall _ (if ?b then _ else _) => destruct b
      | |- Forall _ (match ?x with _ => _ end) => destruct x
      end ].
Qed.

Lemma header_length l p :
  startsWith (trim l) p = true -> Z.of_nat (String.length p) <= len l.
Proof.
  intro H. apply startsWith_length in H. pose proof (length_trim l).
  unfold len. lia.
Qed.

Lemma line_step_spans lines schedules idx l c :
  Forall span_ok (snd (line_step lines schedules idx l c)).
Proof.
  unfold line_step.
  assert (T : Forall span_ok (tab_diags lines (Z.of_nat idx) l))
    by (unfold tab_diags; span_tac).
  destruct (trim l =? "")%string; [exact T|].
  destruct (startsWith (trim l) "Scenario:") eqn:H1.
  { apply header_length in H1. cbn in H1. unfold scenario_header. cbn [snd].
    apply Forall_app; split; [exact T|]. apply Forall_app; split.
    - unfold check_previous, missing_outcome_diag. span_tac.
    - span_tac. }
  destruct (startsWith (trim l) "Definition:") eqn:H2.
  { apply header_length in H2. cbn in H2. unfold definition_header. cbn [snd].
    apply Forall_app; split; [exact T|]. span_tac. }
  destruct (startsWith (trim l) "Schedule:") eqn:H3.
  { apply header_length in H3. cbn in H3. unfold schedule_header. cbn [snd].
    apply Forall_app; split; [exact T|]. span_tac. }
  destruct (currentBlock c) as [[| |]|]; cbn [snd].
  - unfold scenario_line. destruct (scenario_line_kind (trim l)).
    + unfold condition_line.
      destruct (endsWith _ _ || endsWith _ _); cbn [snd];
        apply Forall_app; split; try exact T; span_tac.
      apply validateCondition_spans.
    + unfold list_item_line. cbn [snd].
      apply Forall_app; split; [exact T|]. span_tac. apply validateCondition_spans.
    + unfold outcome_line. cbn [snd].
      apply Forall_app; split; [exact T|]. span_tac. apply validateOutcome_spans.
    + cbn [snd]. apply Forall_app; split; [exact T|]. span_tac.
    + cbn [snd]. apply Forall_app; split; [exact T|]. span_tac.
  - apply Forall_app; split; [exact T|constructor].
  - apply Forall_app; split; [exact T|]. unfold schedule_line. span_tac.
  - apply Forall_app; split; [exact T|constructor].
Qed.

Lemma run_spans lines schedules rest : forall idx c,
  Forall span_ok (snd (run lines schedules idx rest c)).
Proof.
  induction rest as [|l rest IH]; intros idx c; [constructor|].
  rewrite run_cons. cbn [snd]. apply Forall_app. split.
  - apply line_step_spans.
  - apply IH.
Qed.

(** X3: in every diagnostic the end offset is at or after the start
    offset. *)
Theorem diagnostics_spans_ordered (text : string) :
  Forall span_ok (validateCourgette text).
Proof.
  unfold validateCourgette. rewrite validate_lines_eq. apply Forall_app. split.
  - apply run_spans.
  - unfold check_previous, missing_outcome_diag. span_tac.
Qed.

(** ** What is reported, line by line *)

(** The diagnostics pushed for a line are among those returned. *)
Lemma step_diags_returned lines pre l post d :
  lines = (pre ++ l :: post)%list ->
  In d (snd (line_step lines (collect_schedules lines) (List.length pre) l
                       (fst (run lines (collect_schedules lines) 0 pre init_ctx)))) ->
  In d (validate_lines lines).
Proof.
  intros E H. rewrite validate_lines_eq. apply in_or_app. left.
  assert (R : run lines (collect_schedules lines) 0 lines init_ctx
              = run lines (collect_schedules lines) 0 (pre ++ l :: post) init_ctx)
    by (rewrite <- E; reflexivity).
  rewrite R, run_app. cbn [fst snd Nat.add]. apply in_or_app. right.
  rewrite run_cons. cbn [snd]. apply in_or_app. left. exact H.
Qed.

Lemma tab_diags_in_step lines schedules idx l c d :
  In d (tab_diags lines (Z.of_nat idx) l) ->
  In d (snd (line_step lines schedules idx l c)).
Proof.
  intro H. unfold line_step. destruct (trim l =? "")%string; [exact H|].
  match goal with
  | |- In d (snd (let '(c', ds) := ?x in _)) => destruct x
  end.
  cbn [snd]. apply in_or_app. left. exact H.
Qed.

(** X4: every line that holds a tab is reported, wherever it stands: a
    warning at the line, at the column of the first tab. *)
Theorem tabs_are_reported
        (text : string) (pre : list string) (l : string) (post : list string) :
  split_lines text = (pre ++ l :: post)%list ->
  includes l tab = true ->
  exists d,
    In d (validateCourgette text)
    /\ line d = Z.of_nat (List.length pre) + 1
    /\ column d = indexOf l tab + 1
    /\ severity d = Warning
    /\ message d = msg_tabs.
Proof.
  intros E H. unfold validateCourgette.
  eexists. split.
  - eapply step_diags_returned; [exact E|].
    apply tab_diags_in_step. unfold tab_diags. rewrite H. left. reflexivity.
  - repeat split.
Qed.

Lemma tabs_are_reported_witness :
  split_lines tabbed_doc
  = (["Scenario: S"] ++ tabbed_line :: ["Then x is eligible"])%list
  /\ includes tabbed_line tab = true
  /\ exists d,
       In d (validateCourgette tabbed_doc)
       /\ line d = 2 /\ column d = 1 /\ severity d = Warning
       /\ message d = msg_tabs.
Proof.
  assert (H1 : split_lines tabbed_doc
               = (["Scenario: S"] ++ tabbed_line :: ["Then x is eligible"])%list)
    by (vm_compute; reflexivity).
  assert (H2 : includes tabbed_line tab = true) by (vm_compute; reflexivity).
  split; [exact H1|]. split; [exact H2|].
  exact (tabs_are_reported tabbed_doc ["Scenario: S"] tabbed_line
           ["Then x is eligible"] H1 H2).
Defined.

(** Outside any block only tabs are looked at. *)
Lemma run_outside_blocks lines schedules rest : forall idx c,
  Forall (fun l => is_header l = false) rest ->
  currentBlock c = None ->
  Forall is_tab_warning (snd (run lines schedules idx rest c)).
Proof.
  induction rest as [|l rest IH]; intros idx c F B; [constructor|].
  inversion F as [|? ? Hd F']; subst. rewrite run_cons. cbn [snd].
  destruct (line_step_plain lines schedules idx l c Hd) as [E _].
  apply Forall_app. split.
  - unfold is_header in Hd.
    apply orb_false_iff in Hd. destruct Hd as [Hd H3].
    apply orb_false_iff in Hd. destruct Hd as [H1 H2].
    assert (T : Forall is_tab_warning (tab_diags lines (Z.of_nat idx) l)).
    { unfold tab_diags. destruct (includes l tab); repeat constructor. }
    unfold line_step. destruct (trim l =? "")%string; [exact T|].
    rewrite H1, H2, H3, B. cbn [snd]. rewrite app_nil_r. exact T.
  - apply IH; [exact F'|]. rewrite E. exact B.
Qed.

(** X5: a text without block header is not checked: whatever its lines
    say, the only diagnostics are the warnings about tabs. *)
Theorem text_outside_blocks_ignored (text : string) :
  Forall (fun l => is_header l = false) (split_lines text) ->
  Forall is_tab_warning (validateCourgette text).
Proof.
  intro F. unfold validateCourgette. rewrite validate_lines_eq.
  apply Forall_app. split.
  - apply run_outside_blocks; [exact F|reflexivity].
  - unfold check_previous. rewrite run_in_block by exact F. constructor.
Qed.

Lemma text_outside_blocks_ignored_witness :
  Forall (fun l => is_header l = false) (split_lines loose_doc)
  /\ Forall is_tab_warning (validateCourgette loose_doc).
Proof.
  assert (H : Forall (fun l => is_header l = false) (split_lines loose_doc)).
  { assert (E : split_lines loose_doc = ["When foo bar"; "- x"; "Then nonsense"])
      by (vm_compute; reflexivity).
    rewrite E. repeat (constructor; [vm_compute; reflexivity|]). constructor. }
  split; [exact H|].
  exact (text_outside_blocks_ignored loose_doc H).
Defined.

Lemma run_plain_lines lines schedules body : forall idx c,
  Forall (fun l => is_header l = false) body ->
  Forall (fun d => is_missing_outcome d = false)
         (snd (run lines schedules idx body c)).
Proof.
  induction body as [|l body IH]; intros idx c F; [constructor|].
  inversion F as [|? ? Hd F']; subst. rewrite run_cons. cbn [snd].
  apply Forall_app. split; [|apply IH; exact F'].
  destruct (line_step_plain lines schedules idx l c Hd) as [_ [_ [A _]]].
  eapply at_line_plain. exact A.
Qed.

(** X6: the missing outcome of a scenario is looked for only at the next
    [Scenario:] header and at the end of the text: a scenario that is
    followed by a definition or a schedule is never reported as lacking
    an outcome, whatever its lines are. *)
Theorem scenario_closed_by_other_block
        (text : string) (pre : list string) (hdr : string)
        (body : list string) (h2 : string) (rest : list string) :
  split_lines text = (pre ++ hdr :: body ++ h2 :: rest)%list ->
  opens_scenario hdr = true ->
  Forall (fun l => is_header l = false) body ->
  opens_other_block h2 ->
  filter (missing_at (Z.of_nat (List.length pre) + 1)) (validateCourgette text) = [].
Proof.
  intros E Hh Hb [H2 O2]. unfold validateCourgette. rewrite validate_lines_eq.
  set (lines := split_lines text) in *. set (schedules := collect_schedules lines).
  assert (R : run lines schedules 0 lines init_ctx
              = run lines schedules 0 (pre ++ hdr :: body ++ h2 :: rest) init_ctx)
    by (rewrite <- E; reflexivity).
  rewrite R. clear R.
  set (n := List.length pre). set (L := Z.of_nat n + 1).
  assert (I0 : started_by 0 init_ctx) by (intro B; discriminate B).
  destruct (run_upper lines schedules pre 0 init_ctx I0) as [I1 U1].
  rewrite run_app. cbn [fst snd]. cbn [Nat.add] in *. fold n in I1, U1 |- *.
  set (c1 := fst (run lines schedules 0 pre init_ctx)) in *.
  rewrite run_cons. cbn [fst snd].
  destruct (line_step_scenario lines schedules n hdr c1 Hh) as [nm [Es Fnm]].
  rewrite Es. cbn [fst snd].
  set (c2 := Ctx (Some BScenario) (Z.of_nat n + 1) false false
                 (expectingListItems c1) (indentLevel c1) (variables c1)).
  rewrite run_app. cbn [fst snd].
  set (c3 := fst (run lines schedules (S n) body c2)).
  set (m := (S n + List.length body)%nat).
  rewrite run_cons. cbn [fst snd].
  destruct (line_step_other_header lines schedules m h2 c3 O2 H2) as [N [_ A]].
  set (c4 := fst (line_step lines schedules m h2 c3)) in *.
  assert (T : Forall (fun d => Z.of_nat (S m) + 1 <= line d)
                (snd (run lines schedules (S m) rest c4)
                 ++ check_previous lines (fst (run lines schedules (S m) rest c4)))).
  { apply run_lower; [lia|]. intro B. contradiction. }
  apply Forall_app in T. destruct T as [T1 T2].
  rewrite !filter_app.
  rewrite (filter_missing_other_line L (snd (run lines schedules 0 pre init_ctx))).
  2:{ eapply Forall_impl; [|exact U1]. unfold L. cbn. intros d Hd. lia. }
  rewrite (filter_missing_plain L (tab_diags lines (Z.of_nat n) hdr)).
  2:{ eapply at_line_plain, tab_diags_lines. }
  rewrite (filter_missing_other_line L (check_previous lines c1)).
  2:{ pose proof (check_previous_lines lines c1 n I1) as P.
      eapply Forall_impl; [|exact P]. unfold L. cbn. intros d Hd. lia. }
  rewrite (filter_missing_plain L nm) by (eapply at_line_plain; exact Fnm).
  rewrite (filter_missing_plain L (snd (run lines schedules (S n) body c2)))
    by (apply run_plain_lines; exact Hb).
  rewrite (filter_missing_plain L (snd (line_step lines schedules m h2 c3)))
    by (eapply at_line_plain; exact A).
  rewrite (filter_missing_other_line L (snd (run lines schedules (S m) rest c4))).
  2:{ eapply Forall_impl; [|exact T1]. unfold L, m. cbn. intros d Hd. lia. }
  rewrite (filter_missing_other_line L (check_previous lines _)).
  2:{ eapply Forall_impl; [|exact T2]. unfold L, m. cbn. intros d Hd. lia. }
  reflexivity.
Qed.

Lemma scenario_closed_by_other_block_witness :
  split_lines unclosed_doc
  = ([] ++ "Scenario: A" :: ["When age > 5"]
        ++ "Schedule: Rates" :: ["When single: $10 per week"])%list
  /\ opens_scenario "Scenario: A" = true
  /\ Forall (fun l => is_header l = false) ["When age > 5"]
  /\ opens_other_block "Schedule: Rates"
  /\ filter (missing_at 1) (validateCourgette unclosed_doc) = [].
Proof.
  assert (H1 : split_lines unclosed_doc
               = ([] ++ "Scenario: A" :: ["When age > 5"]
                     ++ "Schedule: Rates" :: ["When single: $10 per week"])%list)
    by (vm_compute; reflexivity).
  assert (H2 : opens_scenario "Scenario: A" = true) by (vm_compute; reflexivity).
  assert (H3 : Forall (fun l => is_header l = false) ["When age > 5"])
    by (constructor; [vm_compute; reflexivity|constructor]).
  assert (H4 : opens_other_block "Schedule: Rates")
    by (split; vm_compute; reflexivity).
  split; [exact H1|]. split; [exact H2|]. split; [exact H3|]. split; [exact H4|].
  exact (scenario_closed_by_other_block unclosed_doc [] "Scenario: A"
           ["When age > 5"] "Schedule: Rates" ["When single: $10 per week"]
           H1 H2 H3 H4).
Defined.

(** The context after the header of a scenario and lines of it. *)
Lemma scenario_context lines schedules pre hdr body :
  opens_scenario hdr = true ->
  Forall (fun l => is_header l = false) body ->
  currentBlock (fst (run lines schedules 0 (pre ++ hdr :: body) init_ctx))
  = Some BScenario.
Proof.
  intros Hh Hb. rewrite run_app. cbn [fst]. rewrite run_cons. cbn [fst].
  rewrite run_in_block by exact Hb.
  destruct (line_step_scenario lines schedules (0 + List.length pre) hdr
              (fst (run lines schedules 0 pre init_ctx)) Hh) as [nm [E _]].
  rewrite E. reflexivity.
Qed.

Lemma list_item_facts t :
  startsWith t "- " = true ->
  (t =? "")%string = false
  /\ startsWith t "Scenario:" = false /\ startsWith t "Definition:" = false
  /\ startsWith t "Schedule:" = false
  /\ scenario_line_kind t = KListItem.
Proof.
  intro H. destruct t as [|a [|b t]]; try discriminate H.
  { cbn in H. rewrite andb_false_r in H. discriminate H. }
  cbn [startsWith] in H.
  destruct (Ascii.eqb_spec "-" a) as [<-|]; [|discriminate].
  destruct (Ascii.eqb_spec " " b) as [<-|]; [|discriminate].
  unfold scenario_line_kind. rewrite test_cond_kw. cbn. repeat split; reflexivity.
Qed.

(** X7: a blank line ends a group: inside a scenario, a list item that
    comes right after a blank line is reported as an error at the place
    of its dash, even when a group was opened before the blank line. *)
Theorem list_item_after_blank_line
        (text : string) (pre : list string) (hdr : string)
        (body : list string) (blank l : string) (post : list string) :
  split_lines text = (pre ++ hdr :: body ++ blank :: l :: post)%list ->
  opens_scenario hdr = true ->
  Forall (fun x => is_header x = false) body ->
  trim blank = EmptyString ->
  startsWith (trim l) "- " = true ->
  exists d,
    In d (validateCourgette text)
    /\ line d = Z.of_nat (List.length pre + List.length body) + 3
    /\ column d = leading_spaces l + 1
    /\ severity d = Error
    /\ message d = msg_list_item.
Proof.
  intros E Hh Hb Hk Hl. unfold validateCourgette.
  set (lines := split_lines text) in *. set (schedules := collect_schedules lines).
  assert (E' : lines = ((pre ++ hdr :: body ++ [blank]) ++ l :: post)%list).
  { rewrite E, <- app_assoc. cbn [app]. rewrite <- app_assoc. reflexivity. }
  set (i := List.length (pre ++ hdr :: body ++ [blank])).
  assert (Li : Z.of_nat i + 1 = Z.of_nat (List.length pre + List.length body) + 3).
  { unfold i. rewrite length_app. cbn [List.length]. rewrite length_app.
    cbn [List.length]. lia. }
  exists (Diag (Z.of_nat i + 1) (leading_spaces l + 1) msg_list_item Error
               (getOffset lines (Z.of_nat i) (leading_spaces l))
               (getOffset lines (Z.of_nat i) (leading_spaces l + 2))).
  split; [|repeat split; exact Li].
  eapply step_diags_returned; [exact E'|]. fold schedules. fold i.
  assert (C : (pre ++ hdr :: body ++ [blank] = (pre ++ hdr :: body) ++ [blank])%list)
    by (rewrite <- app_assoc; reflexivity).
  rewrite C, run_app. cbn [fst]. rewrite run_cons. cbn [run fst].
  set (c0 := fst (run lines schedules 0 (pre ++ hdr :: body) init_ctx)).
  assert (B0 : currentBlock c0 = Some BScenario)
    by (apply scenario_context; assumption).
  set (c1 := fst (line_step lines schedules (0 + List.length (pre ++ hdr :: body))
                            blank c0)).
  assert (B1 : currentBlock c1 = Some BScenario /\ expectingListItems c1 = false).
  { unfold c1, line_step. rewrite Hk. cbn. split; [exact B0|reflexivity]. }
  destruct B1 as [B1 X1].
  destruct (list_item_facts (trim l) Hl) as (E0 & H1 & H2 & H3 & K).
  unfold line_step. rewrite E0, H1, H2, H3, B1. unfold scenario_line. rewrite K.
  unfold list_item_line. cbn [snd]. rewrite X1. cbn [negb].
  apply in_or_app. right. left. reflexivity.
Qed.

Lemma list_item_after_blank_line_witness :
  split_lines blank_doc
  = ([] ++ "Scenario: S" :: ["When any of these are true:"]
        ++ "" :: "- age > 5" :: ["Then x is eligible"])%list
  /\ opens_scenario "Scenario: S" = true
  /\ Forall (fun x => is_header x = false) ["When any of these are true:"]
  /\ trim "" = EmptyString
  /\ startsWith (trim "- age > 5") "- " = true
  /\ exists d,
       In d (validateCourgette blank_doc)
       /\ line d = 4 /\ column d = 1 /\ severity d = Error
       /\ message d = msg_list_item.
Proof.
  assert (H1 : split_lines blank_doc
               = ([] ++ "Scenario: S" :: ["When any of these are true:"]
                     ++ "" :: "- age > 5" :: ["Then x is eligible"])%list)
    by (vm_compute; reflexivity).
  assert (H2 : opens_scenario "Scenario: S" = true) by (vm_compute; reflexivity).
  assert (H3 : Forall (fun x => is_header x = false) ["When any of these are true:"])
    by (constructor; [vm_compute; reflexivity|constructor]).
  assert (H4 : trim "" = EmptyString) by reflexivity.
  assert (H5 : startsWith (trim "- age > 5") "- " = true) by (vm_compute; reflexivity).
  split; [exact H1|]. split; [exact H2|]. split; [exact H3|]. split; [exact H4|].
  split; [exact H5|].
  exact (list_item_after_blank_line blank_doc [] "Scenario: S"
           ["When any of these are true:"] "" "- age > 5" ["Then x is eligible"]
           H1 H2 H3 H4 H5).
Defined.

Lemma line_step_keeps_conditions lines schedules idx l c :
  is_header l = false -> scenario_line_kind (trim l) <> KCondition ->
  hasConditions (fst (line_step lines schedules idx l c)) = hasConditions c.
Proof.
  unfold is_header, line_step. intros H K.
  apply orb_false_iff in H. destruct H as [H H3].
  apply orb_false_iff in H. destruct H as [H1 H2].
  destruct (trim l =? "")%string; [reflexivity|].
  rewrite H1, H2, H3.
  destruct (currentBlock c) as [[| |]|]; try reflexivity.
  unfold scenario_line.
  destruct (scenario_line_kind (trim l)); try reflexivity. contradiction.
Qed.

Lemma run_keeps_conditions lines schedules body : forall idx c,
  no_condition_lines body ->
  hasConditions (fst (run lines schedules idx body c)) = hasConditions c.
Proof.
  induction body as [|l body IH]; intros idx c F; [reflexivity|].
  inversion F as [|? ? [Hd K] F']; subst. rewrite run_cons. cbn [fst].
  rewrite (IH (S idx) _ F'). apply line_step_keeps_conditions; assumption.
Qed.

(** X8: outcomes must follow conditions: when a scenario has had no
    condition line so far, a [Then] line is reported as an error at its
    first column. *)
Theorem outcome_before_conditions
        (text : string) (pre : list string) (hdr : string)
        (body : list string) (l : string) (post : list string) :
  split_lines text = (pre ++ hdr :: body ++ l :: post)%list ->
  opens_scenario hdr = true ->
  no_condition_lines body ->
  keyword_line "Then" (trim l) = true ->
  exists d,
    In d (validateCourgette text)
    /\ line d = Z.of_nat (List.length pre + List.length body) + 2
    /\ column d = 1
    /\ severity d = Error
    /\ message d = msg_outcome_first.
Proof.
  intros E Hh Hb T. unfold validateCourgette.
  set (lines := split_lines text) in *. set (schedules := collect_schedules lines).
  assert (Hb' : Forall (fun x => is_header x = false) body).
  { eapply Forall_impl; [|exact Hb]. intros x [Hx _]. exact Hx. }
  assert (E' : lines = ((pre ++ hdr :: body) ++ l :: post)%list).
  { rewrite E, <- app_assoc. reflexivity. }
  set (i := List.length (pre ++ hdr :: body)).
  assert (Li : Z.of_nat i + 1 = Z.of_nat (List.length pre + List.length body) + 2).
  { unfold i. rewrite length_app. cbn [List.length]. lia. }
  exists (Diag (Z.of_nat i + 1) 1 msg_outcome_first Error
               (getOffset lines (Z.of_nat i) 0) (getOffset lines (Z.of_nat i) 4)).
  split; [|repeat split; exact Li].
  eapply step_diags_returned; [exact E'|]. fold schedules. fold i.
  set (c0 := fst (run lines schedules 0 (pre ++ hdr :: body) init_ctx)).
  assert (B0 : currentBlock c0 = Some BScenario)
    by (apply scenario_context; assumption).
  assert (C0 : hasConditions c0 = false).
  { unfold c0. rewrite run_app. cbn [fst]. rewrite run_cons. cbn [fst].
    rewrite run_keeps_conditions by exact Hb.
    destruct (line_step_scenario lines schedules (0 + List.length pre) hdr
                (fst (run lines schedules 0 pre init_ctx)) Hh) as [nm [Es _]].
    rewrite Es. reflexivity. }
  destruct (then_line_facts (trim l) T) as (E0 & H1 & H2 & H3 & _).
  unfold line_step. rewrite E0, H1, H2, H3, B0.
  unfold scenario_line. rewrite (kind_of_then (trim l) T).
  unfold outcome_line. cbn [snd]. rewrite C0. cbn [negb].
  apply in_or_app. right. left. reflexivity.
Qed.

Lemma outcome_before_conditions_witness :
  split_lines early_outcome_doc
  = ([] ++ "Scenario: S" :: ["# no condition"] ++ "Then x is eligible" :: [])%list
  /\ opens_scenario "Scenario: S" = true
  /\ no_condition_lines ["# no condition"]
  /\ keyword_line "Then" (trim "Then x is eligible") = true
  /\ exists d,
       In d (validateCourgette early_outcome_doc)
       /\ line d = 3 /\ column d = 1 /\ severity d = Error
       /\ message d = msg_outcome_first.
Proof.
  assert (H1 : split_lines early_outcome_doc
               = ([] ++ "Scenario: S" :: ["# no condition"]
                     ++ "Then x is eligible" :: [])%list)
    by (vm_compute; reflexivity).
  assert (H2 : opens_scenario "Scenario: S" = true) by (vm_compute; reflexivity).
  assert (H3 : no_condition_lines ["# no condition"]).
  { constructor; [|constructor]. split; [vm_compute; reflexivity|].
    vm_compute. discriminate. }
  assert (H4 : keyword_line "Then" (trim "Then x is eligible") = true)
    by (vm_compute; reflexivity).
  split; [exact H1|]. split; [exact H2|]. split; [exact H3|]. split; [exact H4|].
  exact (outcome_before_conditions early_outcome_doc [] "Scenario: S"
           ["# no condition"] "Then x is eligible" [] H1 H2 H3 H4).
Defined.

(* ================================================================= *)
(** * Further properties of the compiler *)

(** ** The set of variables *)

Lemma mem_In x l : mem x l = true <-> In x l.
Proof.
  unfold mem. rewrite existsb_exists. split.
  - intros [y [H E]]. apply String.eqb_eq in E. subst. exact H.
  - intro H. exists x. split; [exact H|apply String.eqb_refl].
Qed.

Lemma set_add_NoDup x l : NoDup l -> NoDup (set_add x l).
Proof.
  intro H. unfold set_add. destruct (mem x l) eqn:M; [exact H|].
  apply NoDup_app; [exact H|repeat constructor; intros []|].
  intros y Hy [<-|[]]. apply mem_In in Hy. congruence.
Qed.

(** Adding the kept names of [l] to a set. *)
Lemma add_names_spec (keep : string -> bool) l : forall vars,
  let r := fold_left (fun vs m => if keep m then set_add m vs else vs) l vars in
  (exists added, r = (vars ++ added)%list)
  /\ (NoDup vars -> NoDup r)
  /\ (forall v, In v r -> In v vars \/ keep v = true).
Proof.
  induction l as [|m l IH]; intro vars; cbn [fold_left].
  - split; [exists []; rewrite app_nil_r; reflexivity|]. split; auto.
  - destruct (keep m) eqn:K; [|apply IH].
    destruct (IH (set_add m vars)) as [[added E] [N I]].
    split; [|split].
    + rewrite E. unfold set_add. destruct (mem m vars).
      * exists added. reflexivity.
      * exists (m :: added). rewrite <- app_assoc. reflexivity.
    + intro H. apply N, set_add_NoDup, H.
    + intros v Hv. apply I in Hv. destruct Hv as [Hv|Hv]; [|auto].
      unfold set_add in Hv. destruct (mem m vars); [auto|].
      apply in_app_or in Hv. destruct Hv as [Hv|[<-|[]]]; auto.
Qed.

Lemma extractVariables_extends_aux text vars :
  variables_ok vars -> variables_ok (Common.extractVariables text vars).
Proof.
  intros [N F]. unfold Common.extractVariables.
  match goal with
  | |- context [fold_left ?f ?l vars] =>
      pose proof (add_names_spec
                    (fun m => negb (mem (toLowerCase m) Common.excludeWords)
                              && negb (starts_with_digit m)) l vars) as S
  end.
  cbv zeta in S. destruct S as [_ [N' I]]. split.
  - apply N', N.
  - apply Forall_forall. intros v Hv. apply I in Hv. destruct Hv as [Hv|Hv].
    + rewrite Forall_forall in F. apply F, Hv.
    + apply andb_true_iff in Hv. destruct Hv as [Hv _].
      apply negb_true_iff in Hv. exact Hv.
Qed.

(** X9: [extractVariables] only adds to the set of variables: the names
    already there keep their places, no name comes twice, and a name that
    is added is none of the excluded words, in any letter case. *)
Theorem extractVariables_extends (text : string) (vars : list string) :
  variables_ok vars ->
  variables_ok (Common.extractVariables text vars)
  /\ exists added, Common.extractVariables text vars = (vars ++ added)%list.
Proof.
  intros [N F]. unfold Common.extractVariables.
  match goal with
  | |- context [fold_left ?f ?l vars] =>
      pose proof (add_names_spec
                    (fun m => negb (mem (toLowerCase m) Common.excludeWords)
                              && negb (starts_with_digit m)) l vars) as S
  end.
  cbv zeta in S. destruct S as [E [N' I]].
  split; [split|exact E].
  - apply N', N.
  - apply Forall_forall. intros v Hv. apply I in Hv. destruct Hv as [Hv|Hv].
    + rewrite Forall_forall in F. apply F, Hv.
    + apply andb_true_iff in Hv. destruct Hv as [Hv _].
      apply negb_true_iff in Hv. exact Hv.
Qed.

Lemma extractVariables_extends_witness :
  variables_ok ["age"]
  /\ variables_ok (Common.extractVariables "income is at least $200 and AGE is not 5"
                                           ["age"])
  /\ exists added,
       Common.extractVariables "income is at least $200 and AGE is not 5" ["age"]
       = (["age"] ++ added)%list.
Proof.
  assert (H : variables_ok ["age"]).
  { split.
    - constructor; [intros []|constructor].
    - constructor; [vm_compute; reflexivity|constructor]. }
  split; [exact H|].
  exact (extractVariables_extends "income is at least $200 and AGE is not 5"
           ["age"] H).
Defined.

Lemma v2_add_condition_ok c s :
  variables_ok (V2.variables s) -> variables_ok (V2.variables (V2.add_condition c s)).
Proof.
  intro H. unfold V2.add_condition. destruct (negb _ && negb _); [|exact H].
  cbn [V2.variables]. apply extractVariables_extends_aux. exact H.
Qed.

Lemma v2_line_step_ok s l :
  variables_ok (V2.variables s) -> variables_ok (V2.variables (V2.line_step s l)).
Proof.
  intro H. unfold V2.line_step, V2.add_condition_item.
  repeat match goal with
         | |- context [if ?b then _ else _] => destruct b
         | |- context [match ?x with _ => _ end] => destruct x
         end;
    cbn [V2.variables];
    first [ exact H | apply v2_add_condition_ok; exact H
          | apply extractVariables_extends_aux; exact H ].
Qed.

Lemma v1_line_step_ok s l :
  variables_ok (V1.variables s) -> variables_ok (V1.variables (V1.line_step s l)).
Proof.
  intro H. unfold V1.line_step, V1.add_condition, V1.add_condition_item.
  repeat match goal with
         | |- context [if ?b then _ else _] => destruct b
         end;
    cbn [V1.variables];
    first [ exact H | apply extractVariables_extends_aux; exact H ].
Qed.

(** X10: in both variants the variables collected from a text are
    distinct and none of them is an excluded word, in any letter case:
    no keyword of the rule language is declared as a variable. *)
Theorem compiled_variables_distinct (today text : string) :
  variables_ok (V1.variables (V1.parse_lines today (split_lines text)))
  /\ variables_ok (V2.variables (V2.parse_lines (split_lines text))).
Proof.
  assert (E : variables_ok []) by (split; constructor).
  split.
  - unfold V1.parse_lines.
    assert (G : forall ls s0, variables_ok (V1.variables s0) ->
                  variables_ok (V1.variables (fold_left V1.line_step ls s0))).
    { induction ls as [|x ls IH]; intros s0 H; [exact H|].
      cbn [fold_left]. apply IH, v1_line_step_ok, H. }
    apply G. exact E.
  - unfold V2.parse_lines.
    assert (G : forall ls s0, variables_ok (V2.variables s0) ->
                  variables_ok (V2.variables (fold_left V2.line_step ls s0))).
    { induction ls as [|x ls IH]; intros s0 H; [exact H|].
      cbn [fold_left]. apply IH, v2_line_step_ok, H. }
    destruct (truthy _); [cbn [V2.variables]|]; apply G; exact E.
Qed.

Lemma v2_line_step_names s l :
  Forall (fun sc => name sc <> EmptyString) (V2.scenarios s) ->
  Forall (fun sc => name sc <> EmptyString) (V2.scenarios (V2.line_step s l)).
Proof.
  intro H. unfold V2.line_step, V2.add_condition, V2.add_condition_item.
  destruct (startsWith (trim l) "Scenario:").
  { cbn [V2.scenarios]. unfold truthy.
    destruct (V2.currentScenario s) as [n|]; [|exact H].
    destruct (String.eqb_spec n "") as [->|N]; cbn [negb]; [exact H|].
    apply Forall_app. split; [exact H|]. constructor; [exact N|constructor]. }
  repeat match goal with
         | |- context [if ?b then _ else _] => destruct b
         | |- context [match ?x with _ => _ end] => destruct x
         end;
    cbn [V2.scenarios]; exact H.
Qed.

(** X11: the second variant never records a scenario without a name: a
    [Scenario:] header with nothing after the colon, and the lines below
    it, produce no code. *)
Theorem scenarios_have_names (text : string) :
  Forall (fun sc => name sc <> EmptyString)
         (V2.scenarios (V2.parse_lines (split_lines text))).
Proof.
  unfold V2.parse_lines.
  assert (G : forall ls s0,
            Forall (fun sc => name sc <> EmptyString) (V2.scenarios s0) ->
            Forall (fun sc => name sc <> EmptyString)
                   (V2.scenarios (fold_left V2.line_step ls s0))).
  { induction ls as [|x ls IH]; intros s0 H; [exact H|].
    cbn [fold_left]. apply IH, v2_line_step_names, H. }
  pose proof (G (split_lines text) V2.init (Forall_nil _)) as F.
  set (s := fold_left V2.line_step (split_lines text) V2.init) in *.
  unfold truthy. destruct (V2.currentScenario s) as [n|]; [|exact F].
  destruct (String.eqb_spec n "") as [->|N]; cbn [negb]; [exact F|].
  cbn [V2.scenarios]. apply Forall_app. split; [exact F|].
  constructor; [exact N|constructor].
Qed.

Lemma v2_no_scenario_step s l :
  startsWith (trim l) "Scenario:" = false ->
  V2.currentScenario s = None ->
  V2.currentScenario (V2.line_step s l) = None
  /\ V2.scenarios (V2.line_step s l) = V2.scenarios s
  /\ V2.variables (V2.line_step s l) = V2.variables s.
Proof.
  intros H C. unfold V2.line_step. rewrite H, C. cbn [truthy].
  repeat match goal with
         | |- context [if ?b then _ else _] => destruct b
         | |- context [match ?x with _ => _ end] => destruct x
         end;
    cbn [V2.currentScenario V2.scenarios V2.variables]; auto.
Qed.

(** X12: the second variant compiles only what stands under a
    [Scenario:] header: a text without such a header gives no scenario
    and no variable, so the output holds the header, an empty list of
    variable definitions and the schedule parameters, if any. *)
Theorem nothing_compiled_without_scenario (today text : string) :
  no_scenario (split_lines text) ->
  V2.scenarios (V2.parse_lines (split_lines text)) = []
  /\ V2.variables (V2.parse_lines (split_lines text)) = []
  /\ V2.compileToOpenFisca today text
     = (header today ++ "# Variable definitions" ++ nl ++ nl
        ++ match V2.schedules (V2.parse_lines (split_lines text)) with
           | [] => EmptyString
           | _ => V2.generateScheduleParameters
                    (V2.schedules (V2.parse_lines (split_lines text))) ++ nl
           end)%string.
Proof.
  intro F.
  assert (G : forall ls s0,
            no_scenario ls -> V2.currentScenario s0 = None ->
            V2.currentScenario (fold_left V2.line_step ls s0) = None
            /\ V2.scenarios (fold_left V2.line_step ls s0) = V2.scenarios s0
            /\ V2.variables (fold_left V2.line_step ls s0) = V2.variables s0).
  { induction ls as [|x ls IH]; intros s0 N C; [auto|].
    inversion N as [|? ? Hx N']; subst. cbn [fold_left].
    destruct (v2_no_scenario_step s0 x Hx C) as [C1 [S1 V1]].
    destruct (IH _ N' C1) as [C2 [S2 V2]]. repeat split; congruence. }
  destruct (G (split_lines text) V2.init F eq_refl) as [C [S V]].
  assert (P : V2.parse_lines (split_lines text)
              = fold_left V2.line_step (split_lines text) V2.init).
  { unfold V2.parse_lines. rewrite C. reflexivity. }
  unfold V2.compileToOpenFisca. rewrite P, S, V. cbn [V2.scenarios V2.variables V2.init].
  split; [reflexivity|]. split; [reflexivity|].
  unfold generateVariableDefinitions. cbn [fold_left map String.concat].
  f_equal. rewrite append_assoc. do 3 f_equal.
  match goal with |- (?x ++ "")%string = _ => generalize x end.
  intro x. clear. induction x as [|c x IH]; [reflexivity|].
  cbn [append]. rewrite IH. reflexivity.
Qed.

Lemma nothing_compiled_without_scenario_witness :
  no_scenario (split_lines schedules_only_doc)
  /\ V2.scenarios (V2.parse_lines (split_lines schedules_only_doc)) = []
  /\ V2.variables (V2.parse_lines (split_lines schedules_only_doc)) = [].
Proof.
  assert (H : no_scenario (split_lines schedules_only_doc)).
  { assert (E : split_lines schedules_only_doc
                = ["When age > 5"; "Schedule: Rates"; "When single: $10 per week";
                   "Then x is eligible"]) by (vm_compute; reflexivity).
    rewrite E. repeat (constructor; [vm_compute; reflexivity|]). constructor. }
  split; [exact H|].
  pose proof (nothing_compiled_without_scenario "03/11/2026" schedules_only_doc H)
    as [W1 [W2 _]].
  split; [exact W1|exact W2].
Defined.

(** ** The type and period of a variable *)

Lemma lower_char_idempotent c : lower_char (lower_char c) = lower_char c.
Proof.
  destruct c as [[] [] [] [] [] [] [] []]; vm_compute; reflexivity.
Qed.

Lemma toLowerCase_idempotent s : toLowerCase (toLowerCase s) = toLowerCase s.
Proof.
  induction s as [|c s IH]; [reflexivity|].
  cbn [toLowerCase]. rewrite lower_char_idempotent, IH. reflexivity.
Qed.

(** X13: the two variants give a name the same value type, and the same
    definition period unless the first says DAY where the second says
    MONTH; neither looks at the letter case of the name. *)
Theorem guessVariableType_variants (v : string) :
  fst (V1.guessVariableType v) = fst (V2.guessVariableType v)
  /\ (snd (V1.guessVariableType v) = snd (V2.guessVariableType v)
      \/ (snd (V1.guessVariableType v) = DAY
          /\ snd (V2.guessVariableType v) = MONTH))
  /\ V1.guessVariableType (toLowerCase v) = V1.guessVariableType v
  /\ V2.guessVariableType (toLowerCase v) = V2.guessVariableType v.
Proof.
  unfold V1.guessVariableType, V2.guessVariableType.
  rewrite toLowerCase_idempotent.
  repeat match goal with
         | |- context [if ?b then _ else _] => destruct b
         end;
    cbn [fst snd]; auto.
Qed.

(** ** The texts a pattern matches *)

Lemma take_all x : take (String.length x) x = x.
Proof. induction x as [|c x IH]; [reflexivity|]. cbn. rewrite IH. reflexivity. Qed.

Lemma consumed_app x st st' :
  ms_rest st = (x ++ ms_rest st')%string -> consumed st st' = x.
Proof.
  intro E. unfold consumed. rewrite E, length_append.
  replace (String.length x + String.length (ms_rest st')
           - String.length (ms_rest st'))%nat
    with (String.length x) by lia.
  rewrite take_append_le by lia. apply take_all.
Qed.

Lemma search_member r : forall s skipped prev m,
  search r skipped prev s = Some m ->
  exists st st', In st' (rmatch r st) /\ mr_text m = consumed st st'.
Proof.
  induction s as [|c s IH]; intros skipped prev m H; rewrite search_eq in H;
    destruct (rmatch r (MS prev _ [])) as [|st' l] eqn:R.
  - discriminate H.
  - injection H as <-. eexists. exists st'. rewrite R. split; [left|]; reflexivity.
  - apply IH in H. exact H.
  - injection H as <-. eexists. exists st'. rewrite R. split; [left|]; reflexivity.
Qed.

Lemma exec_all_from_texts r (P : string -> Prop) :
  (forall st st', In st' (rmatch r st) -> P (consumed st st')) ->
  forall fuel pre prev s,
    Forall (fun m => P (mr_text m)) (exec_all_from fuel r pre prev s).
Proof.
  intros HP. induction fuel as [|f IH]; intros pre prev s; cbn [exec_all_from];
    [constructor|].
  destruct (search r EmptyString prev s) as [m|] eqn:S; [|constructor].
  assert (Pm : P (mr_text m)).
  { apply search_member in S. destruct S as [st [st' [I ->]]]. apply HP, I. }
  destruct (mr_text m) as [|a b] eqn:T.
  - destruct (mr_after m); constructor; cbn [mr_text]; try exact Pm;
      [constructor|apply IH].
  - constructor; [exact Pm|apply IH].
Qed.

Lemma match_all_texts r (P : string -> Prop) s :
  (forall st st', In st' (rmatch r st) -> P (consumed st st')) ->
  Forall P (match_all r s).
Proof.
  intro HP. unfold match_all, exec_all. apply Forall_map.
  apply exec_all_from_texts, HP.
Qed.

Lemma lower_upcase c : lower_char (upcase c) = lower_char c.
Proof.
  destruct c as [[] [] [] [] [] [] [] []]; vm_compute; reflexivity.
Qed.

Lemma is_char_i_lower x c : is_char_i x c = true -> lower_char c = lower_char x.
Proof.
  unfold is_char_i. intro H. apply Ascii.eqb_eq in H.
  rewrite <- (lower_upcase c), H. apply lower_upcase.
Qed.

(** A literal under the [i] flag consumes a text equal to it up to
    letter case. *)
Lemma rmatch_liti w : forall st st',
  In st' (rmatch (liti w) st) ->
  exists x, ms_rest st = (x ++ ms_rest st')%string
            /\ toLowerCase x = toLowerCase w.
Proof.
  induction w as [|c w IH]; intros st st' H.
  - cbn in H. destruct H as [<-|[]]. exists EmptyString. split; reflexivity.
  - destruct w as [|c' w'].
    + cbn [liti rmatch] in H. destruct (ms_rest st) as [|b t] eqn:E; [destruct H|].
      destruct (is_char_i c b) eqn:I; [|destruct H]. destruct H as [<-|[]].
      exists (String b EmptyString). cbn [ms_rest]. split; [reflexivity|].
      cbn [toLowerCase]. rewrite (is_char_i_lower _ _ I). reflexivity.
    + change (liti (String c (String c' w')))
        with (Seq (Chr (is_char_i c)) (liti (String c' w'))) in H.
      cbn [rmatch] in H. destruct (ms_rest st) as [|b t] eqn:E; [destruct H|].
      destruct (is_char_i c b) eqn:I; cbn [flat_map] in H; [|destruct H].
      rewrite app_nil_r in H. apply IH in H. destruct H as [x [H1 H2]].
      cbn [ms_rest] in H1. exists (String b x). split.
      * cbn [append]. rewrite H1. reflexivity.
      * cbn [toLowerCase]. rewrite (is_char_i_lower _ _ I), H2. reflexivity.
Qed.

Lemma re_bool_texts st st' :
  In st' (rmatch re_bool st) ->
  mem (toLowerCase (consumed st st')) ["true"; "false"; "yes"; "no"; "eligible"]
  = true.
Proof.
  unfold re_bool. cbn [seqs alts rmatch]. intro H.
  destruct (xorb _ _); cbn [flat_map] in H; [|destruct H].
  rewrite app_nil_r in H. apply in_flat_map in H. destruct H as [st2 [H2 H3]].
  apply in_map_iff in H2. destruct H2 as [st1 [<- H1]].
  cbn [ms_prev ms_rest] in H3.
  destruct (xorb _ _); [|destruct H3]. destruct H3 as [<-|[]].
  assert (W : exists x, ms_rest st = (x ++ ms_rest st1)%string
                        /\ In (toLowerCase x)
                              ["true"; "false"; "yes"; "no"; "eligible"]).
  { repeat (apply in_app_or in H1; destruct H1 as [H1|H1]);
      apply rmatch_liti in H1; destruct H1 as [x [E1 E2]]; exists x;
        (split; [exact E1|]); rewrite E2; cbn; tauto. }
  destruct W as [x [E1 E2]].
  rewrite (consumed_app x); [|exact E1]. apply mem_In, E2.
Qed.

(** X16: [validateCondition] never reports an invalid boolean value: the
    words its pattern finds are, whatever their letter case, among the
    five it then looks for. *)
Theorem invalid_boolean_never_reported
        (condition : string) (lineNum columnOffset : Z) (lines : list string)
        (lineIdx : Z) (d : diagnostic) (b : string) :
  In d (validateCondition condition lineNum columnOffset lines lineIdx) ->
  message d <> msg_bool b.
Proof.
  unfold validateCondition.
  assert (B : forall f : string -> list diagnostic,
             flat_map
               (fun w =>
                  if negb (mem (toLowerCase w)
                               ["true"; "false"; "yes"; "no"; "eligible"])
                  then f w else [])
               (match_all re_bool condition) = []).
  { intro f. apply flat_map_nil.
    apply (match_all_texts re_bool
             (fun w => (if negb (mem (toLowerCase w)
                                     ["true"; "false"; "yes"; "no"; "eligible"])
                        then f w else []) = [])).
    intros st st' H. rewrite (re_bool_texts _ _ H). reflexivity. }
  rewrite B. cbn [app].
  destruct (_ && _).
  - intros [<-|[]]. cbn. discriminate.
  - intro H. repeat (apply in_app_or in H; destruct H as [H|H]).
    + destruct (test re_between_word condition); [|destruct H].
      destruct (exec re_between condition); [destruct H|].
      destruct H as [<-|[]]. cbn. discriminate.
    + destruct (negb _); [|destruct H]. destruct H as [<-|[]]. cbn. discriminate.
    + apply in_flat_map in H. destruct H as [amount [_ H]].
      destruct (ge_1000 amount); [|destruct H].
      destruct (negb _); [|destruct H]. destruct H as [<-|[]]. cbn. discriminate.
Qed.

Lemma invalid_boolean_never_reported_witness :
  In (Diag 1 6 msg_quotes Error 5 25)
     (validateCondition "active is TRUE or 'x" 1 6 ["When active is TRUE or 'x"] 0)
  /\ message (Diag 1 6 msg_quotes Error 5 25) <> msg_bool "TRUE".
Proof.
  assert (H : In (Diag 1 6 msg_quotes Error 5 25)
                 (validateCondition "active is TRUE or 'x" 1 6
                                    ["When active is TRUE or 'x"] 0))
    by (vm_compute; left; reflexivity).
  split; [exact H|].
  exact (invalid_boolean_never_reported
           "active is TRUE or 'x" 1 6 ["When active is TRUE or 'x"] 0
           (Diag 1 6 msg_quotes Error 5 25) "TRUE" H).
Defined.

(** ** Replacing the runs of a character class *)

Lemma drop_length_app pre s : drop (String.length pre) (pre ++ s) = s.
Proof. induction pre as [|c pre IH]; [reflexivity|]. cbn. exact IH. Qed.

Lemma all_chars_app p a b :
  all_chars p (a ++ b) = all_chars p a && all_chars p b.
Proof.
  induction a as [|c a IH]; [reflexivity|]. cbn. rewrite IH, andb_assoc.
  reflexivity.
Qed.

Lemma all_chars_impl (p q : ascii -> bool) s :
  (forall c, p c = true -> q c = true) ->
  all_chars p s = true -> all_chars q s = true.
Proof.
  intro I. induction s as [|c s IH]; [reflexivity|]. cbn.
  rewrite !andb_true_iff. intros [H1 H2]. split; [apply I, H1|apply IH, H2].
Qed.

Lemma star_iter_suffix (one : mstate -> list mstate) g :
  (forall st st', In st' (one st) ->
                  exists x, ms_rest st = (x ++ ms_rest st')%string) ->
  forall fuel st st',
    In st' (star_iter one g fuel st) ->
    exists x, ms_rest st = (x ++ ms_rest st')%string.
Proof.
  intro H1. induction fuel as [|f IH]; intros st st' H.
  - destruct H as [<-|[]]. exists EmptyString. reflexivity.
  - cbn [star_iter] in H.
    assert (C : st' = st
                \/ In st' (flat_map (star_iter one g f)
                             (filter (fun st' => (String.length (ms_rest st')
                                                  <? String.length (ms_rest st))%nat)
                                     (one st)))).
    { destruct g.
      - apply in_app_or in H. destruct H as [H|[H|[]]]; auto.
      - destruct H as [H|H]; auto. }
    destruct C as [->|C]; [exists EmptyString; reflexivity|].
    apply in_flat_map in C. destruct C as [st1 [C1 C2]].
    apply filter_In in C1. destruct C1 as [C1 _].
    apply H1 in C1. apply IH in C2.
    destruct C1 as [x1 E1]. destruct C2 as [x2 E2].
    exists (x1 ++ x2)%string. rewrite E1, E2, append_assoc. reflexivity.
Qed.

(** What a pattern leaves is a suffix of what it was given. *)
Lemma rmatch_suffix r : forall st st',
  In st' (rmatch r st) -> exists x, ms_rest st = (x ++ ms_rest st')%string.
Proof.
  induction r as [|p|a IHa b IHb|a IHa b IHb|g a IHa|n a IHa| | | |a IHa];
    intros st st' H; cbn [rmatch] in H.
  - destruct H as [<-|[]]. exists EmptyString. reflexivity.
  - destruct (ms_rest st) as [|c t] eqn:E; [destruct H|].
    destruct (p c); [|destruct H]. destruct H as [<-|[]].
    exists (String c EmptyString). reflexivity.
  - apply in_flat_map in H. destruct H as [st1 [H1 H2]].
    apply IHa in H1. apply IHb in H2.
    destruct H1 as [x1 E1]. destruct H2 as [x2 E2].
    exists (x1 ++ x2)%string. rewrite E1, E2, append_assoc. reflexivity.
  - apply in_app_or in H. destruct H as [H|H]; [apply IHa, H|apply IHb, H].
  - eapply star_iter_suffix; [exact IHa|exact H].
  - apply in_map_iff in H. destruct H as [st1 [<- H]]. cbn [ms_rest].
    apply IHa, H.
  - destruct (ms_prev st); [destruct H|]. destruct H as [<-|[]].
    exists EmptyString. reflexivity.
  - destruct (ms_rest st) eqn:E; [|destruct H]. destruct H as [<-|[]].
    exists EmptyString. rewrite E. reflexivity.
  - destruct (xorb _ _); [|destruct H]. destruct H as [<-|[]].
    exists EmptyString. reflexivity.
  - destruct (rmatch a st); [|destruct H]. destruct H as [<-|[]].
    exists EmptyString. reflexivity.
Qed.

Section Runs.

Variable r : re.
Variable q : ascii -> bool.

(** Where the pattern finds nothing, the character is in the class [q];
    and the pattern never matches the empty text. *)
Hypothesis skip_q : forall prev c t,
  rmatch r (MS prev (String c t) []) = [] -> q c = true.
Hypothesis not_empty : forall st st',
  In st' (rmatch r st) -> consumed st st' <> EmptyString.

Lemma search_split : forall s skipped prev m,
  search r skipped prev s = Some m ->
  exists before,
    mr_before m = (rev skipped ++ before)%string
    /\ s = (before ++ mr_text m ++ mr_after m)%string
    /\ all_chars q before = true
    /\ mr_text m <> EmptyString.
Proof.
  assert (F : forall s skipped prev st' l m,
             rmatch r (MS prev s []) = st' :: l ->
             Some (MR (rev skipped) (consumed (MS prev s []) st') (ms_rest st')
                      (ms_prev st') (ms_caps st')) = Some m ->
             exists before,
               mr_before m = (rev skipped ++ before)%string
               /\ s = (before ++ mr_text m ++ mr_after m)%string
               /\ all_chars q before = true
               /\ mr_text m <> EmptyString).
  { intros s skipped prev st' l m R H. injection H as <-.
    assert (I : In st' (rmatch r (MS prev s []))) by (rewrite R; left; reflexivity).
    exists EmptyString. cbn [mr_before mr_text mr_after append all_chars].
    rewrite append_nil_r. split; [reflexivity|].
    destruct (rmatch_suffix _ _ _ I) as [x E].
    pose proof (consumed_app x (MS prev s []) st' E) as CE.
    rewrite CE. cbn [ms_rest] in E.
    split; [exact E|]. split; [reflexivity|].
    rewrite <- CE. apply not_empty, I. }
  induction s as [|c s IH]; intros skipped prev m H; rewrite search_eq in H;
    destruct (rmatch r (MS prev _ [])) as [|st' l] eqn:R.
  - discriminate H.
  - eapply F; eassumption.
  - apply IH in H. destruct H as [before [H1 [H2 [H3 H4]]]].
    exists (String c before). rewrite H1, rev_cons, append_assoc.
    split; [reflexivity|]. cbn [append all_chars]. rewrite <- H2, H3.
    rewrite (skip_q _ _ _ R). auto.
  - eapply F; eassumption.
Qed.

Lemma search_none : forall s skipped prev,
  search r skipped prev s = None -> all_chars q s = true.
Proof.
  induction s as [|c s IH]; intros skipped prev H; [reflexivity|].
  rewrite search_eq in H.
  destruct (rmatch r (MS prev _ [])) as [|st' l] eqn:R; [|discriminate H].
  cbn [all_chars]. rewrite (skip_q _ _ _ R). apply IH in H. rewrite H.
  reflexivity.
Qed.

Lemma splice_runs k : forall fuel pre prev s,
  (String.length s < fuel)%nat ->
  all_chars (fun c => q c || (code c =? 95)%nat)
            (splice "_" k (String.length pre)
                    (exec_all_from fuel r pre prev s) (pre ++ s))
  = true.
Proof.
  assert (W : forall x, all_chars q x = true ->
                        all_chars (fun c => q c || (code c =? 95)%nat) x = true).
  { intros x. apply all_chars_impl. intros c ->. reflexivity. }
  induction fuel as [|f IH]; intros pre prev s L; [lia|].
  cbn [exec_all_from].
  destruct (search r EmptyString prev s) as [m|] eqn:Hs.
  - destruct (search_split _ _ _ _ Hs) as [before [H1 [H2 [H3 H4]]]].
    cbn [rev rev_acc append] in H1.
    destruct (mr_text m) as [|a b] eqn:T; [congruence|].
    cbn [splice]. unfold mr_index. cbn [mr_before mr_text].
    change (substitution "_" _ k) with "_"%string.
    rewrite !all_chars_app. rewrite H1.
    assert (G : substring (String.length pre) (String.length (pre ++ before))
                          (pre ++ s) = before).
    { unfold substring. rewrite length_append, drop_length_app.
      replace (String.length pre + String.length before
               - String.length pre)%nat
        with (String.length before) by lia.
      rewrite H2, take_append_le by lia. apply take_all. }
    assert (U : all_chars (fun c => q c || (code c =? 95)%nat) "_" = true).
    { cbn [all_chars]. rewrite andb_true_r. apply orb_true_iff. right.
      reflexivity. }
    rewrite G, (W _ H3), U. cbn [andb String.length].
    assert (E : (pre ++ s = (pre ++ before ++ String a b) ++ mr_after m)%string).
    { rewrite H2, !append_assoc. reflexivity. }
    rewrite E.
    replace (String.length (pre ++ before) + S (String.length b))%nat
      with (String.length (pre ++ before ++ String a b))
      by (rewrite !length_append; cbn; lia).
    apply IH.
    assert (Ls : String.length s
                 = (String.length before + S (String.length b)
                    + String.length (mr_after m))%nat).
    { rewrite H2, !length_append. cbn. lia. }
    lia.
  - cbn [splice]. rewrite drop_length_app. apply W. eapply search_none, Hs.
Qed.

Lemma replace_all_runs s :
  all_chars (fun c => q c || (code c =? 95)%nat) (replace_all r "_" s) = true.
Proof.
  unfold replace_all, exec_all.
  apply (splice_runs (ngroups r) (S (String.length s)) EmptyString None s).
  lia.
Qed.

End Runs.

(** Replacing each run of characters of a class by an underscore leaves
    characters outside the class, and underscores. *)
Lemma replace_class_runs (p : ascii -> bool) s :
  all_chars (fun c => negb (p c) || (code c =? 95)%nat)
            (replace_all (Plus (Chr p)) "_" s) = true.
Proof.
  apply replace_all_runs.
  - intros prev c t H. unfold Plus in H. cbn [rmatch ms_rest] in H.
    destruct (p c); [|reflexivity]. cbn [flat_map] in H.
    rewrite app_nil_r in H. exfalso. revert H. apply star_iter_nonempty.
  - intros st st' H. unfold Plus in H. cbn [rmatch] in H.
    destruct (ms_rest st) as [|c t] eqn:E; [destruct H|].
    destruct (p c); [|destruct H]. cbn [flat_map] in H. rewrite app_nil_r in H.
    apply (star_iter_suffix (rmatch (Chr p)) true (rmatch_suffix (Chr p))) in H.
    destruct H as [x H]. cbn [ms_rest] in H.
    rewrite (consumed_app (String c x)); [discriminate|].
    rewrite E, H. reflexivity.
Qed.

Lemma lower_char_not_space c : is_space c = false -> is_space (lower_char c) = false.
Proof.
  destruct c as [[] [] [] [] [] [] [] []]; vm_compute; auto.
Qed.

Lemma all_chars_toLowerCase s :
  all_chars not_space s = true -> all_chars not_space (toLowerCase s) = true.
Proof.
  induction s as [|c s IH]; [reflexivity|]. cbn [all_chars toLowerCase].
  rewrite !andb_true_iff. intros [H1 H2]. split; [|apply IH, H2].
  unfold not_space in *. apply negb_true_iff in H1. apply negb_true_iff.
  apply lower_char_not_space, H1.
Qed.

(** X17: the part of a schedule variable's name that stands for the
    condition holds only lower-case letters, digits and underscores,
    whatever the condition. *)
Theorem condition_slug_is_a_name (condition : string) :
  all_chars is_name_char (V2.condition_slug condition) = true.
Proof.
  unfold V2.condition_slug.
  eapply all_chars_impl; [|apply replace_class_runs].
  intros c H. cbn beta in H. rewrite negb_involutive in H. exact H.
Qed.

(** X18: the names built from a scenario name and from a schedule name
    hold no white space. *)
Theorem slugs_have_no_space (name : string) :
  all_chars not_space (slug name) = true
  /\ all_chars not_space (V2.param_name name) = true.
Proof.
  assert (U : forall c, negb (is_space c) || (code c =? 95)%nat = true ->
                        not_space c = true).
  { intros c H. unfold not_space. apply orb_true_iff in H.
    destruct H as [H|H]; [exact H|]. apply Nat.eqb_eq in H.
    unfold is_space, between. rewrite H. reflexivity. }
  split.
  - unfold slug. apply all_chars_toLowerCase.
    eapply all_chars_impl; [exact U|]. apply (replace_class_runs is_space).
  - unfold V2.param_name.
    eapply all_chars_impl; [exact U|]. apply (replace_class_runs is_space).
Qed.

(** ** Conditions after the first outcome *)

Lemma v2_frozen_step s l :
  V2.inConditions s = false ->
  startsWith (trim l) "Scenario:" = false ->
  V2.inConditions (V2.line_step s l) = false
  /\ V2.cur_conditions (V2.line_step s l) = V2.cur_conditions s
  /\ V2.variables (V2.line_step s l) = V2.variables s.
Proof.
  intros H N. unfold V2.line_step. cbn zeta. rewrite N, H, !andb_false_r.
  repeat match goal with
         | |- context [if ?b then _ else _] => destruct b
         | |- context [match ?o with Some _ => _ | None => _ end] => destruct o
         end;
    cbn [V2.inConditions V2.cur_conditions V2.variables]; auto.
Qed.

Lemma v1_frozen_step s l :
  V1.inConditions s = false ->
  startsWith (trim l) "Scenario:" = false ->
  V1.inConditions (V1.line_step s l) = false
  /\ V1.cur_conditions (V1.line_step s l) = V1.cur_conditions s
  /\ V1.variables (V1.line_step s l) = V1.variables s.
Proof.
  intros H N. unfold V1.line_step. cbn zeta. rewrite N, H, !andb_false_r.
  repeat match goal with
         | |- context [if ?b then _ else _] => destruct b
         end;
    cbn [V1.inConditions V1.cur_conditions V1.variables]; auto.
Qed.

(** X19: once a scenario has an outcome, both variants of the compiler
    leave its conditions and the variables as they are until the next
    scenario opens: the condition lines and list items that follow an
    outcome are dropped. *)
Theorem conditions_frozen_after_outcome
        (s1 : V1.state) (s2 : V2.state) (body : list string) :
  V1.inConditions s1 = false ->
  V2.inConditions s2 = false ->
  no_scenario body ->
  (V1.cur_conditions (fold_left V1.line_step body s1) = V1.cur_conditions s1
   /\ V1.variables (fold_left V1.line_step body s1) = V1.variables s1)
  /\ (V2.cur_conditions (fold_left V2.line_step body s2) = V2.cur_conditions s2
      /\ V2.variables (fold_left V2.line_step body s2) = V2.variables s2).
Proof.
  intros H1 H2 N. split.
  - clear H2 s2. revert s1 H1.
    induction N as [|l body Hl _ IH]; intros s1 H1; [split; reflexivity|].
    cbn [fold_left].
    destruct (v1_frozen_step s1 l H1 Hl) as [A [B C]].
    destruct (IH _ A) as [D E]. rewrite D, E. split; assumption.
  - clear H1 s1. revert s2 H2.
    induction N as [|l body Hl _ IH]; intros s2 H2; [split; reflexivity|].
    cbn [fold_left].
    destruct (v2_frozen_step s2 l H2 Hl) as [A [B C]].
    destruct (IH _ A) as [D E]. rewrite D, E. split; assumption.
Qed.

Lemma conditions_frozen_after_outcome_witness :
  V1.inConditions (fold_left V1.line_step outcome_read (V1.init "1/1/2025")) = false
  /\ V2.inConditions (fold_left V2.line_step outcome_read V2.init) = false
  /\ no_scenario late_lines
  /\ (V1.cur_conditions
        (fold_left V1.line_step late_lines
                   (fold_left V1.line_step outcome_read (V1.init "1/1/2025")))
      = V1.cur_conditions (fold_left V1.line_step outcome_read (V1.init "1/1/2025"))
      /\ V1.variables
           (fold_left V1.line_step late_lines
                      (fold_left V1.line_step outcome_read (V1.init "1/1/2025")))
         = V1.variables (fold_left V1.line_step outcome_read (V1.init "1/1/2025")))
  /\ (V2.cur_conditions
        (fold_left V2.line_step late_lines
                   (fold_left V2.line_step outcome_read V2.init))
      = V2.cur_conditions (fold_left V2.line_step outcome_read V2.init)
      /\ V2.variables
           (fold_left V2.line_step late_lines
                      (fold_left V2.line_step outcome_read V2.init))
         = V2.variables (fold_left V2.line_step outcome_read V2.init)).
Proof.
  assert (H1 : V1.inConditions
                 (fold_left V1.line_step outcome_read (V1.init "1/1/2025"))
               = false) by (vm_compute; reflexivity).
  assert (H2 : V2.inConditions (fold_left V2.line_step outcome_read V2.init)
               = false) by (vm_compute; reflexivity).
  assert (H3 : no_scenario late_lines)
    by (repeat constructor; vm_compute; reflexivity).
  split; [exact H1|]. split; [exact H2|]. split; [exact H3|].
  exact (conditions_frozen_after_outcome
           (fold_left V1.line_step outcome_read (V1.init "1/1/2025"))
           (fold_left V2.line_step outcome_read V2.init)
           late_lines H1 H2 H3).
Defined.

(** ** The lines of a definition *)

Lemma line_step_definition lines schedules idx l c :
  opens_definition l = true ->
  currentBlock (fst (line_step lines schedules idx l c)) = Some BDefinition.
Proof.
  unfold opens_definition, line_step. intro H.
  destruct (trim l) as [|a t]; [discriminate H|].
  cbn [String.eqb]. cbn [startsWith] in *.
  destruct (Ascii.eqb_spec "D" a) as [<-|]; [|discriminate H].
  cbn [Ascii.eqb Bool.eqb andb] in *. rewrite H. reflexivity.
Qed.

Lemma run_definition lines schedules body : forall idx c,
  Forall (fun l => is_header l = false) body ->
  currentBlock c = Some BDefinition ->
  Forall is_tab_warning (snd (run lines schedules idx body c)).
Proof.
  induction body as [|l body IH]; intros idx c F B; [constructor|].
  inversion F as [|? ? Hd F']; subst. rewrite run_cons. cbn [snd].
  destruct (line_step_plain lines schedules idx l c Hd) as [E _].
  apply Forall_app. split.
  - unfold is_header in Hd.
    apply orb_false_iff in Hd. destruct Hd as [Hd H3].
    apply orb_false_iff in Hd. destruct Hd as [H1 H2].
    assert (T : Forall is_tab_warning (tab_diags lines (Z.of_nat idx) l)).
    { unfold tab_diags. destruct (includes l tab); repeat constructor. }
    unfold line_step. destruct (trim l =? "")%string; [exact T|].
    rewrite H1, H2, H3, B. cbn [snd]. rewrite app_nil_r. exact T.
  - apply IH; [exact F'|]. rewrite E. exact B.
Qed.

(** X20: the lines of a definition are not checked: up to the next
    header, the only diagnostics at the lines that follow a
    [Definition:] header are the warnings about tabs. *)
Theorem definition_lines_not_checked
        (text : string) (pre : list string) (hdr : string)
        (body rest : list string) (d : diagnostic) :
  split_lines text = (pre ++ hdr :: body ++ rest)%list ->
  opens_definition hdr = true ->
  Forall (fun l => is_header l = false) body ->
  In d (validateCourgette text) ->
  Z.of_nat (List.length pre) + 1 < line d
  <= Z.of_nat (List.length pre) + 1 + Z.of_nat (List.length body) ->
  is_tab_warning d.
Proof.
  intros E Hh Hb Hd [L1 L2]. unfold validateCourgette in Hd.
  rewrite validate_lines_eq in Hd.
  set (lines := split_lines text) in *. set (schedules := collect_schedules lines) in *.
  assert (R : run lines schedules 0 lines init_ctx
              = run lines schedules 0 (pre ++ hdr :: body ++ rest) init_ctx)
    by (rewrite <- E; reflexivity).
  rewrite R in Hd. clear R.
  set (n := List.length pre) in *.
  assert (I0 : started_by 0 init_ctx) by (intro B; discriminate B).
  destruct (run_upper lines schedules pre 0 init_ctx I0) as [I1 U1].
  rewrite run_app in Hd. cbn [fst snd] in Hd. cbn [Nat.add] in *.
  fold n in I1, U1, Hd.
  set (c1 := fst (run lines schedules 0 pre init_ctx)) in *.
  rewrite run_cons in Hd. cbn [fst snd] in Hd.
  pose proof (line_step_definition lines schedules n hdr c1 Hh) as B2.
  set (c2 := fst (line_step lines schedules n hdr c1)) in *.
  rewrite run_app in Hd. cbn [fst snd] in Hd.
  pose proof (run_in_block lines schedules body (S n) c2 Hb) as B3.
  rewrite B2 in B3.
  set (c3 := fst (run lines schedules (S n) body c2)) in *.
  set (m := (S n + List.length body)%nat) in *.
  assert (T : Forall (fun d => Z.of_nat m + 1 <= line d)
                (snd (run lines schedules m rest c3)
                 ++ check_previous lines (fst (run lines schedules m rest c3)))).
  { apply run_lower; [lia|]. intro B. rewrite B3 in B. discriminate B. }
  rewrite Forall_forall in T.
  rewrite <- !app_assoc in Hd.
  apply in_app_or in Hd. destruct Hd as [Hd|Hd].
  { rewrite Forall_forall in U1. apply U1 in Hd. lia. }
  apply in_app_or in Hd. destruct Hd as [Hd|Hd].
  { apply line_step_diag in Hd. destruct Hd as [[Hd _]|[Hd _]]; [lia|].
    pose proof (check_previous_lines lines c1 n I1) as P.
    rewrite Forall_forall in P. apply P in Hd. lia. }
  apply in_app_or in Hd. destruct Hd as [Hd|Hd].
  { pose proof (run_definition lines schedules body (S n) c2 Hb B2) as P.
    rewrite Forall_forall in P. apply P, Hd. }
  apply T in Hd. unfold m in Hd. lia.
Qed.

Lemma definition_lines_not_checked_witness :
  split_lines definition_doc
  = ([] ++ "Definition: income"
        :: [tabbed_line; "Then nothing at all"; "- stray item"]
        ++ ["Scenario: S"; "When age > 5"; "Then x is eligible"])%list
  /\ opens_definition "Definition: income" = true
  /\ Forall (fun l => is_header l = false)
            [tabbed_line; "Then nothing at all"; "- stray item"]
  /\ In (Diag 2 1 msg_tabs Warning 19 20) (validateCourgette definition_doc)
  /\ 0 + 1 < line (Diag 2 1 msg_tabs Warning 19 20) <= 0 + 1 + 3
  /\ is_tab_warning (Diag 2 1 msg_tabs Warning 19 20).
Proof.
  assert (H1 : split_lines definition_doc
               = ([] ++ "Definition: income"
                     :: [tabbed_line; "Then nothing at all"; "- stray item"]
                     ++ ["Scenario: S"; "When age > 5"; "Then x is eligible"])%list)
    by (vm_compute; reflexivity).
  assert (H2 : opens_definition "Definition: income" = true)
    by (vm_compute; reflexivity).
  assert (H3 : Forall (fun l => is_header l = false)
                      [tabbed_line; "Then nothing at all"; "- stray item"])
    by (repeat (constructor; [vm_compute; reflexivity|]); constructor).
  assert (H4 : In (Diag 2 1 msg_tabs Warning 19 20)
                  (validateCourgette definition_doc))
    by (vm_compute; left; reflexivity).
  assert (H5 : 0 + 1 < line (Diag 2 1 msg_tabs Warning 19 20) <= 0 + 1 + 3)
    by (cbn; lia).
  split; [exact H1|]. split; [exact H2|]. split; [exact H3|].
  split; [exact H4|]. split; [exact H5|].
  exact (definition_lines_not_checked definition_doc [] "Definition: income"
           [tabbed_line; "Then nothing at all"; "- stray item"]
           ["Scenario: S"; "When age > 5"; "Then x is eligible"]
           (Diag 2 1 msg_tabs Warning 19 20) H1 H2 H3 H4 H5).
Defined.

(* ================================================================= *)
(** * C10: lines that begin with And *)

Lemma rmatch_ws1_cons prev c r caps :
  is_space c = true -> rmatch ws1 (MS prev (String c r) caps) <> [].
Proof.
  intros H E. apply rmatch_ws1_nil in E. cbn [ms_rest] in E. congruence.
Qed.

(** The keyword that [split] finds on a line that begins with [And]. *)
Lemma hd_split_and t :
  keyword_line "And" t = true -> hd EmptyString (split ws1 t) = "And"%string.
Proof.
  unfold keyword_line. intro H. apply andb_true_iff in H. destruct H as [H1 H2].
  destruct t as [|a0 [|a1 [|a2 [|c r]]]]; try discriminate.
  cbn [startsWith] in H1.
  destruct (Ascii.eqb_spec "A" a0) as [<-|]; [|discriminate].
  destruct (Ascii.eqb_spec "n" a1) as [<-|]; [|discriminate].
  destruct (Ascii.eqb_spec "d" a2) as [<-|]; [|discriminate].
  cbn [drop String.length] in H2.
  unfold split.
  change (2 * String.length (String "A" (String "n" (String "d" (String c r)))) + 2)%nat
    with (S (S (S (S (String.length r + S (S (S (S (String.length r + 0)))) + 2))))).
  set (f := (String.length r + S (S (S (S (String.length r + 0)))) + 2)%nat).
  cbn [split_from].
  assert (N1 : forall prev s, rmatch ws1 (MS prev (String "A" s) []) = [])
    by reflexivity.
  assert (N2 : forall prev s, rmatch ws1 (MS prev (String "n" s) []) = [])
    by reflexivity.
  assert (N3 : forall prev s, rmatch ws1 (MS prev (String "d" s) []) = [])
    by reflexivity.
  rewrite N1, N2, N3.
  destruct (rmatch ws1 (MS (Some "d"%char) (String c r) [])) as [|st' rest] eqn:R.
  { exfalso. revert R. apply rmatch_ws1_cons, H2. }
  cbn [String.length Nat.eqb]. rewrite andb_false_r. reflexivity.
Qed.

(** The words that the pattern for boolean values finds are never
    refused. *)
Lemma boolean_words_accepted (f : string -> list diagnostic) condition :
  flat_map
    (fun w =>
       if negb (mem (toLowerCase w) ["true"; "false"; "yes"; "no"; "eligible"])
       then f w else [])
    (match_all re_bool condition) = [].
Proof.
  apply flat_map_nil.
  apply (match_all_texts re_bool
           (fun w => (if negb (mem (toLowerCase w)
                                   ["true"; "false"; "yes"; "no"; "eligible"])
                      then f w else []) = [])).
  intros st st' H. rewrite (re_bool_texts _ _ H). reflexivity.
Qed.

Lemma validateCondition_messages condition lineNum columnOffset lines lineIdx :
  Forall (fun d => condition_message (message d))
         (validateCondition condition lineNum columnOffset lines lineIdx).
Proof.
  unfold validateCondition. rewrite boolean_words_accepted. cbn [app].
  destruct (_ && _).
  - constructor; [left; reflexivity|constructor].
  - repeat (apply Forall_app; split).
    + destruct (test re_between_word condition); [|constructor].
      destruct (exec re_between condition); [constructor|].
      constructor; [right; left; reflexivity|constructor].
    + destruct (negb _); [|constructor].
      constructor; [right; right; left; reflexivity|constructor].
    + apply Forall_flat_map_intro. intro amount.
      destruct (ge_1000 amount); [|constructor].
      destruct (negb _); [|constructor].
      constructor; [|constructor]. right. right. right. exists amount. reflexivity.
Qed.

(** What the pass pushes for a line of a scenario that begins with
    [And]. *)
Lemma and_line_step lines schedules idx l c :
  currentBlock c = Some BScenario ->
  keyword_line "And" (trim l) = true ->
  snd (line_step lines schedules idx l c)
  = (tab_diags lines (Z.of_nat idx) l
     ++ (if opens_group (condition_of (trim l)) then []
         else validateCondition (condition_of (trim l)) (Z.of_nat idx + 1) 4
                                lines (Z.of_nat idx)))%list.
Proof.
  intros B A.
  destruct (and_line_facts (trim l) A) as (E & H1 & H2 & H3 & _).
  unfold line_step. rewrite E, H1, H2, H3, B. unfold scenario_line.
  rewrite (kind_of_and (trim l) A). unfold condition_line.
  rewrite (hd_split_and (trim l) A).
  fold (condition_of (trim l)). fold (opens_group (condition_of (trim l))).
  destruct (opens_group (condition_of (trim l))); cbn [snd fst andb String.eqb];
    rewrite ?app_nil_r; reflexivity.
Qed.

Lemma filter_at_line_none n l :
  Forall (fun d => plain d = true -> line d <> n) l -> filter (at_line_b n) l = [].
Proof.
  intro H. apply filter_none. eapply Forall_impl; [|exact H].
  intros d Hd. cbn beta in Hd. unfold at_line_b.
  destruct (plain d) eqn:P; [|apply andb_false_r].
  rewrite andb_true_r. apply Z.eqb_neq. apply Hd. reflexivity.
Qed.

Lemma filter_at_line_all n l :
  Forall (at_line n) l -> filter (at_line_b n) l = l.
Proof.
  intro H. apply filter_all. eapply Forall_impl; [|exact H].
  intros d [Hl Hm]. unfold at_line_b, plain. rewrite Hl, Hm, Z.eqb_refl.
  reflexivity.
Qed.

(** C10, claim as stated, refuted: the line [And any of these are true:]
    of [and_group_doc] begins with [And] inside a scenario; condition
    validation would report a condition without comparison for its
    text, and nothing is reported: the line opens a group and its text
    is not validated. *)
Lemma and_group_line_not_validated :
  validateCondition (condition_of "And any of these are true:") 3 4
                    (split_lines and_group_doc) 2
  = [Diag 3 4 msg_missing_comparison Error 28 50]
  /\ validateCourgette and_group_doc = [].
Proof. split; vm_compute; reflexivity. Qed.

(** C10, amended: inside a scenario, a line that begins with [And] is
    handled as a condition line, also after a [Then] line. The
    diagnostics anchored at the line are the warning about tabs and,
    unless the text after the keyword opens a group (it ends with [these
    are true:] or [the following:]) and is not validated at all, the
    diagnostics of condition validation for that text, at column 4; so
    no diagnostic of the line carries a message of outcome validation.
    Outcome validation is reached only by lines that begin with
    [Then]. *)
Theorem and_lines_are_conditions
        (text : string) (pre : list string) (hdr : string)
        (body : list string) (l : string) (post : list string) :
  split_lines text = (pre ++ hdr :: body ++ l :: post)%list ->
  opens_scenario hdr = true ->
  Forall (fun x => is_header x = false) body ->
  keyword_line "And" (trim l) = true ->
  filter (at_line_b (Z.of_nat (S (List.length pre + List.length body)) + 1))
         (validateCourgette text)
  = (tab_diags (split_lines text)
               (Z.of_nat (S (List.length pre + List.length body))) l
     ++ (if opens_group (condition_of (trim l)) then []
         else validateCondition
                (condition_of (trim l))
                (Z.of_nat (S (List.length pre + List.length body)) + 1) 4
                (split_lines text)
                (Z.of_nat (S (List.length pre + List.length body)))))%list
  /\ (forall d,
        In d (validateCourgette text) ->
        at_line_b (Z.of_nat (S (List.length pre + List.length body)) + 1) d = true ->
        message d = msg_tabs \/ condition_message (message d))
  /\ (forall t, scenario_line_kind t = KOutcome -> keyword_line "Then" t = true).
Proof.
  intros E Hh Hb A.
  set (i := S (List.length pre + List.length body)).
  set (n := Z.of_nat i + 1).
  assert (F : filter (at_line_b n) (validateCourgette text)
              = (tab_diags (split_lines text) (Z.of_nat i) l
                 ++ (if opens_group (condition_of (trim l)) then []
                     else validateCondition (condition_of (trim l)) n 4
                                            (split_lines text) (Z.of_nat i)))%list).
  { unfold validateCourgette. rewrite validate_lines_eq.
    set (lines := split_lines text) in *.
    set (schedules := collect_schedules lines).
    assert (R : run lines schedules 0 lines init_ctx
                = run lines schedules 0 (pre ++ hdr :: body ++ l :: post) init_ctx)
      by (rewrite <- E; reflexivity).
    rewrite R. clear R.
    set (np := List.length pre) in *.
    assert (I0 : started_by 0 init_ctx) by (intro B; discriminate B).
    destruct (run_upper lines schedules pre 0 init_ctx I0) as [I1 U1].
    rewrite run_app. cbn [fst snd]. cbn [Nat.add] in *. fold np in I1, U1 |- *.
    set (c1 := fst (run lines schedules 0 pre init_ctx)) in *.
    rewrite run_cons. cbn [fst snd].
    pose proof (line_step_started lines schedules np hdr c1 I1) as I2.
    destruct (line_step_scenario lines schedules np hdr c1 Hh) as [nm [Es Fnm]].
    set (c2 := fst (line_step lines schedules np hdr c1)) in *.
    assert (B2 : currentBlock c2 = Some BScenario)
      by (unfold c2; rewrite Es; reflexivity).
    rewrite run_app. cbn [fst snd].
    destruct (run_upper lines schedules body (S np) c2 I2) as [I3 U3].
    pose proof (run_in_block lines schedules body (S np) c2 Hb) as B3.
    rewrite B2 in B3.
    set (c3 := fst (run lines schedules (S np) body c2)) in *.
    replace (S np + List.length body)%nat with i in * by (unfold i, np; lia).
    rewrite run_cons. cbn [fst snd].
    rewrite (and_line_step lines schedules i l c3 B3 A).
    set (c4 := fst (line_step lines schedules i l c3)).
    destruct (run_plain_sorted lines schedules post (S i) c4) as [_ P5].
    rewrite !filter_app.
    rewrite (filter_at_line_none n (snd (run lines schedules 0 pre init_ctx))).
    2:{ eapply Forall_impl; [|exact U1]. cbn. intros d Hd _. unfold n, i. lia. }
    rewrite (filter_at_line_none n (snd (line_step lines schedules np hdr c1))).
    2:{ apply Forall_forall. intros d Hd. apply line_step_diag in Hd.
        destruct Hd as [[Hl _]|[Hd _]].
        - intros _. unfold n, i. lia.
        - pose proof (check_previous_missing lines c1) as M.
          rewrite Forall_forall in M. apply M in Hd.
          unfold plain. rewrite Hd. discriminate. }
    rewrite (filter_at_line_none n (snd (run lines schedules (S np) body c2))).
    2:{ eapply Forall_impl; [|exact U3]. cbn. intros d Hd _. unfold n. lia. }
    rewrite (filter_at_line_none n (snd (run lines schedules (S i) post c4))).
    2:{ apply Forall_forall. intros d Hd Pd.
        rewrite Forall_forall in P5.
        assert (Hf : In d (filter plain (snd (run lines schedules (S i) post c4))))
          by (apply filter_In; split; assumption).
        specialize (P5 _ Hf). unfold n. lia. }
    rewrite (filter_at_line_none n (check_previous lines _)).
    2:{ eapply Forall_impl; [|apply check_previous_missing].
        intros d Hd. unfold plain. rewrite Hd. discriminate. }
    cbn [app]. rewrite !app_nil_r. rewrite <- filter_app.
    apply filter_at_line_all. apply Forall_app. split.
    - apply tab_diags_lines.
    - destruct (opens_group (condition_of (trim l))); [constructor|].
      apply validateCondition_lines. }
  split; [exact F|]. split; [|exact kind_outcome_then].
  intros d Hd Hn.
  assert (Hf : In d (filter (at_line_b n) (validateCourgette text)))
    by (apply filter_In; split; assumption).
  rewrite F in Hf. apply in_app_or in Hf. destruct Hf as [Hf|Hf].
  - left. unfold tab_diags in Hf. destruct (includes l tab); [|destruct Hf].
    destruct Hf as [<-|[]]. reflexivity.
  - right. destruct (opens_group (condition_of (trim l))); [destruct Hf|].
    pose proof (validateCondition_messages (condition_of (trim l)) n 4
                  (split_lines text) (Z.of_nat i)) as M.
    rewrite Forall_forall in M. apply M, Hf.
Qed.

Lemma and_lines_are_conditions_witness :
  split_lines reduction_doc
  = ([] ++ "Scenario: S"
        :: ["  When age > 5"; "  Then payment is $1000 per fortnight"]
        ++ "  And payment reduces by 50 cents per dollar over $200" :: [])%list
  /\ opens_scenario "Scenario: S" = true
  /\ Forall (fun x => is_header x = false)
            ["  When age > 5"; "  Then payment is $1000 per fortnight"]
  /\ keyword_line "And"
       (trim "  And payment reduces by 50 cents per dollar over $200") = true
  /\ filter (at_line_b 4) (validateCourgette reduction_doc)
     = [Diag 4 4 msg_missing_comparison Error 68 116]
  /\ validateCourgette reduction_doc
     = [Diag 4 4 msg_missing_comparison Error 68 116].
Proof.
  assert (H1 : split_lines reduction_doc
               = ([] ++ "Scenario: S"
                     :: ["  When age > 5"; "  Then payment is $1000 per fortnight"]
                     ++ "  And payment reduces by 50 cents per dollar over $200"
                     :: [])%list)
    by (vm_compute; reflexivity).
  assert (H2 : opens_scenario "Scenario: S" = true) by (vm_compute; reflexivity).
  assert (H3 : Forall (fun x => is_header x = false)
                      ["  When age > 5"; "  Then payment is $1000 per fortnight"])
    by (repeat (constructor; [vm_compute; reflexivity|]); constructor).
  assert (H4 : keyword_line "And"
                 (trim "  And payment reduces by 50 cents per dollar over $200")
               = true) by (vm_compute; reflexivity).
  split; [exact H1|]. split; [exact H2|]. split; [exact H3|]. split; [exact H4|].
  split; [|vm_compute; reflexivity].
  etransitivity;
    [exact (proj1 (and_lines_are_conditions reduction_doc [] "Scenario: S"
                     ["  When age > 5"; "  Then payment is $1000 per fortnight"]
                     "  And payment reduces by 50 cents per dollar over $200" []
                     H1 H2 H3 H4))|].
  vm_compute. reflexivity.
Defined.

(* ================================================================= *)
(** * Schedule conditions *)

Lemma needs_digit_group n : needs_digit (Group n (Plus dg)).
Proof.
  intros st H. unfold Plus, dg. cbn [rmatch].
  destruct (ms_rest st) as [|c t]; [reflexivity|].
  unfold no_digit in H. cbn [all_chars] in H. apply andb_true_iff in H.
  destruct H as [H _]. apply negb_true_iff in H. rewrite H. reflexivity.
Qed.

Lemma needs_digit_seq a b : needs_digit b -> needs_digit (Seq a b).
Proof.
  intros Hb st H. cbn [rmatch]. apply flat_map_nil. apply Forall_forall.
  intros st1 H1. apply Hb. destruct (rmatch_suffix a st st1 H1) as [x E].
  unfold no_digit in *. rewrite E, all_chars_app in H.
  apply andb_true_iff in H. exact (proj2 H).
Qed.

Lemma search_needs_digit r : needs_digit r ->
  forall s skipped prev, no_digit s -> search r skipped prev s = None.
Proof.
  intros Hr. induction s as [|c s IH]; intros skipped prev H;
    rewrite search_eq, (Hr (MS prev _ [])) by exact H; [reflexivity|].
  apply IH. unfold no_digit in *. cbn [all_chars] in H.
  apply andb_true_iff in H. exact (proj2 H).
Qed.

Lemma replace_all_needs_digit r tmpl s :
  needs_digit r -> no_digit s -> replace_all r tmpl s = s.
Proof.
  intros Hr H. unfold replace_all, exec_all. cbn [exec_all_from].
  rewrite (search_needs_digit r Hr s EmptyString None H). reflexivity.
Qed.

Lemma replace_chain_needs_digit l : forall s,
  Forall (fun p => needs_digit (fst p)) l -> no_digit s -> replace_chain l s = s.
Proof.
  unfold replace_chain. induction l as [|p l IH]; intros s F H; [reflexivity|].
  inversion F as [|? ? Hp F']; subst. cbn [fold_left].
  rewrite (replace_all_needs_digit _ _ _ Hp H). apply IH; assumption.
Qed.

Lemma needs_digit_natural l : needs_digit (V2.re_natural l).
Proof.
  unfold V2.re_natural. cbn [seqs]. do 4 apply needs_digit_seq.
  apply needs_digit_group.
Qed.

Lemma needs_digit_symbolic op : needs_digit (V2.re_symbolic op).
Proof.
  unfold V2.re_symbolic. cbn [seqs]. do 4 apply needs_digit_seq.
  apply needs_digit_group.
Qed.

Lemma needs_digit_between : needs_digit V2.re_schedule_between.
Proof.
  unfold V2.re_schedule_between. cbn [seqs]. do 8 apply needs_digit_seq.
  apply needs_digit_group.
Qed.

(** X15: every pattern of [parseScheduleCondition] asks for a number,
    so a schedule condition without digit is not rewritten: unless it
    holds the text [person(] itself, it is compared as a whole with
    [family_situation]. Whatever the condition is, the code returned
    holds [person(]. *)
Theorem schedule_condition_without_number (condition : string) :
  no_digit condition ->
  includes condition "person(" = false ->
  V2.parseScheduleCondition condition
  = ("person('family_situation', period) == '" ++ condition ++ "'")%string
  /\ forall c, includes (V2.parseScheduleCondition c) "person(" = true.
Proof.
  intros D P. split.
  - unfold V2.parseScheduleCondition, exec.
    rewrite (search_needs_digit _ needs_digit_between condition EmptyString None D).
    rewrite replace_chain_needs_digit; [rewrite P; reflexivity| |exact D].
    repeat constructor; cbn [fst];
      auto using needs_digit_natural, needs_digit_symbolic.
  - intro c. unfold V2.parseScheduleCondition.
    destruct (exec V2.re_schedule_between c); [reflexivity|].
    match goal with
    | |- context [if negb (includes ?p "person(") then _ else _] =>
        destruct (includes p "person(") eqn:E
    end; cbn [negb]; [exact E|reflexivity].
Qed.

Lemma schedule_condition_without_number_witness :
  no_digit "single"
  /\ includes "single" "person(" = false
  /\ V2.parseScheduleCondition "single"
     = "person('family_situation', period) == 'single'"%string.
Proof.
  assert (H1 : no_digit "single") by reflexivity.
  assert (H2 : includes "single" "person(" = false) by reflexivity.
  split; [exact H1|]. split; [exact H2|].
  exact (proj1 (schedule_condition_without_number "single" H1 H2)).
Defined.
